(** * nebula_node_container.launch.py: the pipeline configuration resolver

    A shallow embedding of [common_sensor_launch/launch/nebula_node_container.launch.py]
    and the properties of it that the specification states.

    The launch file is straight-line Python: it classifies the sensor model,
    resolves three file paths against the file system, derives crop bounds
    from the vehicle dimensions and from a mirror parameter file, and
    describes five composable nodes, two alternative ways of hosting them and
    a loader for the hardware-interface node.  The embedding keeps that
    shape: Python strings are [string]s, Python floats are binary64 floats,
    dictionaries are insertion-ordered association lists, exceptions are an
    error type, and the statements of [launch_setup] run in a small
    state-and-error monad whose state holds the dictionary objects the
    function mutates and the trace of what it did to the outside world. *)

From Stdlib Require Import String Ascii List Bool Arith ZArith Lia Floats.
Import ListNotations.

Set Warnings "-inexact-float,-register-all".

Local Open Scope list_scope.
Local Open Scope string_scope.

(** ** Python strings *)

Module PyStr.

(** [str.lower] on one character.  A character is a code point below 256;
    there Python lowers the ASCII capitals and the Latin-1 capitals
    U+00C0..U+00DE other than the multiplication sign U+00D7, each by
    adding 32, and leaves every other character alone. *)
Definition lower_char (c : ascii) : ascii :=
  let n := nat_of_ascii c in
  if (((65 <=? n) && (n <=? 90))
      || ((192 <=? n) && (n <=? 222) && negb (n =? 215)))%nat
  then ascii_of_nat (n + 32)
  else c.

(** [s.lower()] *)
Fixpoint lower (s : string) : string :=
  match s with
  | EmptyString => EmptyString
  | String c s' => String (lower_char c) (lower s')
  end.

(** [s[:n]]: the first [n] characters, all of [s] when it is shorter. *)
Fixpoint take (n : nat) (s : string) : string :=
  match n, s with
  | S n', String c s' => String c (take n' s')
  | _, _ => EmptyString
  end.

(** [s.startswith(c)] and [s.endswith(c)] for a single character [c]. *)
Definition starts_with_char (c : ascii) (s : string) : bool :=
  match s with
  | String c' _ => Ascii.eqb c' c
  | EmptyString => false
  end.

Fixpoint ends_with_char (c : ascii) (s : string) : bool :=
  match s with
  | EmptyString => false
  | String c' EmptyString => Ascii.eqb c' c
  | String _ s' => ends_with_char c s'
  end.

(** [x in xs] for a list of strings. *)
Fixpoint mem (x : string) (xs : list string) : bool :=
  match xs with
  | [] => false
  | y :: ys => String.eqb x y || mem x ys
  end.

(** [c.isspace()] below code point 256: the ASCII blanks 9..13 and 32, the
    separators 28..31, NEL (133) and the no-break space (160). *)
Definition is_space (c : ascii) : bool :=
  let n := nat_of_ascii c in
  (((9 <=? n) && (n <=? 13)) || ((28 <=? n) && (n <=? 32))
   || (n =? 133) || (n =? 160))%nat.

Fixpoint lstrip (s : string) : string :=
  match s with
  | String c s' => if is_space c then lstrip s' else s
  | EmptyString => EmptyString
  end.

(** Drops trailing blanks: a character is kept when it is not a blank or
    something is kept after it. *)
Fixpoint rstrip (s : string) : string :=
  match s with
  | EmptyString => EmptyString
  | String c s' =>
      match rstrip s' with
      | EmptyString => if is_space c then EmptyString else String c EmptyString
      | kept => String c kept
      end
  end.

(** [s.strip()] *)
Definition strip (s : string) : string := rstrip (lstrip s).

End PyStr.

(** ** Python dictionaries

    A [dict] keeps its keys in insertion order and holds one entry per key.
    Assigning to a key that is present replaces the value where it stands;
    assigning to a new key appends the entry. *)

Definition dict (V : Type) : Type := list (string * V).

Module PyDict.

(** [d.get(k)] *)
Fixpoint get {V : Type} (k : string) (d : dict V) : option V :=
  match d with
  | [] => None
  | (k', v) :: d' => if String.eqb k' k then Some v else get k d'
  end.

(** [d[k] = v] *)
Fixpoint set {V : Type} (k : string) (v : V) (d : dict V) : dict V :=
  match d with
  | [] => [(k, v)]
  | (k', v') :: d' =>
      if String.eqb k' k then (k', v) :: d' else (k', v') :: set k v d'
  end.

(** [d.update(other)], which is also how [{**d, **other}] fills a literal. *)
Definition update {V : Type} (d other : dict V) : dict V :=
  fold_left (fun acc kv => set (fst kv) (snd kv) acc) other d.

(** [not d] *)
Definition is_empty {V : Type} (d : dict V) : bool :=
  match d with
  | [] => true
  | _ :: _ => false
  end.

End PyDict.

(** ** os.path.join

    [posixpath.join]: a component that starts with a slash restarts the
    path; otherwise it is appended, after a slash unless the path so far is
    empty or already ends with one. *)

Definition join_component (path b : string) : string :=
  if PyStr.starts_with_char "/" b then b
  else if String.eqb path "" || PyStr.ends_with_char "/" path then path ++ b
  else path ++ "/" ++ b.

Definition os_path_join (a : string) (p : list string) : string :=
  fold_left join_component p a.

(** ** Values, exceptions and outcomes *)

(** The Python values that travel through the launch file: YAML scalars and
    mappings, the floats of the vehicle geometry, the flag [True], and
    [LaunchConfiguration(name)] substitutions that stay unevaluated inside
    parameter dictionaries. *)
Inductive value : Type :=
| VBool (b : bool)
| VInt (z : Z)
| VFloat (f : float)
| VStr (s : string)
| VSubst (name : string)
| VDict (d : list (string * value)).

Inductive exn : Type :=
| ValueError (msg : string)
| KeyError (key : string)
| TypeError (msg : string)
| AssertionError (msg : string)
| PackageNotFoundError (pkg : string)
| SubstitutionFailure (name : string)
| InvalidConditionExpressionError (expr : string)
| OSError (path : string).

(** A Python expression either has a value or raises. *)
Inductive outcome (A : Type) : Type :=
| Ok (a : A)
| Raise (e : exn).

Arguments Ok {A} a.
Arguments Raise {A} e.

Definition obind {A B : Type} (m : outcome A) (f : A -> outcome B) : outcome B :=
  match m with
  | Ok a => f a
  | Raise e => Raise e
  end.

Declare Scope outcome_scope.
Delimit Scope outcome_scope with outcome.
Notation "x <-- m ;; k" := (obind m (fun x => k))
  (at level 61, m at next level, right associativity) : outcome_scope.

(** [d[k]] on a dictionary. *)
Definition getitem {V : Type} (d : dict V) (k : string) : outcome V :=
  match PyDict.get k d with
  | Some v => Ok v
  | None => Raise (KeyError k)
  end.

(** [v[k]] on a value: only a mapping can be indexed by a string. *)
Definition value_getitem (v : value) (k : string) : outcome value :=
  match v with
  | VDict d => getitem d k
  | VStr _ => Raise (TypeError "string indices must be integers")
  | _ => Raise (TypeError "object is not subscriptable")
  end.

(** ** Sensor model classification *)

(** What [get_lidar_make] returns: a pair of strings on the two recognised
    branches, one bare string on the last line. *)
Inductive make_result : Type :=
| MakePair (make extension : string)
| MakeStr (s : string).

(** [get_lidar_make(sensor_name)], lines 32-37. *)
Definition get_lidar_make (sensor_name : string) : make_result :=
  if String.eqb (PyStr.lower (PyStr.take 6 sensor_name)) "pandar" then
    MakePair "Hesai" ".csv"
  else if PyStr.mem (PyStr.lower (PyStr.take 3 sensor_name)) ["hdl"; "vlp"; "vls"] then
    MakePair "Velodyne" ".yaml"
  else
    MakeStr "unrecognized_sensor_model".

(** [a, b = r], line 74.  A pair unpacks into its components.  A string is
    iterated character by character, so it unpacks only when it has exactly
    two characters and raises [ValueError] otherwise. *)
Definition unpack2 (r : make_result) : outcome (string * string) :=
  match r with
  | MakePair a b => Ok (a, b)
  | MakeStr (String a (String b EmptyString)) =>
      Ok (String a EmptyString, String b EmptyString)
  | MakeStr (String _ (String _ (String _ _))) =>
      Raise (ValueError "too many values to unpack (expected 2)")
  | MakeStr _ =>
      Raise (ValueError "not enough values to unpack (expected 2)")
  end.

(** ** The launch context and the host *)

(** [context.launch_configurations].  The launch arguments are strings; the
    entries "ros_params" and "global_params", which [get_vehicle_info] reads
    with [.get], hold dictionaries of vehicle dimensions and are kept in
    fields of their own ([None] when the key is absent). *)
Record LaunchContext : Type := {
  launch_configurations : dict string;
  ros_params : option (dict float);
  global_params : option (dict float)
}.

(** What the launch file asks of the machine it runs on: the ament index,
    [os.path.exists], and [open] followed by [yaml.safe_load] ([None] when
    either raises). *)
Record Host : Type := {
  package_share_directory : string -> option string;
  path_exists : string -> bool;
  yaml_file : string -> option value
}.

(** [LaunchConfiguration(name).perform(context)] *)
Definition perform (context : LaunchContext) (name : string) : outcome string :=
  match PyDict.get name (launch_configurations context) with
  | Some s => Ok s
  | None => Raise (SubstitutionFailure name)
  end.

(** launch's [evaluate_condition_expression]: the expanded text is stripped
    and lowercased, then read as a truth value. *)
Definition evaluate_condition_expression (expanded : string) : outcome bool :=
  let e := PyStr.lower (PyStr.strip expanded) in
  if PyStr.mem e ["true"; "1"] then Ok true
  else if PyStr.mem e ["false"; "0"] then Ok false
  else Raise (InvalidConditionExpressionError e).

(** A condition over [LaunchConfiguration(name)]. *)
Inductive condition : Type :=
| IfCondition (name : string)
| UnlessCondition (name : string).

(** [condition.evaluate(context)] *)
Definition evaluate (context : LaunchContext) (c : condition) : outcome bool :=
  match c with
  | IfCondition name =>
      (s <-- perform context name ;; evaluate_condition_expression s)%outcome
  | UnlessCondition name =>
      (s <-- perform context name ;;
       b <-- evaluate_condition_expression s ;;
       Ok (negb b))%outcome
  end.

(** ** Vehicle geometry *)

Local Open Scope float_scope.

(** [get_vehicle_info(context)], lines 40-55. *)
Definition get_vehicle_info (context : LaunchContext) : outcome (dict float) :=
  let gp := match ros_params context with Some d => d | None => [] end in
  let gp :=
    if PyDict.is_empty gp
    then match global_params context with Some d => d | None => [] end
    else gp in
  let p : dict float := [] in
  (front_overhang <-- getitem gp "front_overhang" ;;
   wheel_base <-- getitem gp "wheel_base" ;;
   rear_overhang <-- getitem gp "rear_overhang" ;;
   let p := PyDict.set "vehicle_length" (front_overhang + wheel_base + rear_overhang) p in
   wheel_tread <-- getitem gp "wheel_tread" ;;
   left_overhang <-- getitem gp "left_overhang" ;;
   right_overhang <-- getitem gp "right_overhang" ;;
   let p := PyDict.set "vehicle_width" (wheel_tread + left_overhang + right_overhang) p in
   rear_overhang <-- getitem gp "rear_overhang" ;;
   let p := PyDict.set "min_longitudinal_offset" (- rear_overhang) p in
   front_overhang <-- getitem gp "front_overhang" ;;
   wheel_base <-- getitem gp "wheel_base" ;;
   let p := PyDict.set "max_longitudinal_offset" (front_overhang + wheel_base) p in
   wheel_tread <-- getitem gp "wheel_tread" ;;
   right_overhang <-- getitem gp "right_overhang" ;;
   let p := PyDict.set "min_lateral_offset" (- (wheel_tread / 2.0 + right_overhang)) p in
   wheel_tread <-- getitem gp "wheel_tread" ;;
   left_overhang <-- getitem gp "left_overhang" ;;
   let p := PyDict.set "max_lateral_offset" (wheel_tread / 2.0 + left_overhang) p in
   let p := PyDict.set "min_height_offset" 0.0 p in
   vehicle_height <-- getitem gp "vehicle_height" ;;
   let p := PyDict.set "max_height_offset" vehicle_height p in
   Ok p)%outcome.

Local Close Scope float_scope.

(** ** The state of a run

    [launch_setup] mutates one dictionary, [cropbox_parameters], between the
    construction of the two crop-box nodes that are both given it.  Dictionary
    objects therefore live in a heap and are named by reference; assigning to
    a key updates the object in place.  The trace records, in order, what the
    run did: warnings, calls to the ament index and to the file system, and
    every assignment to a key of a heap dictionary. *)

Definition ref : Type := nat.

Inductive event : Type :=
| EvWarn (msg : string)
| EvShareDirectory (pkg : string)
| EvExists (path : string)
| EvOpen (path : string)
| EvSetItem (r : ref) (key : string) (v : value).

Record state : Type := {
  heap : list (dict value);
  trace : list event
}.

Definition initial_state : state := {| heap := []; trace := [] |}.

Definition log (e : event) (s : state) : state :=
  {| heap := heap s; trace := trace s ++ [e] |}.

(** Replaces the object at reference [r]. *)
Fixpoint heap_store (r : ref) (d : dict value) (h : list (dict value)) : list (dict value) :=
  match r, h with
  | O, _ :: h' => d :: h'
  | S r', d' :: h' => d' :: heap_store r' d h'
  | _, [] => []
  end.

(** Statements: state in, outcome and state out.  The state survives an
    exception, so the trace shows how far the run got. *)
Definition M (A : Type) : Type := state -> outcome A * state.

Definition ret {A : Type} (a : A) : M A := fun s => (Ok a, s).

Definition raise {A : Type} (e : exn) : M A := fun s => (Raise e, s).

Definition bind {A B : Type} (m : M A) (f : A -> M B) : M B :=
  fun s =>
    match m s with
    | (Ok a, s') => f a s'
    | (Raise e, s') => (Raise e, s')
    end.

(** An expression evaluated inside a statement. *)
Definition lift {A : Type} (o : outcome A) : M A := fun s => (o, s).

Declare Scope stmt_scope.
Delimit Scope stmt_scope with stmt.
Notation "x <- m ;; k" := (bind m (fun x => k))
  (at level 61, m at next level, right associativity) : stmt_scope.
Notation "' pat <- m ;; k" := (bind m (fun x => match x with pat => k end))
  (at level 61, pat pattern, m at next level, right associativity) : stmt_scope.
Notation "m ;; k" := (bind m (fun _ => k))
  (at level 61, right associativity) : stmt_scope.

(** [warnings.warn(msg, RuntimeWarning)] *)
Definition warn (msg : string) : M unit := fun s => (Ok tt, log (EvWarn msg) s).

(** [assert cond, msg] *)
Definition py_assert (cond : bool) (msg : string) : M unit :=
  if cond then ret tt else raise (AssertionError msg).

(** A new dictionary object holding [d]; its reference is the next free one. *)
Definition new_dict (d : dict value) : M ref :=
  fun s => (Ok (length (heap s)), {| heap := heap s ++ [d]; trace := trace s |}).

(** The dictionary a reference names now. *)
Definition deref (r : ref) : M (dict value) :=
  fun s =>
    match nth_error (heap s) r with
    | Some d => (Ok d, s)
    | None => (Raise (ValueError "dangling reference"), s)
    end.

(** [obj[key] = v] on the dictionary object at [r]. *)
Definition setitem (r : ref) (key : string) (v : value) : M unit :=
  (d <- deref r ;;
   fun s => (Ok tt, log (EvSetItem r key v)
                      {| heap := heap_store r (PyDict.set key v d) (heap s);
                         trace := trace s |}))%stmt.

(** ** Node and action descriptions *)

(** A [launch_ros.descriptions.ComposableNode] as it stands once built. *)
Record ComposableNode : Type := {
  node_package : string;
  node_plugin : string;
  node_name : string;
  node_parameters : option (list value);
  node_remappings : option (list (string * string));
  node_extra_arguments : option (list value)
}.

(** An entry of a [parameters=[...]] argument: a value written in place, or
    a dictionary object the caller still holds. *)
Inductive arg : Type :=
| Val (v : value)
| Obj (r : ref).

(** launch_ros normalises [parameters] inside the constructor: a mapping is
    read entry by entry into a dictionary of the description's own, a string
    or a substitution names a parameter file, and anything else is refused.
    The description thus holds what the caller's dictionary contained when
    the node was built, and later assignments to that dictionary do not
    reach it.  (How launch_ros represents names and strings inside the copy
    is not modelled: the copy keeps the keys and the values.) *)
Definition normalize_parameter (a : arg) : M value :=
  match a with
  | Obj r => (d <- deref r ;; ret (VDict d))%stmt
  | Val (VDict d) => ret (VDict d)
  | Val (VStr path) => ret (VStr path)
  | Val (VSubst name) => ret (VSubst name)
  | Val _ => raise (TypeError "parameters")
  end.

Fixpoint normalize_parameters (ps : list arg) : M (list value) :=
  match ps with
  | [] => ret []
  | a :: ps' =>
      (v <- normalize_parameter a ;;
       vs <- normalize_parameters ps' ;;
       ret (v :: vs))%stmt
  end.

Definition normalize_optional (ps : option (list arg)) : M (option (list value)) :=
  match ps with
  | None => ret None
  | Some l => (vs <- normalize_parameters l ;; ret (Some vs))%stmt
  end.

(** [ComposableNode(package=..., plugin=..., name=..., parameters=...,
    remappings=..., extra_arguments=...)] *)
Definition new_ComposableNode (package plugin name : string)
    (parameters : option (list arg))
    (remappings : option (list (string * string)))
    (extra_arguments : option (list arg)) : M ComposableNode :=
  (ps <- normalize_optional parameters ;;
   ea <- normalize_optional extra_arguments ;;
   ret {| node_package := package;
          node_plugin := plugin;
          node_name := name;
          node_parameters := ps;
          node_remappings := remappings;
          node_extra_arguments := ea |})%stmt.

(** [launch_ros.actions.ComposableNodeContainer] *)
Record ComposableNodeContainer : Type := {
  container_name : value;
  container_namespace : string;
  container_package : string;
  container_executable : value;
  container_nodes : list ComposableNode;
  container_condition : condition;
  container_output : string
}.

(** What a loader is pointed at: a container action of this launch file, or
    the name of a container that runs already. *)
Inductive target : Type :=
| TargetContainer (c : ComposableNodeContainer)
| TargetName (name : value).

(** [launch_ros.actions.LoadComposableNodes] *)
Record LoadComposableNodes : Type := {
  load_nodes : list ComposableNode;
  load_target : target;
  load_condition : condition
}.

Inductive action : Type :=
| Container (c : ComposableNodeContainer)
| Load (l : LoadComposableNodes).

(** ** launch_setup *)

(** [create_parameter_dict], lines 66-70, applied to the list of its arguments. *)
Definition create_parameter_dict (args : list string) : dict value :=
  fold_left (fun result x => PyDict.set x (VSubst x) result) args [].

Section Launch.

Variable host : Host.

(** [get_package_share_directory(pkg)] *)
Definition get_package_share_directory (pkg : string) : M string :=
  fun s =>
    match package_share_directory host pkg with
    | Some dir => (Ok dir, log (EvShareDirectory pkg) s)
    | None => (Raise (PackageNotFoundError pkg), log (EvShareDirectory pkg) s)
    end.

(** [os.path.exists(path)] *)
Definition os_path_exists (path : string) : M bool :=
  fun s => (Ok (path_exists host path), log (EvExists path) s).

(** [with open(path, "r") as f: yaml.safe_load(f)] *)
Definition open_yaml (path : string) : M value :=
  fun s =>
    match yaml_file host path with
    | Some doc => (Ok doc, log (EvOpen path) s)
    | None => (Raise (OSError path), log (EvOpen path) s)
    end.

(** [get_vehicle_mirror_info(context)], lines 58-62. *)
Definition get_vehicle_mirror_info (context : LaunchContext) : M value :=
  (path <- lift (perform context "vehicle_mirror_param_file") ;;
   doc <- open_yaml path ;;
   top <- lift (value_getitem doc "/**") ;;
   p <- lift (value_getitem top "ros__parameters") ;;
   ret p)%stmt.

(** The "# Config" part of [launch_setup], lines 81-110, from the two paths
    read off the launch configuration to the two assertions.  It yields
    [(sensor_params_fp, sensor_calib_fp, sensor_correction_fp)]. *)
Definition launch_setup_config
    (sensor_model sensor_make sensor_extension : string)
    (nebula_decoders_share_dir nebula_ros_share_dir : string)
    (sensor_params_fp sensor_correction_fp : string) : M (string * string * string) :=
  (sensor_params_fp <-
     (if String.eqb sensor_params_fp "" then
        warn "No config file provided, using sensor model default" ;;
        ret (os_path_join nebula_ros_share_dir
               ["config"; PyStr.lower sensor_make; sensor_model ++ ".yaml"])
      else ret sensor_params_fp) ;;
   let sensor_calib_fp :=
     os_path_join nebula_decoders_share_dir
       ["calibration"; PyStr.lower sensor_make; sensor_model ++ sensor_extension] in
   sensor_correction_fp <-
     (if String.eqb sensor_correction_fp "" then
        warn "No correction file provided, using sensor model default" ;;
        ret (os_path_join nebula_decoders_share_dir
               ["calibration"; PyStr.lower sensor_make; sensor_model ++ ".dat"])
      else ret sensor_correction_fp) ;;
   found <- os_path_exists sensor_correction_fp ;;
   let sensor_correction_fp := if negb found then "" else sensor_correction_fp in
   found <- os_path_exists sensor_params_fp ;;
   let sensor_params_fp :=
     if negb found
     then os_path_join nebula_ros_share_dir ["config"; "BaseParams.yaml"]
     else sensor_params_fp in
   found <- os_path_exists sensor_params_fp ;;
   py_assert found
     ("Sensor params yaml file under config/ was not found: " ++ sensor_params_fp) ;;
   found <- os_path_exists sensor_calib_fp ;;
   py_assert found
     ("Sensor calib file under calibration/ was not found: " ++ sensor_calib_fp) ;;
   ret (sensor_params_fp, sensor_calib_fp, sensor_correction_fp))%stmt.

(** [extra_arguments=[{"use_intra_process_comms": LaunchConfiguration("use_intra_process")}]] *)
Definition intra_process_arguments : option (list arg) :=
  Some [Val (VDict [("use_intra_process_comms", VSubst "use_intra_process")])].

(** The node list of [launch_setup], lines 114-220. *)
Definition launch_setup_nodes (context : LaunchContext)
    (sensor_model sensor_make : string) (sensor_params : value)
    (sensor_calib_fp sensor_correction_fp : string) : M (list ComposableNode) :=
  (let nodes : list ComposableNode := [] in
   node <- new_ComposableNode
     "nebula_ros"
     (sensor_make ++ "DriverRosWrapper")
     (PyStr.lower sensor_make ++ "_driver_ros_wrapper_node")
     (Some [Val sensor_params;
            Val (VDict (PyDict.update
                          [("calibration_file", VStr sensor_calib_fp);
                           ("correction_file", VStr sensor_correction_fp);
                           ("sensor_model", VStr sensor_model)]
                          (create_parameter_dict
                             ["return_mode"; "min_range"; "max_range"; "frame_id";
                              "scan_phase"; "cloud_min_angle"; "cloud_max_angle";
                              "dual_return_distance_threshold"])))])
     (Some [("aw_points", "pointcloud_raw"); ("aw_points_ex", "pointcloud_raw_ex")])
     intra_process_arguments ;;
   let nodes := (nodes ++ [node])%list in

   cropbox_parameters <- new_dict (create_parameter_dict ["input_frame"; "output_frame"]) ;;
   setitem cropbox_parameters "negative" (VBool true) ;;

   vehicle_info <- lift (get_vehicle_info context) ;;
   v <- lift (getitem vehicle_info "min_longitudinal_offset") ;;
   setitem cropbox_parameters "min_x" (VFloat v) ;;
   v <- lift (getitem vehicle_info "max_longitudinal_offset") ;;
   setitem cropbox_parameters "max_x" (VFloat v) ;;
   v <- lift (getitem vehicle_info "min_lateral_offset") ;;
   setitem cropbox_parameters "min_y" (VFloat v) ;;
   v <- lift (getitem vehicle_info "max_lateral_offset") ;;
   setitem cropbox_parameters "max_y" (VFloat v) ;;
   v <- lift (getitem vehicle_info "min_height_offset") ;;
   setitem cropbox_parameters "min_z" (VFloat v) ;;
   v <- lift (getitem vehicle_info "max_height_offset") ;;
   setitem cropbox_parameters "max_z" (VFloat v) ;;

   node <- new_ComposableNode
     "pointcloud_preprocessor"
     "pointcloud_preprocessor::CropBoxFilterComponent"
     "crop_box_filter_self"
     (Some [Obj cropbox_parameters])
     (Some [("input", "pointcloud_raw_ex"); ("output", "self_cropped/pointcloud_ex")])
     intra_process_arguments ;;
   let nodes := (nodes ++ [node])%list in

   mirror_info <- get_vehicle_mirror_info context ;;
   v <- lift (value_getitem mirror_info "min_longitudinal_offset") ;;
   setitem cropbox_parameters "min_x" v ;;
   v <- lift (value_getitem mirror_info "max_longitudinal_offset") ;;
   setitem cropbox_parameters "max_x" v ;;
   v <- lift (value_getitem mirror_info "min_lateral_offset") ;;
   setitem cropbox_parameters "min_y" v ;;
   v <- lift (value_getitem mirror_info "max_lateral_offset") ;;
   setitem cropbox_parameters "max_y" v ;;
   v <- lift (value_getitem mirror_info "min_height_offset") ;;
   setitem cropbox_parameters "min_z" v ;;
   v <- lift (value_getitem mirror_info "max_height_offset") ;;
   setitem cropbox_parameters "max_z" v ;;

   node <- new_ComposableNode
     "pointcloud_preprocessor"
     "pointcloud_preprocessor::CropBoxFilterComponent"
     "crop_box_filter_mirror"
     (Some [Obj cropbox_parameters])
     (Some [("input", "self_cropped/pointcloud_ex");
            ("output", "mirror_cropped/pointcloud_ex")])
     intra_process_arguments ;;
   let nodes := (nodes ++ [node])%list in

   node <- new_ComposableNode
     "pointcloud_preprocessor"
     "pointcloud_preprocessor::DistortionCorrectorComponent"
     "distortion_corrector_node"
     None
     (Some [("~/input/twist", "/sensing/vehicle_velocity_converter/twist_with_covariance");
            ("~/input/imu", "/sensing/imu/imu_data");
            ("~/input/pointcloud", "mirror_cropped/pointcloud_ex");
            ("~/output/pointcloud", "rectified/pointcloud_ex")])
     intra_process_arguments ;;
   let nodes := (nodes ++ [node])%list in

   node <- new_ComposableNode
     "pointcloud_preprocessor"
     "pointcloud_preprocessor::RingOutlierFilterComponent"
     "ring_outlier_filter"
     None
     (Some [("input", "rectified/pointcloud_ex");
            ("output", "outlier_filtered/pointcloud")])
     intra_process_arguments ;;
   let nodes := (nodes ++ [node])%list in
   ret nodes)%stmt.

(** The containers and loaders of [launch_setup], lines 222-276. *)
Definition launch_setup_actions (context : LaunchContext)
    (sensor_model sensor_make sensor_calib_fp : string)
    (nodes : list ComposableNode) : M (list action) :=
  (let container :=
     {| container_name := VSubst "container_name";
        container_namespace := "pointcloud_preprocessor";
        container_package := "rclcpp_components";
        container_executable := VSubst "container_executable";
        container_nodes := nodes;
        container_condition := UnlessCondition "use_pointcloud_container";
        container_output := "screen" |} in
   let component_loader :=
     {| load_nodes := nodes;
        load_target := TargetName (VSubst "container_name");
        load_condition := IfCondition "use_pointcloud_container" |} in
   driver_component <- new_ComposableNode
     "nebula_ros"
     (sensor_make ++ "HwInterfaceRosWrapper")
     (PyStr.lower sensor_make ++ "_hw_interface_ros_wrapper_node")
     (Some [Val (VDict (PyDict.update
                          [("sensor_model", VStr sensor_model);
                           ("calibration_file", VStr sensor_calib_fp)]
                          (create_parameter_dict
                             ["sensor_ip"; "host_ip"; "scan_phase"; "return_mode";
                              "frame_id"; "rotation_speed"; "data_port"; "gnss_port";
                              "cloud_min_angle"; "cloud_max_angle"])))])
     None
     None ;;
   dedicated <- lift (evaluate context (UnlessCondition "use_pointcloud_container")) ;;
   let target_container :=
     if dedicated then TargetContainer container
     else TargetName (VSubst "container_name") in
   let driver_component_loader :=
     {| load_nodes := [driver_component];
        load_target := target_container;
        load_condition := IfCondition "launch_driver" |} in
   ret [Container container; Load component_loader; Load driver_component_loader])%stmt.

(** [launch_setup(context)], lines 65-276. *)
Definition launch_setup (context : LaunchContext) : M (list action) :=
  (sensor_model <- lift (perform context "sensor_model") ;;
   '(sensor_make, sensor_extension) <- lift (unpack2 (get_lidar_make sensor_model)) ;;
   nebula_decoders_share_dir <- get_package_share_directory "nebula_decoders" ;;
   nebula_ros_share_dir <- get_package_share_directory "nebula_ros" ;;
   sensor_params_fp <- lift (perform context "config_file") ;;
   sensor_correction_fp <- lift (perform context "sensor_correction_file") ;;
   '(sensor_params_fp, sensor_calib_fp, sensor_correction_fp) <-
     launch_setup_config sensor_model sensor_make sensor_extension
       nebula_decoders_share_dir nebula_ros_share_dir
       sensor_params_fp sensor_correction_fp ;;
   doc <- open_yaml sensor_params_fp ;;
   top <- lift (value_getitem doc "/**") ;;
   sensor_params <- lift (value_getitem top "ros__parameters") ;;
   nodes <- launch_setup_nodes context sensor_model sensor_make sensor_params
              sensor_calib_fp sensor_correction_fp ;;
   launch_setup_actions context sensor_model sensor_make sensor_calib_fp nodes)%stmt.

End Launch.

(** * The vocabulary of the specification *)

(** ** Classification *)

(** A model is recognised when one of the two prefix tests passes. *)
Definition recognized (sensor_name : string) : bool :=
  String.eqb (PyStr.lower (PyStr.take 6 sensor_name)) "pandar"
  || PyStr.mem (PyStr.lower (PyStr.take 3 sensor_name)) ["hdl"; "vlp"; "vls"].

(** ** Vehicle dimensions *)

(** The dictionary [get_vehicle_info] takes the dimensions from: "ros_params"
    when it is present and not empty, "global_params" otherwise. *)
Definition selects_dimensions (context : LaunchContext) (gp : dict float) : Prop :=
  (ros_params context = Some gp /\ gp <> []) \/
  ((ros_params context = None \/ ros_params context = Some []) /\
   global_params context = Some gp).

(** The dimensions of the specification's example. *)
Definition example_dimensions : dict float :=
  [("front_overhang", 0.5%float); ("rear_overhang", 0.5%float);
   ("wheel_base", 2.5%float); ("wheel_tread", 1.5%float);
   ("left_overhang", 0.2%float); ("right_overhang", 0.2%float);
   ("vehicle_height", 1.8%float)].

Definition example_vehicle_context : LaunchContext :=
  {| launch_configurations := [];
     ros_params := None;
     global_params := Some example_dimensions |}.

(** ** Paths *)

Definition default_params_path (ros_share make model : string) : string :=
  os_path_join ros_share ["config"; PyStr.lower make; model ++ ".yaml"].

Definition base_params_path (ros_share : string) : string :=
  os_path_join ros_share ["config"; "BaseParams.yaml"].

Definition calibration_path (decoders_share make model extension : string) : string :=
  os_path_join decoders_share ["calibration"; PyStr.lower make; model ++ extension].

Definition default_correction_path (decoders_share make model : string) : string :=
  os_path_join decoders_share ["calibration"; PyStr.lower make; model ++ ".dat"].

(** The user's path, or the default when the user gave none. *)
Definition substituted_params_path (ros_share make model user : string) : string :=
  if String.eqb user "" then default_params_path ros_share make model else user.

Definition substituted_correction_path (decoders_share make model user : string) : string :=
  if String.eqb user "" then default_correction_path decoders_share make model else user.

(** The params path after the fallback to the base file, and the correction
    path after the existence check. *)
Definition final_params_path (host : Host) (ros_share make model user : string) : string :=
  let p := substituted_params_path ros_share make model user in
  if path_exists host p then p else base_params_path ros_share.

Definition final_correction_path (host : Host) (decoders_share make model user : string) : string :=
  let c := substituted_correction_path decoders_share make model user in
  if path_exists host c then c else "".

(** What the file resolution does to the outside world, in order: a warning
    for each user path that is empty, then the existence checks of the
    correction path, of the params path, of the final params path and, once
    that one is found, of the calibration path. *)
Definition config_events (host : Host)
    (model make extension decoders_share ros_share user_params user_correction : string)
    : list event :=
  (if String.eqb user_params ""
   then [EvWarn "No config file provided, using sensor model default"]
   else []) ++
  (if String.eqb user_correction ""
   then [EvWarn "No correction file provided, using sensor model default"]
   else []) ++
  [EvExists (substituted_correction_path decoders_share make model user_correction);
   EvExists (substituted_params_path ros_share make model user_params);
   EvExists (final_params_path host ros_share make model user_params)] ++
  (if path_exists host (final_params_path host ros_share make model user_params)
   then [EvExists (calibration_path decoders_share make model extension)]
   else []).

(** ** Runs *)

(** [runs m s a s']: from state [s] the statement [m] finishes with value
    [a] in state [s']. *)
Definition runs {A : Type} (m : M A) (s : state) (a : A) (s' : state) : Prop :=
  m s = (Ok a, s').

(** [fails m s e s']: from state [s] the statement [m] raises [e], leaving
    state [s']. *)
Definition fails {A : Type} (m : M A) (s : state) (e : exn) (s' : state) : Prop :=
  m s = (Raise e, s').

(** An assignment to a key of a dictionary object. *)
Definition is_assignment (e : event) : bool :=
  match e with
  | EvSetItem _ _ _ => true
  | _ => false
  end.

(** A call to the ament index or to the file system. *)
Definition touches_host (e : event) : bool :=
  match e with
  | EvShareDirectory _ | EvExists _ | EvOpen _ => true
  | _ => false
  end.

(** ** Nodes *)

(** A value that [normalize_parameter] accepts when it is written in place. *)
Definition is_parameter_source (v : value) : bool :=
  match v with
  | VDict _ | VStr _ | VSubst _ => true
  | _ => false
  end.

(** The value a node gets for a parameter: parameter sources are applied in
    order, so the last dictionary that has the key decides. *)
Definition node_parameter (n : ComposableNode) (key : string) : option value :=
  match node_parameters n with
  | None => None
  | Some sources =>
      fold_left
        (fun found source =>
           match source with
           | VDict d =>
               match PyDict.get key d with
               | Some v => Some v
               | None => found
               end
           | _ => found
           end)
        sources None
  end.

(** The six bounds of a crop box, the six offsets of a geometry, and how
    one maps to the other: longitudinal to x, lateral to y, height to z. *)
Definition bound_keys : list string :=
  ["min_x"; "max_x"; "min_y"; "max_y"; "min_z"; "max_z"].

Definition offset_keys : list string :=
  ["min_longitudinal_offset"; "max_longitudinal_offset";
   "min_lateral_offset"; "max_lateral_offset";
   "min_height_offset"; "max_height_offset"].

Definition crop_bounds (n : ComposableNode) : list (option value) :=
  map (node_parameter n) bound_keys.

Definition vehicle_bounds (vehicle_info : dict float) : list (option value) :=
  map (fun k => option_map VFloat (PyDict.get k vehicle_info)) offset_keys.

Definition mirror_bounds (mirror_info : value) : list (option value) :=
  map (fun k => match value_getitem mirror_info k with
                | Ok v => Some v
                | Raise _ => None
                end) offset_keys.

(** The parameter dictionary of a crop-box node: the two frames, the
    exclusion flag and the six bounds. *)
Definition crop_parameters (min_x max_x min_y max_y min_z max_z : value) : dict value :=
  [("input_frame", VSubst "input_frame");
   ("output_frame", VSubst "output_frame");
   ("negative", VBool true);
   ("min_x", min_x); ("max_x", max_x);
   ("min_y", min_y); ("max_y", max_y);
   ("min_z", min_z); ("max_z", max_z)].

Definition intra_process : option (list value) :=
  Some [VDict [("use_intra_process_comms", VSubst "use_intra_process")]].

(** The topic a name of the node is remapped to. *)
Definition remapped (n : ComposableNode) (name : string) : option string :=
  match node_remappings n with
  | Some rs => PyDict.get name rs
  | None => None
  end.

(** The point cloud a node consumes, and the point clouds it produces. *)
Definition input_topic (n : ComposableNode) : option string :=
  match remapped n "input" with
  | Some t => Some t
  | None => remapped n "~/input/pointcloud"
  end.

Definition output_topics (n : ComposableNode) : list string :=
  flat_map (fun name => match remapped n name with
                        | Some t => [t]
                        | None => []
                        end)
    ["aw_points"; "aw_points_ex"; "output"; "~/output/pointcloud"].

(** Each node after the first consumes a topic its predecessor produces. *)
Fixpoint chained (ns : list ComposableNode) : Prop :=
  match ns with
  | a :: (b :: _) as rest =>
      (exists t, input_topic b = Some t /\ In t (output_topics a)) /\ chained rest
  | _ => True
  end.

(** ** Actions *)

Definition action_condition (a : action) : condition :=
  match a with
  | Container c => container_condition c
  | Load l => load_condition l
  end.

Definition action_nodes (a : action) : list ComposableNode :=
  match a with
  | Container c => container_nodes c
  | Load l => load_nodes l
  end.

(** The launch service executes an action when its condition evaluates to
    true. *)
Definition launched (context : LaunchContext) (a : action) : Prop :=
  evaluate context (action_condition a) = Ok true.

(** The truth value of a launch argument. *)
Definition flag (context : LaunchContext) (name : string) : outcome bool :=
  evaluate context (IfCondition name).

(** ** A complete run *)

(** Everything a run of [launch_setup] reads from the launch context and
    from the host before it returns. *)
Record Inputs : Type := {
  in_model : string;
  in_make : string;
  in_extension : string;
  in_decoders_share : string;
  in_ros_share : string;
  in_config_file : string;
  in_correction_file : string;
  in_params_doc : value;
  in_params_top : value;
  in_sensor_params : value;
  in_vehicle_info : dict float;
  in_vehicle_min_x : float;
  in_vehicle_max_x : float;
  in_vehicle_min_y : float;
  in_vehicle_max_y : float;
  in_vehicle_min_z : float;
  in_vehicle_max_z : float;
  in_mirror_file : string;
  in_mirror_doc : value;
  in_mirror_top : value;
  in_mirror_info : value;
  in_mirror_min_x : value;
  in_mirror_max_x : value;
  in_mirror_min_y : value;
  in_mirror_max_y : value;
  in_mirror_min_z : value;
  in_mirror_max_z : value;
  in_dedicated : bool
}.

Section Run.

Variable host : Host.
Variable context : LaunchContext.
Variable i : Inputs.

(** The three paths of the run. *)
Definition params_path : string :=
  final_params_path host (in_ros_share i) (in_make i) (in_model i) (in_config_file i).

Definition calib_path : string :=
  calibration_path (in_decoders_share i) (in_make i) (in_model i) (in_extension i).

Definition correction_path : string :=
  final_correction_path host (in_decoders_share i) (in_make i) (in_model i)
    (in_correction_file i).

(** The input is valid: every read succeeds, and the two mandatory files
    exist.  Nothing is asked of the correction file. *)
Record Valid : Prop := {
  valid_model : perform context "sensor_model" = Ok (in_model i);
  valid_make : get_lidar_make (in_model i) = MakePair (in_make i) (in_extension i);
  valid_decoders_share :
    package_share_directory host "nebula_decoders" = Some (in_decoders_share i);
  valid_ros_share :
    package_share_directory host "nebula_ros" = Some (in_ros_share i);
  valid_config_file : perform context "config_file" = Ok (in_config_file i);
  valid_correction_file :
    perform context "sensor_correction_file" = Ok (in_correction_file i);
  valid_params_exists : path_exists host params_path = true;
  valid_calib_exists : path_exists host calib_path = true;
  valid_params_doc : yaml_file host params_path = Some (in_params_doc i);
  valid_params_top : value_getitem (in_params_doc i) "/**" = Ok (in_params_top i);
  valid_sensor_params :
    value_getitem (in_params_top i) "ros__parameters" = Ok (in_sensor_params i);
  valid_params_source : is_parameter_source (in_sensor_params i) = true;
  valid_vehicle_info : get_vehicle_info context = Ok (in_vehicle_info i);
  valid_vehicle_min_x :
    getitem (in_vehicle_info i) "min_longitudinal_offset" = Ok (in_vehicle_min_x i);
  valid_vehicle_max_x :
    getitem (in_vehicle_info i) "max_longitudinal_offset" = Ok (in_vehicle_max_x i);
  valid_vehicle_min_y :
    getitem (in_vehicle_info i) "min_lateral_offset" = Ok (in_vehicle_min_y i);
  valid_vehicle_max_y :
    getitem (in_vehicle_info i) "max_lateral_offset" = Ok (in_vehicle_max_y i);
  valid_vehicle_min_z :
    getitem (in_vehicle_info i) "min_height_offset" = Ok (in_vehicle_min_z i);
  valid_vehicle_max_z :
    getitem (in_vehicle_info i) "max_height_offset" = Ok (in_vehicle_max_z i);
  valid_mirror_file :
    perform context "vehicle_mirror_param_file" = Ok (in_mirror_file i);
  valid_mirror_doc : yaml_file host (in_mirror_file i) = Some (in_mirror_doc i);
  valid_mirror_top : value_getitem (in_mirror_doc i) "/**" = Ok (in_mirror_top i);
  valid_mirror_info :
    value_getitem (in_mirror_top i) "ros__parameters" = Ok (in_mirror_info i);
  valid_mirror_min_x :
    value_getitem (in_mirror_info i) "min_longitudinal_offset" = Ok (in_mirror_min_x i);
  valid_mirror_max_x :
    value_getitem (in_mirror_info i) "max_longitudinal_offset" = Ok (in_mirror_max_x i);
  valid_mirror_min_y :
    value_getitem (in_mirror_info i) "min_lateral_offset" = Ok (in_mirror_min_y i);
  valid_mirror_max_y :
    value_getitem (in_mirror_info i) "max_lateral_offset" = Ok (in_mirror_max_y i);
  valid_mirror_min_z :
    value_getitem (in_mirror_info i) "min_height_offset" = Ok (in_mirror_min_z i);
  valid_mirror_max_z :
    value_getitem (in_mirror_info i) "max_height_offset" = Ok (in_mirror_max_z i);
  valid_dedicated :
    evaluate context (UnlessCondition "use_pointcloud_container") = Ok (in_dedicated i)
}.

(** The five nodes the run describes. *)
Definition driver_node : ComposableNode :=
  {| node_package := "nebula_ros";
     node_plugin := in_make i ++ "DriverRosWrapper";
     node_name := PyStr.lower (in_make i) ++ "_driver_ros_wrapper_node";
     node_parameters :=
       Some [in_sensor_params i;
             VDict [("calibration_file", VStr calib_path);
                    ("correction_file", VStr correction_path);
                    ("sensor_model", VStr (in_model i));
                    ("return_mode", VSubst "return_mode");
                    ("min_range", VSubst "min_range");
                    ("max_range", VSubst "max_range");
                    ("frame_id", VSubst "frame_id");
                    ("scan_phase", VSubst "scan_phase");
                    ("cloud_min_angle", VSubst "cloud_min_angle");
                    ("cloud_max_angle", VSubst "cloud_max_angle");
                    ("dual_return_distance_threshold",
                     VSubst "dual_return_distance_threshold")]];
     node_remappings :=
       Some [("aw_points", "pointcloud_raw"); ("aw_points_ex", "pointcloud_raw_ex")];
     node_extra_arguments := intra_process |}.

Definition self_crop_node : ComposableNode :=
  {| node_package := "pointcloud_preprocessor";
     node_plugin := "pointcloud_preprocessor::CropBoxFilterComponent";
     node_name := "crop_box_filter_self";
     node_parameters :=
       Some [VDict (crop_parameters
                      (VFloat (in_vehicle_min_x i)) (VFloat (in_vehicle_max_x i))
                      (VFloat (in_vehicle_min_y i)) (VFloat (in_vehicle_max_y i))
                      (VFloat (in_vehicle_min_z i)) (VFloat (in_vehicle_max_z i)))];
     node_remappings :=
       Some [("input", "pointcloud_raw_ex"); ("output", "self_cropped/pointcloud_ex")];
     node_extra_arguments := intra_process |}.

Definition mirror_crop_node : ComposableNode :=
  {| node_package := "pointcloud_preprocessor";
     node_plugin := "pointcloud_preprocessor::CropBoxFilterComponent";
     node_name := "crop_box_filter_mirror";
     node_parameters :=
       Some [VDict (crop_parameters
                      (in_mirror_min_x i) (in_mirror_max_x i)
                      (in_mirror_min_y i) (in_mirror_max_y i)
                      (in_mirror_min_z i) (in_mirror_max_z i))];
     node_remappings :=
       Some [("input", "self_cropped/pointcloud_ex");
             ("output", "mirror_cropped/pointcloud_ex")];
     node_extra_arguments := intra_process |}.

Definition distortion_corrector_node : ComposableNode :=
  {| node_package := "pointcloud_preprocessor";
     node_plugin := "pointcloud_preprocessor::DistortionCorrectorComponent";
     node_name := "distortion_corrector_node";
     node_parameters := None;
     node_remappings :=
       Some [("~/input/twist", "/sensing/vehicle_velocity_converter/twist_with_covariance");
             ("~/input/imu", "/sensing/imu/imu_data");
             ("~/input/pointcloud", "mirror_cropped/pointcloud_ex");
             ("~/output/pointcloud", "rectified/pointcloud_ex")];
     node_extra_arguments := intra_process |}.

Definition outlier_filter_node : ComposableNode :=
  {| node_package := "pointcloud_preprocessor";
     node_plugin := "pointcloud_preprocessor::RingOutlierFilterComponent";
     node_name := "ring_outlier_filter";
     node_parameters := None;
     node_remappings :=
       Some [("input", "rectified/pointcloud_ex");
             ("output", "outlier_filtered/pointcloud")];
     node_extra_arguments := intra_process |}.

Definition pipeline : list ComposableNode :=
  [driver_node; self_crop_node; mirror_crop_node;
   distortion_corrector_node; outlier_filter_node].

(** The assignments the run makes to the dictionary object [r], with the
    read of the mirror file between the two rounds. *)
Definition nodes_trace (r : ref) : list event :=
  [EvSetItem r "negative" (VBool true);
   EvSetItem r "min_x" (VFloat (in_vehicle_min_x i));
   EvSetItem r "max_x" (VFloat (in_vehicle_max_x i));
   EvSetItem r "min_y" (VFloat (in_vehicle_min_y i));
   EvSetItem r "max_y" (VFloat (in_vehicle_max_y i));
   EvSetItem r "min_z" (VFloat (in_vehicle_min_z i));
   EvSetItem r "max_z" (VFloat (in_vehicle_max_z i));
   EvOpen (in_mirror_file i);
   EvSetItem r "min_x" (in_mirror_min_x i);
   EvSetItem r "max_x" (in_mirror_max_x i);
   EvSetItem r "min_y" (in_mirror_min_y i);
   EvSetItem r "max_y" (in_mirror_max_y i);
   EvSetItem r "min_z" (in_mirror_min_z i);
   EvSetItem r "max_z" (in_mirror_max_z i)].

(** The three actions the run returns. *)
Definition node_container : ComposableNodeContainer :=
  {| container_name := VSubst "container_name";
     container_namespace := "pointcloud_preprocessor";
     container_package := "rclcpp_components";
     container_executable := VSubst "container_executable";
     container_nodes := pipeline;
     container_condition := UnlessCondition "use_pointcloud_container";
     container_output := "screen" |}.

Definition component_loader : LoadComposableNodes :=
  {| load_nodes := pipeline;
     load_target := TargetName (VSubst "container_name");
     load_condition := IfCondition "use_pointcloud_container" |}.

Definition hw_interface_node : ComposableNode :=
  {| node_package := "nebula_ros";
     node_plugin := in_make i ++ "HwInterfaceRosWrapper";
     node_name := PyStr.lower (in_make i) ++ "_hw_interface_ros_wrapper_node";
     node_parameters :=
       Some [VDict [("sensor_model", VStr (in_model i));
                    ("calibration_file", VStr calib_path);
                    ("sensor_ip", VSubst "sensor_ip");
                    ("host_ip", VSubst "host_ip");
                    ("scan_phase", VSubst "scan_phase");
                    ("return_mode", VSubst "return_mode");
                    ("frame_id", VSubst "frame_id");
                    ("rotation_speed", VSubst "rotation_speed");
                    ("data_port", VSubst "data_port");
                    ("gnss_port", VSubst "gnss_port");
                    ("cloud_min_angle", VSubst "cloud_min_angle");
                    ("cloud_max_angle", VSubst "cloud_max_angle")]];
     node_remappings := None;
     node_extra_arguments := None |}.

Definition driver_component_loader : LoadComposableNodes :=
  {| load_nodes := [hw_interface_node];
     load_target :=
       if in_dedicated i then TargetContainer node_container
       else TargetName (VSubst "container_name");
     load_condition := IfCondition "launch_driver" |}.

Definition actions : list action :=
  [Container node_container; Load component_loader; Load driver_component_loader].

End Run.

(** The run from the initial state returns a container holding [nodes], a
    loader of the same [nodes] and a third action, and ends in state [s']. *)
Definition emits (host : Host) (context : LaunchContext)
    (nodes : list ComposableNode) (s' : state) : Prop :=
  exists (c : ComposableNodeContainer) (l hw_loader : LoadComposableNodes),
    runs (launch_setup host context) initial_state
      [Container c; Load l; Load hw_loader] s' /\
    container_nodes c = nodes /\
    load_nodes l = nodes.

(** ** An example installation *)

(** A host given by its package index and its files: a file that holds a
    YAML document, or a file of another kind. *)
Definition host_of (shares : dict string) (files : dict (option value)) : Host :=
  {| package_share_directory := fun pkg => PyDict.get pkg shares;
     path_exists := fun p =>
       match PyDict.get p files with
       | Some _ => true
       | None => false
       end;
     yaml_file := fun p =>
       match PyDict.get p files with
       | Some (Some doc) => Some doc
       | _ => None
       end |}.

Definition example_sensor_params : value :=
  VDict [("sensor_ip", VStr "192.168.1.201"); ("rotation_speed", VInt 600)].

Definition example_mirror_info : value :=
  VDict [("min_longitudinal_offset", VFloat 1.8);
         ("max_longitudinal_offset", VFloat 2.2);
         ("min_lateral_offset", VFloat (-1.1));
         ("max_lateral_offset", VFloat 1.1);
         ("min_height_offset", VFloat 0.9);
         ("max_height_offset", VFloat 1.3)].

(** The installation ships the base params file and the calibration table of
    the Pandar40P, and neither a params file nor a correction file for that
    model. *)
Definition example_host : Host :=
  host_of
    [("nebula_decoders", "/opt/share/nebula_decoders");
     ("nebula_ros", "/opt/share/nebula_ros")]
    [("/opt/share/nebula_ros/config/BaseParams.yaml",
      Some (VDict [("/**", VDict [("ros__parameters", example_sensor_params)])]));
     ("/opt/share/nebula_decoders/calibration/hesai/Pandar40P.csv", None);
     ("/vehicle/mirror.param.yaml",
      Some (VDict [("/**", VDict [("ros__parameters", example_mirror_info)])]))].

(** A launch of the Pandar40P with the given correction file argument. *)
Definition example_context (correction : string) : LaunchContext :=
  {| launch_configurations :=
       [("sensor_model", "Pandar40P");
        ("config_file", "");
        ("sensor_correction_file", correction);
        ("launch_driver", "True");
        ("vehicle_mirror_param_file", "/vehicle/mirror.param.yaml");
        ("use_pointcloud_container", "false");
        ("container_name", "nebula_node_container")];
     ros_params := None;
     global_params := Some example_dimensions |}.

Definition example_inputs (correction : string) : Inputs :=
  {| in_model := "Pandar40P";
     in_make := "Hesai";
     in_extension := ".csv";
     in_decoders_share := "/opt/share/nebula_decoders";
     in_ros_share := "/opt/share/nebula_ros";
     in_config_file := "";
     in_correction_file := correction;
     in_params_doc := VDict [("/**", VDict [("ros__parameters", example_sensor_params)])];
     in_params_top := VDict [("ros__parameters", example_sensor_params)];
     in_sensor_params := example_sensor_params;
     in_vehicle_info :=
       [("vehicle_length", 3.5%float); ("vehicle_width", 1.9%float);
        ("min_longitudinal_offset", (-0.5)%float);
        ("max_longitudinal_offset", 3.0%float);
        ("min_lateral_offset", (-0.95)%float);
        ("max_lateral_offset", 0.95%float);
        ("min_height_offset", 0%float);
        ("max_height_offset", 1.8%float)];
     in_vehicle_min_x := (-0.5)%float;
     in_vehicle_max_x := 3.0%float;
     in_vehicle_min_y := (-0.95)%float;
     in_vehicle_max_y := 0.95%float;
     in_vehicle_min_z := 0%float;
     in_vehicle_max_z := 1.8%float;
     in_mirror_file := "/vehicle/mirror.param.yaml";
     in_mirror_doc := VDict [("/**", VDict [("ros__parameters", example_mirror_info)])];
     in_mirror_top := VDict [("ros__parameters", example_mirror_info)];
     in_mirror_info := example_mirror_info;
     in_mirror_min_x := VFloat 1.8;
     in_mirror_max_x := VFloat 2.2;
     in_mirror_min_y := VFloat (-1.1);
     in_mirror_max_y := VFloat 1.1;
     in_mirror_min_z := VFloat 0.9;
     in_mirror_max_z := VFloat 1.3;
     in_dedicated := true |}.
(** ** Further vocabulary *)

(** The dimensions [get_vehicle_info] reads, in the order in which it first
    reads them. *)
Definition dimension_keys : list string :=
  ["front_overhang"; "wheel_base"; "rear_overhang"; "wheel_tread";
   "left_overhang"; "right_overhang"; "vehicle_height"].

(** The first of [keys] that dictionary [d] lacks. *)
Definition first_missing {V : Type} (keys : list string) (d : dict V) : option string :=
  find (fun k => match PyDict.get k d with
                 | Some _ => false
                 | None => true
                 end) keys.

(** Dimensions without a wheel base and without a height, and with an entry
    [get_vehicle_info] does not look at. *)
Definition incomplete_dimensions : dict float :=
  [("front_overhang", 0.5%float); ("rear_overhang", 0.5%float); ("unrelated", 7%float)].

(** The parameters the launch file gives to both nodes of the driver, the
    decoder and the hardware interface. *)
Definition shared_driver_keys : list string :=
  ["sensor_model"; "calibration_file"; "scan_phase"; "return_mode"; "frame_id";
   "cloud_min_angle"; "cloud_max_angle"].

(** The parameters of the decoder that the launch file takes from a launch
    argument of the same name, and all those it sets. *)
Definition decoder_argument_keys : list string :=
  ["return_mode"; "min_range"; "max_range"; "frame_id"; "scan_phase";
   "cloud_min_angle"; "cloud_max_angle"; "dual_return_distance_threshold"].

Definition decoder_keys : list string :=
  (["calibration_file"; "correction_file"; "sensor_model"] ++ decoder_argument_keys)%list.

(** The host [host] with the file at [path] replaced: [content] is what
    opening and loading it gives now, [None] when that raises. *)
Definition with_yaml (host : Host) (path : string) (content : option value) : Host :=
  {| package_share_directory := package_share_directory host;
     path_exists := path_exists host;
     yaml_file := fun p => if String.eqb p path then content else yaml_file host p |}.

(** A parameter file with the parameters [d] in the layout the launch file
    reads. *)
Definition parameter_document (d : dict value) : value :=
  VDict [("/**", VDict [("ros__parameters", VDict d)])].

(** * The launch description *)

(** What a launch argument can default to: a text, or the value of another
    launch configuration. *)
Inductive substitution : Type :=
| TextSubstitution (text : string)
| LaunchConfiguration (name : string).

(** [launch.actions.DeclareLaunchArgument] *)
Record DeclareLaunchArgument : Type := {
  argument_name : string;
  argument_default : option substitution;
  argument_description : option string
}.

(** The entities of the description: a declared argument, a conditional
    [SetLaunchConfiguration], and an [OpaqueFunction]. *)
Inductive entity : Type :=
| Arg (d : DeclareLaunchArgument)
| SetLaunchConfiguration (name value : string) (c : condition)
| OpaqueFunction (function : LaunchContext -> M (list action)).

(** [add_launch_arg(name, default_value, description)], lines 282-286: the
    list [launch_arguments] with the declaration appended. *)
Definition add_launch_arg (name : string) (default_value : option substitution)
    (description : option string) (launch_arguments : list entity) : list entity :=
  (launch_arguments ++
   [Arg {| argument_name := name;
           argument_default := default_value;
           argument_description := description |}])%list.

(** [generate_launch_description()], lines 279-331. *)
Definition generate_launch_description (host : Host) : list entity :=
  let text (s : string) := Some (TextSubstitution s) in
  let launch_arguments : list entity := [] in
  let launch_arguments :=
    add_launch_arg "sensor_model" None (Some "sensor model name") launch_arguments in
  let launch_arguments :=
    add_launch_arg "config_file" (text "") (Some "sensor configuration file")
      launch_arguments in
  let launch_arguments :=
    add_launch_arg "sensor_correction_file" (text "")
      (Some "sensor sensor correction file") launch_arguments in
  let launch_arguments :=
    add_launch_arg "launch_driver" (text "True") (Some "do launch driver")
      launch_arguments in
  let launch_arguments :=
    add_launch_arg "sensor_ip" (text "192.168.1.201") (Some "device ip address")
      launch_arguments in
  let launch_arguments :=
    add_launch_arg "host_ip" (text "255.255.255.255") (Some "host ip address")
      launch_arguments in
  let launch_arguments :=
    add_launch_arg "scan_phase" (text "0.0") None launch_arguments in
  let launch_arguments :=
    add_launch_arg "base_frame" (text "base_link") (Some "base frame id")
      launch_arguments in
  let launch_arguments :=
    add_launch_arg "min_range" (text "0.3")
      (Some "minimum view range for Velodyne sensors") launch_arguments in
  let launch_arguments :=
    add_launch_arg "max_range" (text "300.0")
      (Some "maximum view range for Velodyne sensors") launch_arguments in
  let launch_arguments :=
    add_launch_arg "cloud_min_angle" (text "0")
      (Some "minimum view angle setting on device") launch_arguments in
  let launch_arguments :=
    add_launch_arg "cloud_max_angle" (text "360")
      (Some "maximum view angle setting on device") launch_arguments in
  let launch_arguments :=
    add_launch_arg "data_port" (text "2368") (Some "device data port number")
      launch_arguments in
  let launch_arguments :=
    add_launch_arg "gnss_port" (text "2380") (Some "device gnss port number")
      launch_arguments in
  let launch_arguments :=
    add_launch_arg "rotation_speed" (text "600.0") (Some "rotational frequency")
      launch_arguments in
  let launch_arguments :=
    add_launch_arg "dual_return_distance_threshold" (text "0.1")
      (Some "dual return distance threshold") launch_arguments in
  let launch_arguments :=
    add_launch_arg "frame_id" (text "lidar") (Some "frame id") launch_arguments in
  let launch_arguments :=
    add_launch_arg "input_frame" (Some (LaunchConfiguration "base_frame"))
      (Some "use for cropbox") launch_arguments in
  let launch_arguments :=
    add_launch_arg "output_frame" (Some (LaunchConfiguration "base_frame"))
      (Some "use for cropbox") launch_arguments in
  let launch_arguments :=
    add_launch_arg "vehicle_mirror_param_file" None
      (Some "path to the file of vehicle mirror position yaml") launch_arguments in
  let launch_arguments :=
    add_launch_arg "use_multithread" (text "False") (Some "use multithread")
      launch_arguments in
  let launch_arguments :=
    add_launch_arg "use_intra_process" (text "False")
      (Some "use ROS 2 component container communication") launch_arguments in
  let launch_arguments :=
    add_launch_arg "use_pointcloud_container" (text "false") None launch_arguments in
  let launch_arguments :=
    add_launch_arg "container_name" (text "nebula_node_container") None
      launch_arguments in
  let set_container_executable :=
    SetLaunchConfiguration "container_executable" "component_container"
      (UnlessCondition "use_multithread") in
  let set_container_mt_executable :=
    SetLaunchConfiguration "container_executable" "component_container_mt"
      (IfCondition "use_multithread") in
  ((launch_arguments
    ++ [set_container_executable; set_container_mt_executable])
   ++ [OpaqueFunction (launch_setup host)])%list.

(** ** How the launch service visits the description *)

(** [context.launch_configurations[name] = text] *)
Definition set_configuration (name text : string) (context : LaunchContext) :
    LaunchContext :=
  {| launch_configurations := PyDict.set name text (launch_configurations context);
     ros_params := ros_params context;
     global_params := global_params context |}.

(** [perform_substitutions(context, [s])] *)
Definition perform_substitution (context : LaunchContext) (s : substitution) :
    outcome string :=
  match s with
  | TextSubstitution text => Ok text
  | LaunchConfiguration name => perform context name
  end.

(** The result of visiting: done, the [RuntimeError] of
    [DeclareLaunchArgument] for a required argument that was not provided,
    or another exception. *)
Inductive visited (A : Type) : Type :=
| Done (a : A)
| RuntimeError (argument : string)
| Failed (e : exn).

Arguments Done {A} a.
Arguments RuntimeError {A} argument.
Arguments Failed {A} e.

(** [entity.visit(context)].  A declaration keeps a configuration that is
    already there, sets its default otherwise, and raises when it has none;
    [SetLaunchConfiguration] assigns when its condition holds; the function
    of an [OpaqueFunction] is called with the context and its actions are
    collected. *)
Definition visit (e : entity) (context : LaunchContext) (s : state) :
    visited (LaunchContext * list action) * state :=
  match e with
  | Arg d =>
      match PyDict.get (argument_name d) (launch_configurations context) with
      | Some _ => (Done (context, []), s)
      | None =>
          match argument_default d with
          | None => (RuntimeError (argument_name d), s)
          | Some default_value =>
              match perform_substitution context default_value with
              | Ok text =>
                  (Done (set_configuration (argument_name d) text context, []), s)
              | Raise e => (Failed e, s)
              end
          end
      end
  | SetLaunchConfiguration name value c =>
      match evaluate context c with
      | Ok true => (Done (set_configuration name value context, []), s)
      | Ok false => (Done (context, []), s)
      | Raise e => (Failed e, s)
      end
  | OpaqueFunction function =>
      match function context s with
      | (Ok acts, s') => (Done (context, acts), s')
      | (Raise e, s') => (Failed e, s')
      end
  end.

(** The entities of a description are visited in order, each in the context
    the ones before it left. *)
Fixpoint visit_all (entities : list entity) (context : LaunchContext) (s : state) :
    visited (LaunchContext * list action) * state :=
  match entities with
  | [] => (Done (context, []), s)
  | e :: rest =>
      match visit e context s with
      | (Done (context1, acts1), s1) =>
          match visit_all rest context1 s1 with
          | (Done (context2, acts2), s2) => (Done (context2, (acts1 ++ acts2)%list), s2)
          | stopped => stopped
          end
      | stopped => stopped
      end
  end.

(** The arguments a description declares, and their names. *)
Definition declared (entities : list entity) : list DeclareLaunchArgument :=
  flat_map (fun e => match e with
                     | Arg d => [d]
                     | _ => []
                     end) entities.

Definition declared_names (entities : list entity) : list string :=
  map argument_name (declared entities).

(** Whether the declarations [ds] can all be executed when the names in
    [defined] have a value: an argument without default has to be defined,
    and a default that reads a configuration finds it. *)
Fixpoint ready (defined : list string) (ds : list DeclareLaunchArgument) : bool :=
  match ds with
  | [] => true
  | d :: rest =>
      if PyStr.mem (argument_name d) defined then ready defined rest
      else
        match argument_default d with
        | None => false
        | Some (TextSubstitution _) => ready (argument_name d :: defined) rest
        | Some (LaunchConfiguration name) =>
            PyStr.mem name defined && ready (argument_name d :: defined) rest
        end
  end.

(** The name is a configuration of the context. *)
Definition configured (context : LaunchContext) (name : string) : Prop :=
  PyDict.get name (launch_configurations context) <> None.

(** A launch with the two required arguments and nothing else. *)
Definition minimal_context : LaunchContext :=
  {| launch_configurations :=
       [("sensor_model", "Pandar40P");
        ("vehicle_mirror_param_file", "/vehicle/mirror.param.yaml")];
     ros_params := None;
     global_params := Some example_dimensions |}.

(** No name occurs twice. *)
Fixpoint distinct (names : list string) : bool :=
  match names with
  | [] => true
  | n :: rest => negb (PyStr.mem n rest) && distinct rest
  end.

(** The container executable for a truth value of "use_multithread". *)
Definition executable_for (multithread : bool) : string :=
  if multithread then "component_container_mt" else "component_container".

(** ** The hardware-interface node and the "launch driver" flag *)

(** The node is the hardware-interface wrapper of some make. *)
Definition is_hardware_interface (n : ComposableNode) : Prop :=
  exists make : string, node_plugin n = make ++ "HwInterfaceRosWrapper".

(** The actions hold a hardware-interface node. *)
Definition includes_hardware_interface (acts : list action) : Prop :=
  exists (a : action) (n : ComposableNode),
    In a acts /\ In n (action_nodes a) /\ is_hardware_interface n.

(** The sentence of the specification, for one launch: the actions a run
    emits include the hardware-interface node if and only if "launch_driver"
    is true. *)
Definition included_iff_launch_driver (host : Host) (context : LaunchContext) : Prop :=
  forall (acts : list action) (s' : state),
    runs (launch_setup host context) initial_state acts s' ->
    (includes_hardware_interface acts <-> flag context "launch_driver" = Ok true).

(** The launch of the example with the driver switched off. *)
Definition driverless_context : LaunchContext :=
  {| launch_configurations :=
       [("sensor_model", "Pandar40P");
        ("config_file", "");
        ("sensor_correction_file", "");
        ("launch_driver", "false");
        ("vehicle_mirror_param_file", "/vehicle/mirror.param.yaml");
        ("use_pointcloud_container", "false");
        ("container_name", "nebula_node_container")];
     ros_params := None;
     global_params := Some example_dimensions |}.

(** * Properties *)

(** ** Strings and dictionaries *)

Lemma mem_In (x : string) (xs : list string) : PyStr.mem x xs = true <-> In x xs.
Proof.
  induction xs as [|y ys IH]; simpl.
  - split; [discriminate | tauto].
  - rewrite orb_true_iff, IH, String.eqb_eq. split; intros [H|H]; auto.
Qed.

Lemma take_take (n m : nat) (s : string) :
  n <= m -> PyStr.take n (PyStr.take m s) = PyStr.take n s.
Proof.
  revert m s. induction n as [|n IH]; intros m s Hle; [reflexivity|].
  destruct m as [|m]; [lia|].
  destruct s as [|c s]; simpl; [reflexivity|].
  rewrite IH by lia. reflexivity.
Qed.

Lemma take_lower (n : nat) (s : string) :
  PyStr.take n (PyStr.lower s) = PyStr.lower (PyStr.take n s).
Proof.
  revert s. induction n as [|n IH]; intros [|c s]; simpl; try reflexivity.
  now rewrite IH.
Qed.

Lemma get_set_same {V : Type} (k : string) (v : V) (d : dict V) :
  PyDict.get k (PyDict.set k v d) = Some v.
Proof.
  induction d as [|[k' v'] d IH]; cbn [PyDict.set PyDict.get].
  - rewrite String.eqb_refl. reflexivity.
  - destruct (String.eqb k' k) eqn:E; cbn [PyDict.get]; rewrite E; auto.
Qed.

Lemma get_set_other {V : Type} (k k' : string) (v : V) (d : dict V) :
  k' <> k -> PyDict.get k (PyDict.set k' v d) = PyDict.get k d.
Proof.
  intros Hne. induction d as [|[k0 v0] d IH]; cbn [PyDict.set PyDict.get].
  - destruct (String.eqb_spec k' k); [contradiction | reflexivity].
  - destruct (String.eqb_spec k0 k') as [->|N]; cbn [PyDict.get].
    + destruct (String.eqb_spec k' k); [contradiction | reflexivity].
    + destruct (String.eqb k0 k); [reflexivity | exact IH].
Qed.

(** ** Classification *)

Example get_lidar_make_Pandar40P : get_lidar_make "Pandar40P" = MakePair "Hesai" ".csv".
Proof. reflexivity. Qed.

Example get_lidar_make_vls128 : get_lidar_make "vls128" = MakePair "Velodyne" ".yaml".
Proof. reflexivity. Qed.

Example get_lidar_make_OS1 : get_lidar_make "OS1-64" = MakeStr "unrecognized_sensor_model".
Proof. reflexivity. Qed.

Example get_lidar_make_short : get_lidar_make "Panda" = MakeStr "unrecognized_sensor_model".
Proof. reflexivity. Qed.

Lemma pandar_prefix_not_velodyne (m : string) :
  PyStr.lower (PyStr.take 6 m) = "pandar" ->
  PyStr.mem (PyStr.lower (PyStr.take 3 m)) ["hdl"; "vlp"; "vls"] = false.
Proof.
  intros H.
  assert (E : PyStr.lower (PyStr.take 3 m) = "pan").
  { rewrite <- (take_take 3 6 m) by lia.
    rewrite <- take_lower, H. reflexivity. }
  rewrite E. reflexivity.
Qed.

Lemma get_lidar_make_cases (m : string) :
  (recognized m = true /\
   (get_lidar_make m = MakePair "Hesai" ".csv" \/
    get_lidar_make m = MakePair "Velodyne" ".yaml")) \/
  (recognized m = false /\ get_lidar_make m = MakeStr "unrecognized_sensor_model").
Proof.
  unfold recognized, get_lidar_make.
  destruct (String.eqb _ "pandar"); cbn [orb]; [left; auto|].
  destruct (PyStr.mem _ _); [left; auto | right; auto].
Qed.

Lemma get_lidar_make_hesai (m : string) :
  PyStr.lower (PyStr.take 6 m) = "pandar" ->
  get_lidar_make m = MakePair "Hesai" ".csv".
Proof. unfold get_lidar_make. intros ->. reflexivity. Qed.

Lemma get_lidar_make_velodyne (m : string) :
  In (PyStr.lower (PyStr.take 3 m)) ["hdl"; "vlp"; "vls"] ->
  get_lidar_make m = MakePair "Velodyne" ".yaml".
Proof.
  unfold get_lidar_make. intros H. apply mem_In in H.
  destruct (String.eqb_spec (PyStr.lower (PyStr.take 6 m)) "pandar") as [E|_].
  - apply pandar_prefix_not_velodyne in E. congruence.
  - rewrite H. reflexivity.
Qed.

Lemma get_lidar_make_other (m : string) :
  PyStr.lower (PyStr.take 6 m) <> "pandar" ->
  ~ In (PyStr.lower (PyStr.take 3 m)) ["hdl"; "vlp"; "vls"] ->
  get_lidar_make m = MakeStr "unrecognized_sensor_model".
Proof.
  unfold get_lidar_make. intros H6 H3.
  destruct (String.eqb_spec (PyStr.lower (PyStr.take 6 m)) "pandar") as [E|_];
    [contradiction|].
  destruct (PyStr.mem _ _) eqn:E3; [|reflexivity].
  apply mem_In in E3. contradiction.
Qed.

(** C2.  A model whose first six characters, lowercased, are "pandar" is
    classified as Hesai with calibration extension ".csv"; a model whose first
    three characters, lowercased, are "hdl", "vlp" or "vls" is classified as
    Velodyne with extension ".yaml"; every other model gets the bare marker
    "unrecognized_sensor_model", which carries no extension. *)
Theorem get_lidar_make_classification (m : string) :
  (PyStr.lower (PyStr.take 6 m) = "pandar" ->
   get_lidar_make m = MakePair "Hesai" ".csv") /\
  (In (PyStr.lower (PyStr.take 3 m)) ["hdl"; "vlp"; "vls"] ->
   get_lidar_make m = MakePair "Velodyne" ".yaml") /\
  (PyStr.lower (PyStr.take 6 m) <> "pandar" ->
   ~ In (PyStr.lower (PyStr.take 3 m)) ["hdl"; "vlp"; "vls"] ->
   get_lidar_make m = MakeStr "unrecognized_sensor_model").
Proof.
  split; [|split].
  - apply get_lidar_make_hesai.
  - apply get_lidar_make_velodyne.
  - apply get_lidar_make_other.
Qed.

(** The three cases of the classification at "PandarXT32", "VLP16" and
    "OS1-64". *)
Lemma get_lidar_make_classification_witness :
  get_lidar_make "PandarXT32" = MakePair "Hesai" ".csv" /\
  get_lidar_make "VLP16" = MakePair "Velodyne" ".yaml" /\
  get_lidar_make "OS1-64" = MakeStr "unrecognized_sensor_model".
Proof.
  split; [|split].
  - apply (proj1 (get_lidar_make_classification "PandarXT32")). reflexivity.
  - apply (proj1 (proj2 (get_lidar_make_classification "VLP16"))).
    simpl. auto.
  - apply (proj2 (proj2 (get_lidar_make_classification "OS1-64"))).
    + discriminate.
    + simpl. intros [H|[H|[H|[]]]]; discriminate H.
Defined.

(** ** Vehicle geometry *)

Lemma getitem_get {V : Type} (d : dict V) (k : string) (v : V) :
  PyDict.get k d = Some v -> getitem d k = Ok v.
Proof. unfold getitem. intros ->. reflexivity. Qed.

(** C4.  Whatever the seven dimensions are, [get_vehicle_info] returns the
    eight entries given by the formulas: length = front overhang + wheel base
    + rear overhang, width = wheel tread + left overhang + right overhang,
    minimum longitudinal offset = - rear overhang, maximum = front overhang +
    wheel base, minimum lateral offset = - (wheel tread / 2 + right
    overhang), maximum = wheel tread / 2 + left overhang, minimum height 0,
    maximum height = vehicle height.  For the dimensions 0.5, 0.5, 2.5, 1.5,
    0.2, 0.2, 1.8 the offsets are -0.5, 3.0, -0.95, 0.95, 0 and 1.8. *)
Theorem get_vehicle_info_formulas :
  (forall (context : LaunchContext) (gp : dict float)
          (front_overhang rear_overhang wheel_base wheel_tread
           left_overhang right_overhang vehicle_height : float),
      selects_dimensions context gp ->
      PyDict.get "front_overhang" gp = Some front_overhang ->
      PyDict.get "rear_overhang" gp = Some rear_overhang ->
      PyDict.get "wheel_base" gp = Some wheel_base ->
      PyDict.get "wheel_tread" gp = Some wheel_tread ->
      PyDict.get "left_overhang" gp = Some left_overhang ->
      PyDict.get "right_overhang" gp = Some right_overhang ->
      PyDict.get "vehicle_height" gp = Some vehicle_height ->
      get_vehicle_info context =
      Ok [("vehicle_length", front_overhang + wheel_base + rear_overhang);
          ("vehicle_width", wheel_tread + left_overhang + right_overhang);
          ("min_longitudinal_offset", - rear_overhang);
          ("max_longitudinal_offset", front_overhang + wheel_base);
          ("min_lateral_offset", - (wheel_tread / 2 + right_overhang));
          ("max_lateral_offset", wheel_tread / 2 + left_overhang);
          ("min_height_offset", 0);
          ("max_height_offset", vehicle_height)]%float) /\
  get_vehicle_info example_vehicle_context =
  Ok [("vehicle_length", 3.5); ("vehicle_width", 1.9);
      ("min_longitudinal_offset", -0.5); ("max_longitudinal_offset", 3.0);
      ("min_lateral_offset", -0.95); ("max_lateral_offset", 0.95);
      ("min_height_offset", 0); ("max_height_offset", 1.8)]%float.
Proof.
  split; [|reflexivity].
  intros context gp fo ro wb wt lo rro vh Hsel Hfo Hro Hwb Hwt Hlo Hrro Hvh.
  unfold get_vehicle_info.
  assert (Hgp : (if PyDict.is_empty
                      match ros_params context with Some d => d | None => [] end
                 then match global_params context with Some d => d | None => [] end
                 else match ros_params context with Some d => d | None => [] end) = gp).
  { destruct Hsel as [[-> Hne] | [[-> | ->] ->]]; try reflexivity.
    destruct gp; [contradiction | reflexivity]. }
  rewrite Hgp.
  rewrite (getitem_get _ _ _ Hfo), (getitem_get _ _ _ Hro), (getitem_get _ _ _ Hwb),
    (getitem_get _ _ _ Hwt), (getitem_get _ _ _ Hlo), (getitem_get _ _ _ Hrro),
    (getitem_get _ _ _ Hvh).
  reflexivity.
Qed.

(** The formulas at the dimensions of the example, read from
    "global_params". *)
Lemma get_vehicle_info_formulas_witness :
  get_vehicle_info example_vehicle_context =
  Ok [("vehicle_length", 0.5 + 2.5 + 0.5); ("vehicle_width", 1.5 + 0.2 + 0.2);
      ("min_longitudinal_offset", - 0.5); ("max_longitudinal_offset", 0.5 + 2.5);
      ("min_lateral_offset", - (1.5 / 2 + 0.2)); ("max_lateral_offset", 1.5 / 2 + 0.2);
      ("min_height_offset", 0); ("max_height_offset", 1.8)]%float.
Proof.
  apply (proj1 get_vehicle_info_formulas example_vehicle_context example_dimensions);
    try reflexivity.
  right. split; [left|]; reflexivity.
Defined.

(** ** Running statements *)

Lemma runs_ret {A : Type} (a : A) (s : state) : runs (ret a) s a s.
Proof. reflexivity. Qed.

Lemma runs_lift {A : Type} (o : outcome A) (a : A) (s : state) :
  o = Ok a -> runs (lift o) s a s.
Proof. intros ->. reflexivity. Qed.

Lemma runs_bind {A B : Type} (m : M A) (f : A -> M B) (s s1 s2 : state) (a : A) (b : B) :
  runs m s a s1 -> runs (f a) s1 b s2 -> runs (bind m f) s b s2.
Proof. unfold runs, bind. intros -> H. exact H. Qed.

Lemma fails_lift {A : Type} (o : outcome A) (e : exn) (s : state) :
  o = Raise e -> fails (lift o) s e s.
Proof. intros ->. reflexivity. Qed.

Lemma fails_bind_now {A B : Type} (m : M A) (f : A -> M B) (s s1 : state) (e : exn) :
  fails m s e s1 -> fails (bind m f) s e s1.
Proof. unfold fails, bind. intros ->. reflexivity. Qed.

Lemma fails_bind_later {A B : Type} (m : M A) (f : A -> M B) (s s1 s2 : state)
    (a : A) (e : exn) :
  runs m s a s1 -> fails (f a) s1 e s2 -> fails (bind m f) s e s2.
Proof. unfold runs, fails, bind. intros -> H. exact H. Qed.

Lemma runs_inj {A : Type} (m : M A) (s : state) (a a' : A) (s1 s1' : state) :
  runs m s a s1 -> runs m s a' s1' -> a = a' /\ s1 = s1'.
Proof. unfold runs. intros H H'. rewrite H in H'. now inversion H'. Qed.

Lemma runs_not_fails {A : Type} (m : M A) (s : state) (a : A) (e : exn) (s1 s2 : state) :
  runs m s a s1 -> fails m s e s2 -> False.
Proof. unfold runs, fails. intros H H'. rewrite H in H'. discriminate H'. Qed.

(** Inversion of a finished sequence: its first statement finished too. *)
Lemma runs_bind_inv {A B : Type} (m : M A) (f : A -> M B) (s s2 : state) (b : B) :
  runs (bind m f) s b s2 ->
  exists (a : A) (s1 : state), runs m s a s1 /\ runs (f a) s1 b s2.
Proof.
  unfold runs, bind. destruct (m s) as [[a|e] s1]; intros H.
  - exists a, s1. auto.
  - discriminate H.
Qed.

Lemma runs_lift_inv {A : Type} (o : outcome A) (a : A) (s s' : state) :
  runs (lift o) s a s' -> o = Ok a /\ s' = s.
Proof. unfold runs, lift. intros H. inversion H. auto. Qed.

Lemma runs_ret_inv {A : Type} (a a' : A) (s s' : state) :
  runs (ret a) s a' s' -> a' = a /\ s' = s.
Proof. unfold runs, ret. intros H. inversion H. auto. Qed.

(** ** The heap *)

Lemma nth_error_fresh (h : list (dict value)) (d : dict value) :
  nth_error (h ++ [d])%list (length h) = Some d.
Proof. induction h as [|x h IH]; simpl; auto. Qed.

Lemma heap_store_fresh (h : list (dict value)) (d d' : dict value) :
  heap_store (length h) d' (h ++ [d])%list = (h ++ [d'])%list.
Proof. induction h as [|x h IH]; simpl; [reflexivity | now rewrite IH]. Qed.

Lemma runs_new_dict (d : dict value) (s : state) :
  runs (new_dict d) s (length (heap s)) {| heap := (heap s ++ [d])%list; trace := trace s |}.
Proof. reflexivity. Qed.

Lemma runs_setitem (h : list (dict value)) (d : dict value) (tr : list event)
    (key : string) (v : value) :
  runs (setitem (length h) key v)
    {| heap := (h ++ [d])%list; trace := tr |}
    tt
    {| heap := (h ++ [PyDict.set key v d])%list; trace := (tr ++ [EvSetItem (length h) key v])%list |}.
Proof.
  unfold runs, setitem, bind, deref, log. cbn [heap trace].
  rewrite nth_error_fresh. cbn [heap trace].
  rewrite heap_store_fresh. reflexivity.
Qed.

Lemma runs_normalize_val (v : value) (s : state) :
  is_parameter_source v = true -> runs (normalize_parameter (Val v)) s v s.
Proof. destruct v; simpl; intros H; try discriminate H; reflexivity. Qed.

Lemma runs_normalize_obj (h : list (dict value)) (d : dict value) (tr : list event) :
  runs (normalize_parameter (Obj (length h)))
    {| heap := (h ++ [d])%list; trace := tr |}
    (VDict d)
    {| heap := (h ++ [d])%list; trace := tr |}.
Proof.
  unfold runs, normalize_parameter, bind, deref, ret. cbn [heap].
  rewrite nth_error_fresh. reflexivity.
Qed.


(** ** Paths in plain form

    With a share directory that is not empty and does not end with a slash,
    and a recognised model, [os.path.join] only puts slashes between the
    components. *)

Lemma string_app_assoc (a b c : string) : (a ++ b) ++ c = a ++ (b ++ c).
Proof. induction a as [|x a IH]; cbn [append]; [reflexivity | now rewrite IH]. Qed.

Lemma ends_with_char_app (c : ascii) (a b : string) :
  b <> "" -> PyStr.ends_with_char c (a ++ b) = PyStr.ends_with_char c b.
Proof.
  intros Hb. induction a as [|x a IH]; [reflexivity|].
  cbn [append PyStr.ends_with_char]. rewrite IH.
  destruct (a ++ b) eqn:E; [|reflexivity].
  destruct a; [cbn in E; contradiction | discriminate E].
Qed.

Lemma join_component_plain (path b : string) :
  path <> "" ->
  PyStr.ends_with_char "/" path = false ->
  PyStr.starts_with_char "/" b = false ->
  join_component path b = path ++ "/" ++ b.
Proof.
  intros Hne Hend Hstart. unfold join_component. rewrite Hstart, Hend.
  destruct (String.eqb_spec path "") as [E|_]; [contradiction | reflexivity].
Qed.

Lemma append_not_empty (a b : string) : b <> "" -> a ++ b <> "".
Proof. destruct a; [auto | discriminate]. Qed.

Lemma recognized_not_absolute (model make extension : string) :
  get_lidar_make model = MakePair make extension ->
  PyStr.starts_with_char "/" model = false.
Proof.
  destruct model as [|c model]; [reflexivity|].
  cbn [PyStr.starts_with_char].
  destruct (Ascii.eqb_spec c "/") as [->|_]; [|reflexivity].
  cbn. discriminate.
Qed.

Lemma recognized_make (model make extension : string) :
  get_lidar_make model = MakePair make extension ->
  (make = "Hesai" /\ extension = ".csv") \/ (make = "Velodyne" /\ extension = ".yaml").
Proof.
  intros H.
  destruct (get_lidar_make_cases model) as [[_ [E|E]] | [_ E]];
    rewrite E in H; inversion H; auto.
Qed.

Lemma join_model_file (share directory make model suffix : string) :
  share <> "" ->
  PyStr.ends_with_char "/" share = false ->
  PyStr.starts_with_char "/" model = false ->
  model <> "" ->
  make = "Hesai" \/ make = "Velodyne" ->
  directory = "config" \/ directory = "calibration" ->
  os_path_join share [directory; PyStr.lower make; model ++ suffix] =
  share ++ "/" ++ directory ++ "/" ++ PyStr.lower make ++ "/" ++ model ++ suffix.
Proof.
  intros Hne Hend Hstart Hmodel Hmake Hdir.
  assert (Hfile : PyStr.starts_with_char "/" (model ++ suffix) = false).
  { destruct model; [contradiction | exact Hstart]. }
  unfold os_path_join. cbn [fold_left].
  assert (H1 : join_component share directory = share ++ "/" ++ directory).
  { apply join_component_plain; auto. destruct Hdir as [-> | ->]; reflexivity. }
  rewrite H1.
  assert (H2 : join_component (share ++ "/" ++ directory) (PyStr.lower make) =
               (share ++ "/" ++ directory) ++ "/" ++ PyStr.lower make).
  { apply join_component_plain.
    - apply append_not_empty. discriminate.
    - rewrite ends_with_char_app by discriminate.
      destruct Hdir as [-> | ->]; reflexivity.
    - destruct Hmake as [-> | ->]; reflexivity. }
  rewrite H2.
  rewrite join_component_plain.
  - repeat rewrite string_app_assoc. reflexivity.
  - apply append_not_empty. discriminate.
  - rewrite ends_with_char_app by discriminate.
    destruct Hmake as [-> | ->]; reflexivity.
  - exact Hfile.
Qed.

Lemma calibration_path_plain (decoders_share make model extension : string) :
  get_lidar_make model = MakePair make extension ->
  decoders_share <> "" ->
  PyStr.ends_with_char "/" decoders_share = false ->
  calibration_path decoders_share make model extension =
  decoders_share ++ "/calibration/" ++ PyStr.lower make ++ "/" ++ model ++ extension /\
  default_correction_path decoders_share make model =
  decoders_share ++ "/calibration/" ++ PyStr.lower make ++ "/" ++ model ++ ".dat".
Proof.
  intros Hm Hne Hend.
  pose proof (recognized_not_absolute _ _ _ Hm) as Hstart.
  assert (Hmodel : model <> "") by (intros ->; discriminate Hm).
  assert (Hmake : make = "Hesai" \/ make = "Velodyne")
    by (destruct (recognized_make _ _ _ Hm) as [[-> _] | [-> _]]; auto).
  unfold calibration_path, default_correction_path.
  split; apply join_model_file; auto.
Qed.

Lemma default_params_path_plain (ros_share make model extension : string) :
  get_lidar_make model = MakePair make extension ->
  ros_share <> "" ->
  PyStr.ends_with_char "/" ros_share = false ->
  default_params_path ros_share make model =
  ros_share ++ "/config/" ++ PyStr.lower make ++ "/" ++ model ++ ".yaml" /\
  base_params_path ros_share = ros_share ++ "/config/BaseParams.yaml".
Proof.
  intros Hm Hne Hend.
  pose proof (recognized_not_absolute _ _ _ Hm) as Hstart.
  assert (Hmodel : model <> "") by (intros ->; discriminate Hm).
  assert (Hmake : make = "Hesai" \/ make = "Velodyne")
    by (destruct (recognized_make _ _ _ Hm) as [[-> _] | [-> _]]; auto).
  unfold default_params_path, base_params_path. split.
  - apply join_model_file; auto.
  - unfold os_path_join. cbn [fold_left].
    rewrite (join_component_plain ros_share "config") by auto.
    rewrite join_component_plain.
    + repeat rewrite string_app_assoc. reflexivity.
    + apply append_not_empty. discriminate.
    + rewrite ends_with_char_app by discriminate. reflexivity.
    + reflexivity.
Qed.
(** ** File resolution *)

Arguments os_path_join : simpl never.

(** What the "# Config" part does, case by case: it asserts that the final
    params path exists, then that the calibration path exists, and yields the
    three paths when both do. *)
Lemma launch_setup_config_outcome (host : Host)
    (model make extension decoders_share ros_share user_params user_correction : string)
    (s : state) :
  fst (launch_setup_config host model make extension decoders_share ros_share
         user_params user_correction s) =
  let final := final_params_path host ros_share make model user_params in
  let calib := calibration_path decoders_share make model extension in
  if path_exists host final then
    if path_exists host calib then
      Ok (final, calib, final_correction_path host decoders_share make model user_correction)
    else
      Raise (AssertionError ("Sensor calib file under calibration/ was not found: " ++ calib))
  else
    Raise (AssertionError ("Sensor params yaml file under config/ was not found: " ++ final)).
Proof.
  unfold launch_setup_config, final_params_path, final_correction_path,
    substituted_params_path, substituted_correction_path,
    default_params_path, default_correction_path, base_params_path, calibration_path.
  cbv zeta.
  set (dp := os_path_join ros_share ["config"; PyStr.lower make; _]).
  set (bp := os_path_join ros_share ["config"; "BaseParams.yaml"]).
  set (cp := os_path_join decoders_share ["calibration"; _; model ++ extension]).
  set (dc := os_path_join decoders_share ["calibration"; _; model ++ ".dat"]).
  unfold bind, warn, ret, os_path_exists, py_assert, raise.
  destruct (String.eqb user_params ""), (String.eqb user_correction "");
    cbn [negb fst snd];
    repeat (match goal with
            | |- context [path_exists host ?p] =>
                is_var p; destruct (path_exists host p) eqn:?
            end; cbn [negb fst snd]);
    try reflexivity; try congruence.
Qed.

(** The "# Config" part allocates nothing and assigns to no dictionary. *)
Lemma launch_setup_config_heap (host : Host)
    (model make extension decoders_share ros_share user_params user_correction : string)
    (s : state) :
  heap (snd (launch_setup_config host model make extension decoders_share ros_share
               user_params user_correction s)) = heap s.
Proof.
  unfold launch_setup_config.
  unfold bind, warn, ret, os_path_exists, py_assert, raise.
  destruct (String.eqb user_params ""), (String.eqb user_correction "");
    cbn [negb fst snd];
    repeat (match goal with
            | |- context [if ?b then _ else _] =>
                lazymatch b with
                | context [if _ then _ else _] => fail
                | _ => destruct b
                end
            end; cbn [negb fst snd heap log]);
    reflexivity.
Qed.

(** The "# Config" part only warns and checks paths. *)
Lemma launch_setup_config_trace (host : Host)
    (model make extension decoders_share ros_share user_params user_correction : string)
    (s : state) :
  trace (snd (launch_setup_config host model make extension decoders_share ros_share
                user_params user_correction s)) =
  (trace s ++ config_events host model make extension decoders_share ros_share
                user_params user_correction)%list.
Proof.
  unfold launch_setup_config, config_events, final_params_path,
    substituted_params_path, substituted_correction_path,
    default_params_path, default_correction_path, base_params_path, calibration_path.
  cbv zeta.
  set (dp := os_path_join ros_share ["config"; PyStr.lower make; _]).
  set (bp := os_path_join ros_share ["config"; "BaseParams.yaml"]).
  set (cp := os_path_join decoders_share ["calibration"; _; model ++ extension]).
  set (dc := os_path_join decoders_share ["calibration"; _; model ++ ".dat"]).
  unfold py_assert. unfold bind, warn, ret, os_path_exists, raise.
  destruct (String.eqb user_params ""), (String.eqb user_correction "");
    cbn [negb fst snd];
    repeat (match goal with
            | |- context [path_exists host ?p] =>
                is_var p; destruct (path_exists host p) eqn:?
            end; cbn [negb fst snd]);
    cbn [trace log snd app]; repeat rewrite <- app_assoc; cbn [app];
    try reflexivity; try congruence.
Qed.

Lemma config_events_quiet (host : Host)
    (model make extension decoders_share ros_share user_params user_correction : string) :
  forallb (fun e => negb (is_assignment e))
    (config_events host model make extension decoders_share ros_share
       user_params user_correction) = true.
Proof.
  unfold config_events.
  destruct (String.eqb user_params ""), (String.eqb user_correction ""),
    (path_exists host (final_params_path _ _ _ _ _)); reflexivity.
Qed.

Lemma launch_setup_config_runs (host : Host)
    (model make extension decoders_share ros_share user_params user_correction : string)
    (s : state) :
  path_exists host (final_params_path host ros_share make model user_params) = true ->
  path_exists host (calibration_path decoders_share make model extension) = true ->
  exists s' : state,
    runs (launch_setup_config host model make extension decoders_share ros_share
            user_params user_correction) s
      (final_params_path host ros_share make model user_params,
       calibration_path decoders_share make model extension,
       final_correction_path host decoders_share make model user_correction) s' /\
    heap s' = heap s /\
    trace s' = (trace s ++ config_events host model make extension decoders_share
                             ros_share user_params user_correction)%list.
Proof.
  intros Hp Hc.
  pose proof (launch_setup_config_outcome host model make extension decoders_share
                ros_share user_params user_correction s) as H.
  pose proof (launch_setup_config_heap host model make extension decoders_share
                ros_share user_params user_correction s) as Hh.
  pose proof (launch_setup_config_trace host model make extension decoders_share
                ros_share user_params user_correction s) as Ht.
  cbv zeta in H. rewrite Hp, Hc in H. unfold runs.
  destruct (launch_setup_config _ _ _ _ _ _ _ _ s) as [r s'].
  exists s'. cbn [fst snd] in *. subst r. auto.
Qed.

(** ** Building the node list *)

Lemma runs_new_node_values (package plugin name : string) (p1 p2 : value)
    (remappings : option (list (string * string))) (s : state) :
  is_parameter_source p1 = true ->
  is_parameter_source p2 = true ->
  runs (new_ComposableNode package plugin name (Some [Val p1; Val p2]) remappings
          intra_process_arguments) s
    {| node_package := package; node_plugin := plugin; node_name := name;
       node_parameters := Some [p1; p2];
       node_remappings := remappings;
       node_extra_arguments := intra_process |} s.
Proof.
  intros H1 H2. unfold runs, new_ComposableNode, normalize_optional, bind.
  cbn [normalize_parameters]. unfold bind.
  rewrite (runs_normalize_val p1 s H1), (runs_normalize_val p2 s H2).
  reflexivity.
Qed.

Lemma runs_new_node_object (package plugin name : string)
    (remappings : option (list (string * string)))
    (h : list (dict value)) (d : dict value) (tr : list event) :
  runs (new_ComposableNode package plugin name (Some [Obj (length h)]) remappings
          intra_process_arguments) {| heap := (h ++ [d])%list; trace := tr |}
    {| node_package := package; node_plugin := plugin; node_name := name;
       node_parameters := Some [VDict d];
       node_remappings := remappings;
       node_extra_arguments := intra_process |}
    {| heap := (h ++ [d])%list; trace := tr |}.
Proof.
  unfold runs, new_ComposableNode, normalize_optional, bind.
  cbn [normalize_parameters]. unfold bind.
  rewrite (runs_normalize_obj h d tr). reflexivity.
Qed.

Lemma runs_new_node_bare (package plugin name : string)
    (remappings : option (list (string * string))) (s : state) :
  runs (new_ComposableNode package plugin name None remappings
          intra_process_arguments) s
    {| node_package := package; node_plugin := plugin; node_name := name;
       node_parameters := None;
       node_remappings := remappings;
       node_extra_arguments := intra_process |} s.
Proof. reflexivity. Qed.

Lemma runs_get_vehicle_mirror_info (host : Host) (context : LaunchContext)
    (path : string) (doc top info : value) (s : state) :
  perform context "vehicle_mirror_param_file" = Ok path ->
  yaml_file host path = Some doc ->
  value_getitem doc "/**" = Ok top ->
  value_getitem top "ros__parameters" = Ok info ->
  runs (get_vehicle_mirror_info host context) s info
    {| heap := heap s; trace := (trace s ++ [EvOpen path])%list |}.
Proof.
  intros Hp Hd Ht Hi.
  unfold runs, get_vehicle_mirror_info, bind, lift, open_yaml, ret.
  rewrite Hp, Hd, Ht, Hi. reflexivity.
Qed.

Lemma runs_share (host : Host) (pkg dir : string) (s : state) :
  package_share_directory host pkg = Some dir ->
  runs (get_package_share_directory host pkg) s dir (log (EvShareDirectory pkg) s).
Proof. unfold runs, get_package_share_directory. intros ->. reflexivity. Qed.

Lemma runs_open_yaml (host : Host) (path : string) (doc : value) (s : state) :
  yaml_file host path = Some doc ->
  runs (open_yaml host path) s doc (log (EvOpen path) s).
Proof. unfold runs, open_yaml. intros ->. reflexivity. Qed.

(** One step of a run: the first statement of a sequence, by the lemma
    for its kind, then the rest. *)
Ltac run_statement :=
  first
    [ apply runs_lift; eassumption
    | apply runs_lift; reflexivity
    | apply runs_new_dict
    | apply runs_setitem
    | apply runs_new_node_object
    | apply runs_new_node_bare
    | apply runs_new_node_values; [eassumption | reflexivity]
    | eapply runs_get_vehicle_mirror_info; eassumption ].

Ltac run_all :=
  repeat (cbv beta zeta;
          lazymatch goal with
          | |- runs (bind _ _) _ _ _ => eapply runs_bind; [run_statement |]
          | |- runs (ret _) _ _ _ => apply runs_ret
          end).

Lemma runs_new_node_single (package plugin name : string) (d : dict value) (s : state) :
  runs (new_ComposableNode package plugin name (Some [Val (VDict d)]) None None) s
    {| node_package := package; node_plugin := plugin; node_name := name;
       node_parameters := Some [VDict d];
       node_remappings := None;
       node_extra_arguments := None |} s.
Proof. reflexivity. Qed.

(** ** A complete run *)

Section RunProofs.

Variable host : Host.
Variable context : LaunchContext.
Variable i : Inputs.
Hypothesis valid : Valid host context i.

Lemma launch_setup_nodes_runs (s : state) :
  runs (launch_setup_nodes host context (in_model i) (in_make i) (in_sensor_params i)
          (calib_path i) (correction_path host i)) s
    (pipeline host i)
    {| heap := (heap s ++
                [crop_parameters
                   (in_mirror_min_x i) (in_mirror_max_x i)
                   (in_mirror_min_y i) (in_mirror_max_y i)
                   (in_mirror_min_z i) (in_mirror_max_z i)])%list;
       trace := (trace s ++ nodes_trace i (length (heap s)))%list |}.
Proof.
  destruct valid.
  unfold launch_setup_nodes.
  run_all.
  unfold runs, ret. f_equal. f_equal.
  cbn [trace heap]. unfold nodes_trace.
  repeat rewrite <- app_assoc. reflexivity.
Qed.

Lemma launch_setup_actions_runs (s : state) :
  runs (launch_setup_actions context (in_model i) (in_make i) (calib_path i)
          (pipeline host i)) s
    (actions host i) s.
Proof.
  destruct valid.
  unfold launch_setup_actions.
  cbv zeta.
  eapply runs_bind; [apply runs_new_node_single |].
  eapply runs_bind; [apply runs_lift; eassumption |].
  cbv beta. unfold runs, ret. reflexivity.
Qed.

(** A valid input is run to the end: [launch_setup] returns the three
    actions.  The run leaves one dictionary object more, the crop-box
    dictionary, which holds the mirror bounds by then; and all it assigns to
    dictionaries is in [nodes_trace]. *)
Lemma launch_setup_runs (s : state) :
  exists (before : list event),
    runs (launch_setup host context) s (actions host i)
      {| heap := (heap s ++
                  [crop_parameters
                     (in_mirror_min_x i) (in_mirror_max_x i)
                     (in_mirror_min_y i) (in_mirror_max_y i)
                     (in_mirror_min_z i) (in_mirror_max_z i)])%list;
         trace := (trace s ++ before ++ nodes_trace i (length (heap s)))%list |} /\
    forallb (fun e => negb (is_assignment e)) before = true.
Proof.
  pose proof valid as V. destruct V.
  destruct (launch_setup_config_runs host (in_model i) (in_make i) (in_extension i)
              (in_decoders_share i) (in_ros_share i) (in_config_file i)
              (in_correction_file i)
              (log (EvShareDirectory "nebula_ros")
                 (log (EvShareDirectory "nebula_decoders") s)))
    as (s1 & Hconfig & Hheap & Htrace); [assumption | assumption |].
  cbn [heap trace log] in Hheap, Htrace.
  set (evs := config_events host (in_model i) (in_make i) (in_extension i)
                (in_decoders_share i) (in_ros_share i) (in_config_file i)
                (in_correction_file i)) in *.
  exists ([EvShareDirectory "nebula_decoders"; EvShareDirectory "nebula_ros"]
            ++ evs ++ [EvOpen (params_path host i)])%list.
  split.
  - unfold launch_setup.
    eapply runs_bind; [apply runs_lift; eassumption |].
    eapply runs_bind;
      [apply runs_lift; rewrite (valid_make _ _ _ valid); reflexivity |].
    cbv beta iota.
    eapply runs_bind; [apply runs_share; eassumption |].
    eapply runs_bind; [apply runs_share; eassumption |].
    eapply runs_bind; [apply runs_lift; eassumption |].
    eapply runs_bind; [apply runs_lift; eassumption |].
    eapply runs_bind; [exact Hconfig |].
    cbv beta iota.
    eapply runs_bind; [apply runs_open_yaml; eassumption |].
    eapply runs_bind; [apply runs_lift; eassumption |].
    eapply runs_bind; [apply runs_lift; eassumption |].
    eapply runs_bind; [apply launch_setup_nodes_runs |].
    cbn [heap trace log]. rewrite Hheap, Htrace.
    match goal with
    | |- runs _ ?s1 _ ?s2 => replace s2 with s1; [apply launch_setup_actions_runs |]
    end.
    f_equal. unfold params_path. cbn [app].
    repeat rewrite <- app_assoc. reflexivity.
  - cbn [app forallb is_assignment negb andb].
    rewrite forallb_app. unfold evs. rewrite config_events_quiet. reflexivity.
Qed.

End RunProofs.

(** ** Every finished run had a valid input *)

Lemma runs_share_inv (host : Host) (pkg dir : string) (s s' : state) :
  runs (get_package_share_directory host pkg) s dir s' ->
  package_share_directory host pkg = Some dir.
Proof.
  unfold runs, get_package_share_directory.
  destruct (package_share_directory host pkg); intros H; inversion H; reflexivity.
Qed.

Lemma runs_open_yaml_inv (host : Host) (path : string) (doc : value) (s s' : state) :
  runs (open_yaml host path) s doc s' -> yaml_file host path = Some doc.
Proof.
  unfold runs, open_yaml.
  destruct (yaml_file host path); intros H; inversion H; reflexivity.
Qed.

Lemma runs_unpack2_inv (model make extension : string) (s s' : state) :
  runs (lift (unpack2 (get_lidar_make model))) s (make, extension) s' ->
  get_lidar_make model = MakePair make extension.
Proof.
  intros H. apply runs_lift_inv in H. destruct H as [H _].
  destruct (get_lidar_make_cases model) as [[_ [E|E]] | [_ E]];
    rewrite E in H |- *; simpl in H; congruence.
Qed.

Lemma runs_config_inv (host : Host)
    (model make extension decoders_share ros_share user_params user_correction : string)
    (s s' : state) (paths : string * string * string) :
  runs (launch_setup_config host model make extension decoders_share ros_share
          user_params user_correction) s paths s' ->
  paths = (final_params_path host ros_share make model user_params,
           calibration_path decoders_share make model extension,
           final_correction_path host decoders_share make model user_correction) /\
  path_exists host (final_params_path host ros_share make model user_params) = true /\
  path_exists host (calibration_path decoders_share make model extension) = true.
Proof.
  intros H.
  pose proof (launch_setup_config_outcome host model make extension decoders_share
                ros_share user_params user_correction s) as O.
  unfold runs in H. rewrite H in O. cbn [fst] in O. cbv zeta in O.
  destruct (path_exists host (final_params_path _ _ _ _ _)); [|discriminate O].
  destruct (path_exists host (calibration_path _ _ _ _)); [|discriminate O].
  inversion O. auto.
Qed.

Lemma runs_new_node_values_inv (package plugin name : string) (p1 p2 : value)
    (remappings : option (list (string * string))) (extra : option (list arg))
    (s s' : state) (n : ComposableNode) :
  runs (new_ComposableNode package plugin name (Some [Val p1; Val p2]) remappings extra)
    s n s' ->
  is_parameter_source p1 = true.
Proof.
  unfold runs, new_ComposableNode, normalize_optional, bind.
  cbn [normalize_parameters]. unfold bind.
  destruct p1; simpl; intros H; try discriminate H; reflexivity.
Qed.

Lemma runs_mirror_inv (host : Host) (context : LaunchContext) (info : value)
    (s s' : state) :
  runs (get_vehicle_mirror_info host context) s info s' ->
  exists (path : string) (doc top : value),
    perform context "vehicle_mirror_param_file" = Ok path /\
    yaml_file host path = Some doc /\
    value_getitem doc "/**" = Ok top /\
    value_getitem top "ros__parameters" = Ok info.
Proof.
  unfold get_vehicle_mirror_info. intros H.
  apply runs_bind_inv in H. destruct H as (path & s1 & H1 & H).
  apply runs_bind_inv in H. destruct H as (doc & s2 & H2 & H).
  apply runs_bind_inv in H. destruct H as (top & s3 & H3 & H).
  apply runs_bind_inv in H. destruct H as (p & s4 & H4 & H).
  apply runs_ret_inv in H. destruct H as [-> _].
  apply runs_lift_inv in H1, H3, H4. apply runs_open_yaml_inv in H2.
  exists path, doc, top. tauto.
Qed.

Ltac invert_run H :=
  repeat (first
            [ apply runs_bind_inv in H;
              let a := fresh "a" in
              let s := fresh "s" in
              let R := fresh "R" in
              destruct H as (a & s & R & H); cbv beta in H
            | match type of H with
              | runs (match ?x with _ => _ end) _ _ _ => destruct x
              end ]).

Ltac invert_facts :=
  repeat match goal with
         | H : runs (lift (unpack2 _)) _ _ _ |- _ => apply runs_unpack2_inv in H
         | H : runs (lift _) _ _ _ |- _ =>
             apply runs_lift_inv in H; destruct H as [H _]
         | H : runs (get_package_share_directory _ _) _ _ _ |- _ =>
             apply runs_share_inv in H
         | H : runs (open_yaml _ _) _ _ _ |- _ => apply runs_open_yaml_inv in H
         | H : runs (get_vehicle_mirror_info _ _) _ _ _ |- _ =>
             apply runs_mirror_inv in H; destruct H as (? & ? & ? & ? & ? & ? & ?)
         | H : runs (launch_setup_config _ _ _ _ _ _ _ _) _ _ _ |- _ =>
             apply runs_config_inv in H; destruct H as (? & ? & ?)
         | H : runs (new_ComposableNode _ _ _ (Some [Val _; Val _]) _ _) _ _ _ |- _ =>
             apply runs_new_node_values_inv in H
         end.

(** A run of [launch_setup] that returns has read a valid input. *)
Lemma launch_setup_runs_valid (host : Host) (context : LaunchContext)
    (s s' : state) (acts : list action) :
  runs (launch_setup host context) s acts s' ->
  exists i : Inputs, Valid host context i.
Proof.
  unfold launch_setup. intros H.
  invert_run H.
  match goal with
  | R : runs (launch_setup_nodes _ _ _ _ _ _ _) _ _ _ |- _ =>
      unfold launch_setup_nodes in R; cbv zeta in R; invert_run R
  end.
  unfold launch_setup_actions in H. cbv zeta in H. invert_run H.
  invert_facts.
  match goal with E : (_, _, _) = (_, _, _) |- _ => inversion E; subst end.
  match goal with
  | Hmodel : perform context "sensor_model" = Ok ?model,
    Hmake : get_lidar_make ?model = MakePair ?make ?ext,
    Hdec : package_share_directory host "nebula_decoders" = Some ?dec,
    Hros : package_share_directory host "nebula_ros" = Some ?ros,
    Hcf : perform context "config_file" = Ok ?cf,
    Hkf : perform context "sensor_correction_file" = Ok ?kf,
    Hdoc : yaml_file host (final_params_path host ?ros ?make ?model ?cf) = Some ?doc,
    Htop : value_getitem ?doc "/**" = Ok ?top,
    Hsp : value_getitem ?top "ros__parameters" = Ok ?sp,
    Hvi : get_vehicle_info context = Ok ?vi,
    Hv1 : getitem ?vi "min_longitudinal_offset" = Ok ?v1,
    Hv2 : getitem ?vi "max_longitudinal_offset" = Ok ?v2,
    Hv3 : getitem ?vi "min_lateral_offset" = Ok ?v3,
    Hv4 : getitem ?vi "max_lateral_offset" = Ok ?v4,
    Hv5 : getitem ?vi "min_height_offset" = Ok ?v5,
    Hv6 : getitem ?vi "max_height_offset" = Ok ?v6,
    Hmf : perform context "vehicle_mirror_param_file" = Ok ?mf,
    Hmdoc : yaml_file host ?mf = Some ?mdoc,
    Hmtop : value_getitem ?mdoc "/**" = Ok ?mtop,
    Hmi : value_getitem ?mtop "ros__parameters" = Ok ?mi,
    Hm1 : value_getitem ?mi "min_longitudinal_offset" = Ok ?m1,
    Hm2 : value_getitem ?mi "max_longitudinal_offset" = Ok ?m2,
    Hm3 : value_getitem ?mi "min_lateral_offset" = Ok ?m3,
    Hm4 : value_getitem ?mi "max_lateral_offset" = Ok ?m4,
    Hm5 : value_getitem ?mi "min_height_offset" = Ok ?m5,
    Hm6 : value_getitem ?mi "max_height_offset" = Ok ?m6,
    Hded : evaluate context (UnlessCondition "use_pointcloud_container") = Ok ?ded
    |- _ =>
      exists (Build_Inputs model make ext dec ros cf kf doc top sp vi v1 v2 v3 v4 v5 v6
                mf mdoc mtop mi m1 m2 m3 m4 m5 m6 ded)
  end.
  constructor; unfold params_path, calib_path; cbn; assumption.
Qed.

(** ** The example installation is a valid input *)

Lemma example_valid (correction : string) :
  Valid example_host (example_context correction) (example_inputs correction).
Proof. constructor; reflexivity. Qed.

Example example_run :
  fst (launch_setup example_host (example_context "") initial_state) =
  Ok (actions example_host (example_inputs "")).
Proof. vm_compute. reflexivity. Qed.

Example example_run_unrecognized :
  launch_setup example_host
    {| launch_configurations := [("sensor_model", "OS1-64")];
       ros_params := None; global_params := None |} initial_state =
  (Raise (ValueError "too many values to unpack (expected 2)"), initial_state).
Proof. reflexivity. Qed.

(** A finished run returned the actions of a valid input. *)
Lemma launch_setup_result (host : Host) (context : LaunchContext)
    (s s' : state) (acts : list action) :
  runs (launch_setup host context) s acts s' ->
  exists i : Inputs, Valid host context i /\ acts = actions host i.
Proof.
  intros H.
  destruct (launch_setup_runs_valid host context s s' acts H) as (i & V).
  exists i. split; [exact V|].
  destruct (launch_setup_runs host context i V s) as (before & R & _).
  destruct (runs_inj _ _ _ _ _ _ H R) as [E _]. exact E.
Qed.

(** ** Reading the bounds off a valid input *)

Lemma getitem_ok_get {V : Type} (d : dict V) (k : string) (v : V) :
  getitem d k = Ok v -> PyDict.get k d = Some v.
Proof. unfold getitem. destruct (PyDict.get k d); intros H; inversion H; reflexivity. Qed.

Lemma vehicle_bounds_valid (host : Host) (context : LaunchContext) (i : Inputs) :
  Valid host context i ->
  vehicle_bounds (in_vehicle_info i) =
  [Some (VFloat (in_vehicle_min_x i)); Some (VFloat (in_vehicle_max_x i));
   Some (VFloat (in_vehicle_min_y i)); Some (VFloat (in_vehicle_max_y i));
   Some (VFloat (in_vehicle_min_z i)); Some (VFloat (in_vehicle_max_z i))].
Proof.
  intros V. unfold vehicle_bounds, offset_keys. cbn [map].
  rewrite (getitem_ok_get _ _ _ (valid_vehicle_min_x _ _ _ V)),
    (getitem_ok_get _ _ _ (valid_vehicle_max_x _ _ _ V)),
    (getitem_ok_get _ _ _ (valid_vehicle_min_y _ _ _ V)),
    (getitem_ok_get _ _ _ (valid_vehicle_max_y _ _ _ V)),
    (getitem_ok_get _ _ _ (valid_vehicle_min_z _ _ _ V)),
    (getitem_ok_get _ _ _ (valid_vehicle_max_z _ _ _ V)).
  reflexivity.
Qed.

Lemma mirror_bounds_valid (host : Host) (context : LaunchContext) (i : Inputs) :
  Valid host context i ->
  mirror_bounds (in_mirror_info i) =
  [Some (in_mirror_min_x i); Some (in_mirror_max_x i);
   Some (in_mirror_min_y i); Some (in_mirror_max_y i);
   Some (in_mirror_min_z i); Some (in_mirror_max_z i)].
Proof.
  intros V. unfold mirror_bounds, offset_keys. cbn [map].
  rewrite (valid_mirror_min_x _ _ _ V), (valid_mirror_max_x _ _ _ V),
    (valid_mirror_min_y _ _ _ V), (valid_mirror_max_y _ _ _ V),
    (valid_mirror_min_z _ _ _ V), (valid_mirror_max_z _ _ _ V).
  reflexivity.
Qed.

Lemma unless_is_not_if (context : LaunchContext) (name : string) (b : bool) :
  evaluate context (UnlessCondition name) = Ok b ->
  evaluate context (IfCondition name) = Ok (negb b).
Proof.
  unfold evaluate, obind.
  destruct (perform context name) as [text|e]; [|discriminate].
  destruct (evaluate_condition_expression text) as [v|e]; [|discriminate].
  intros H. inversion H. now rewrite negb_involutive.
Qed.

Lemma selected_dimensions (context : LaunchContext) (gp : dict float) :
  selects_dimensions context gp ->
  (if PyDict.is_empty match ros_params context with Some d => d | None => [] end
   then match global_params context with Some d => d | None => [] end
   else match ros_params context with Some d => d | None => [] end) = gp.
Proof.
  intros [[-> Hne] | [[-> | ->] ->]]; try reflexivity.
  destruct gp; [contradiction | reflexivity].
Qed.

(** [get_vehicle_info] in terms of the dictionary it selects. *)
Lemma get_vehicle_info_cases (context : LaunchContext) (gp : dict float) :
  selects_dimensions context gp ->
  match first_missing dimension_keys gp with
  | Some k => get_vehicle_info context = Raise (KeyError k)
  | None =>
      exists front_overhang wheel_base rear_overhang wheel_tread
             left_overhang right_overhang vehicle_height : float,
        PyDict.get "front_overhang" gp = Some front_overhang /\
        PyDict.get "wheel_base" gp = Some wheel_base /\
        PyDict.get "rear_overhang" gp = Some rear_overhang /\
        PyDict.get "wheel_tread" gp = Some wheel_tread /\
        PyDict.get "left_overhang" gp = Some left_overhang /\
        PyDict.get "right_overhang" gp = Some right_overhang /\
        PyDict.get "vehicle_height" gp = Some vehicle_height /\
        get_vehicle_info context =
        Ok [("vehicle_length", front_overhang + wheel_base + rear_overhang);
            ("vehicle_width", wheel_tread + left_overhang + right_overhang);
            ("min_longitudinal_offset", - rear_overhang);
            ("max_longitudinal_offset", front_overhang + wheel_base);
            ("min_lateral_offset", - (wheel_tread / 2 + right_overhang));
            ("max_lateral_offset", wheel_tread / 2 + left_overhang);
            ("min_height_offset", 0);
            ("max_height_offset", vehicle_height)]%float
  end.
Proof.
  intros Hsel. unfold get_vehicle_info.
  rewrite (selected_dimensions context gp Hsel).
  unfold first_missing, dimension_keys, getitem. cbn [find].
  destruct (PyDict.get "front_overhang" gp) as [fo|]; [|reflexivity].
  destruct (PyDict.get "wheel_base" gp) as [wb|]; [|reflexivity].
  destruct (PyDict.get "rear_overhang" gp) as [ro|]; [|reflexivity].
  destruct (PyDict.get "wheel_tread" gp) as [wt|]; [|reflexivity].
  destruct (PyDict.get "left_overhang" gp) as [lo|]; [|reflexivity].
  destruct (PyDict.get "right_overhang" gp) as [rro|]; [|reflexivity].
  destruct (PyDict.get "vehicle_height" gp) as [vh|]; [|reflexivity].
  exists fo, wb, ro, wt, lo, rro, vh. repeat split; reflexivity.
Qed.

(** A context from which [get_vehicle_info] returns selects a dictionary. *)
Lemma get_vehicle_info_selects (context : LaunchContext) (p : dict float) :
  get_vehicle_info context = Ok p ->
  exists gp : dict float, selects_dimensions context gp.
Proof.
  unfold selects_dimensions, get_vehicle_info.
  destruct (ros_params context) as [[|kv d]|];
    destruct (global_params context) as [g|]; cbn [PyDict.is_empty].
  - intros _. exists g. right. split; [right; reflexivity | reflexivity].
  - intros H. cbn in H. discriminate H.
  - intros _. exists (kv :: d). left. split; [reflexivity | discriminate].
  - intros _. exists (kv :: d). left. split; [reflexivity | discriminate].
  - intros _. exists g. right. split; [left; reflexivity | reflexivity].
  - intros H. cbn in H. discriminate H.
Qed.

(** On a valid input the six vehicle offsets are the formulas over the seven
    dimensions of the selected dictionary. *)
Lemma valid_vehicle_dimensions (host : Host) (context : LaunchContext) (i : Inputs) :
  Valid host context i ->
  exists (gp : dict float)
         (front_overhang wheel_base rear_overhang wheel_tread
          left_overhang right_overhang vehicle_height : float),
    selects_dimensions context gp /\
    PyDict.get "front_overhang" gp = Some front_overhang /\
    PyDict.get "wheel_base" gp = Some wheel_base /\
    PyDict.get "rear_overhang" gp = Some rear_overhang /\
    PyDict.get "wheel_tread" gp = Some wheel_tread /\
    PyDict.get "left_overhang" gp = Some left_overhang /\
    PyDict.get "right_overhang" gp = Some right_overhang /\
    PyDict.get "vehicle_height" gp = Some vehicle_height /\
    (in_vehicle_min_x i = - rear_overhang /\
     in_vehicle_max_x i = front_overhang + wheel_base /\
     in_vehicle_min_y i = - (wheel_tread / 2 + right_overhang) /\
     in_vehicle_max_y i = wheel_tread / 2 + left_overhang /\
     in_vehicle_min_z i = 0 /\
     in_vehicle_max_z i = vehicle_height)%float.
Proof.
  intros V.
  pose proof (valid_vehicle_info _ _ _ V) as Hinfo.
  destruct (get_vehicle_info_selects context _ Hinfo) as (gp & Hsel).
  pose proof (get_vehicle_info_cases context gp Hsel) as Hcases.
  destruct (first_missing dimension_keys gp) as [k|].
  { rewrite Hcases in Hinfo. discriminate Hinfo. }
  destruct Hcases as (fo & wb & ro & wt & lo & rro & vh & Hfo & Hwb & Hro & Hwt & Hlo
                      & Hrro & Hvh & Hval).
  rewrite Hval in Hinfo. inversion Hinfo as [E].
  pose proof (valid_vehicle_min_x _ _ _ V) as X0.
  pose proof (valid_vehicle_max_x _ _ _ V) as X1.
  pose proof (valid_vehicle_min_y _ _ _ V) as Y0.
  pose proof (valid_vehicle_max_y _ _ _ V) as Y1.
  pose proof (valid_vehicle_min_z _ _ _ V) as Z0.
  pose proof (valid_vehicle_max_z _ _ _ V) as Z1.
  rewrite <- E in X0, X1, Y0, Y1, Z0, Z1.
  cbn in X0, X1, Y0, Y1, Z0, Z1.
  inversion X0. inversion X1. inversion Y0. inversion Y1. inversion Z0. inversion Z1.
  exists gp, fo, wb, ro, wt, lo, rro, vh.
  repeat (split; [assumption|]).
  repeat split; congruence.
Qed.

(** ** The claims about the emitted nodes *)

(** C1.  On every valid input [launch_setup] returns, and the node list it
    emits holds two crop-box nodes with parameter sets of their own.  The six
    bounds of the self-crop node are the six offsets of [get_vehicle_info],
    that is, the bounds derived from the vehicle dimensions: with the seven
    dimensions of the selected dictionary they are - rear overhang, front
    overhang + wheel base, - (wheel tread / 2 + right overhang), wheel tread
    / 2 + left overhang, 0 and the vehicle height.  The six bounds of the
    mirror-crop node are the six offsets read from the mirror parameter file
    (longitudinal to x, lateral to y, height to z).  The dictionary object
    both nodes were given holds the mirror bounds when the run ends, and the
    self-crop node still has the vehicle bounds. *)
Theorem crop_bounds_self_and_mirror (host : Host) (context : LaunchContext) (i : Inputs) :
  Valid host context i ->
  exists (driver self mirror corrector outlier : ComposableNode) (s' : state),
    emits host context [driver; self; mirror; corrector; outlier] s' /\
    node_name self = "crop_box_filter_self" /\
    node_name mirror = "crop_box_filter_mirror" /\
    crop_bounds self = vehicle_bounds (in_vehicle_info i) /\
    crop_bounds mirror = mirror_bounds (in_mirror_info i) /\
    ~ In None (crop_bounds self) /\
    ~ In None (crop_bounds mirror) /\
    (exists (gp : dict float)
            (front_overhang wheel_base rear_overhang wheel_tread
             left_overhang right_overhang vehicle_height : float),
        selects_dimensions context gp /\
        PyDict.get "front_overhang" gp = Some front_overhang /\
        PyDict.get "wheel_base" gp = Some wheel_base /\
        PyDict.get "rear_overhang" gp = Some rear_overhang /\
        PyDict.get "wheel_tread" gp = Some wheel_tread /\
        PyDict.get "left_overhang" gp = Some left_overhang /\
        PyDict.get "right_overhang" gp = Some right_overhang /\
        PyDict.get "vehicle_height" gp = Some vehicle_height /\
        crop_bounds self =
          [Some (VFloat (- rear_overhang));
           Some (VFloat (front_overhang + wheel_base));
           Some (VFloat (- (wheel_tread / 2 + right_overhang)));
           Some (VFloat (wheel_tread / 2 + left_overhang));
           Some (VFloat 0);
           Some (VFloat vehicle_height)]%float) /\
    exists cropbox_parameters : dict value,
      heap s' = [cropbox_parameters] /\
      map (fun k => PyDict.get k cropbox_parameters) bound_keys =
      mirror_bounds (in_mirror_info i).
Proof.
  intros V.
  destruct (launch_setup_runs host context i V initial_state) as (before & R & _).
  destruct (valid_vehicle_dimensions host context i V)
    as (gp & fo & wb & ro & wt & lo & rro & vh & Hsel & Hfo & Hwb & Hro & Hwt & Hlo
        & Hrro & Hvh & Ex0 & Ex1 & Ey0 & Ey1 & Ez0 & Ez1).
  exists (driver_node host i), (self_crop_node i), (mirror_crop_node i),
    distortion_corrector_node, outlier_filter_node.
  eexists. split.
  { exists (node_container host i), (component_loader host i),
      (driver_component_loader host i).
    split; [exact R | split; reflexivity]. }
  rewrite (vehicle_bounds_valid host context i V),
    (mirror_bounds_valid host context i V).
  split; [reflexivity|]. split; [reflexivity|].
  split; [reflexivity|]. split; [reflexivity|].
  split.
  { cbn. intros H. repeat destruct H as [H|H]; try discriminate H. exact H. }
  split.
  { cbn. intros H. repeat destruct H as [H|H]; try discriminate H. exact H. }
  split.
  { exists gp, fo, wb, ro, wt, lo, rro, vh.
    repeat (split; [assumption|]).
    rewrite <- Ex0, <- Ex1, <- Ey0, <- Ey1, <- Ez0, <- Ez1. reflexivity. }
  eexists. split; reflexivity.
Qed.

(** The two crop boxes of the example: the vehicle box from the dimensions
    0.5, 0.5, 2.5, 1.5, 0.2, 0.2, 1.8 and the mirror box of the mirror file. *)
Lemma crop_bounds_self_and_mirror_witness :
  exists (driver self mirror corrector outlier : ComposableNode) (s' : state),
    emits example_host (example_context "")
      [driver; self; mirror; corrector; outlier] s' /\
    node_name self = "crop_box_filter_self" /\
    node_name mirror = "crop_box_filter_mirror" /\
    crop_bounds self = vehicle_bounds (in_vehicle_info (example_inputs "")) /\
    crop_bounds mirror = mirror_bounds (in_mirror_info (example_inputs "")) /\
    ~ In None (crop_bounds self) /\
    ~ In None (crop_bounds mirror) /\
    (exists (gp : dict float)
            (front_overhang wheel_base rear_overhang wheel_tread
             left_overhang right_overhang vehicle_height : float),
        selects_dimensions (example_context "") gp /\
        PyDict.get "front_overhang" gp = Some front_overhang /\
        PyDict.get "wheel_base" gp = Some wheel_base /\
        PyDict.get "rear_overhang" gp = Some rear_overhang /\
        PyDict.get "wheel_tread" gp = Some wheel_tread /\
        PyDict.get "left_overhang" gp = Some left_overhang /\
        PyDict.get "right_overhang" gp = Some right_overhang /\
        PyDict.get "vehicle_height" gp = Some vehicle_height /\
        crop_bounds self =
          [Some (VFloat (- rear_overhang));
           Some (VFloat (front_overhang + wheel_base));
           Some (VFloat (- (wheel_tread / 2 + right_overhang)));
           Some (VFloat (wheel_tread / 2 + left_overhang));
           Some (VFloat 0);
           Some (VFloat vehicle_height)]%float) /\
    exists cropbox_parameters : dict value,
      heap s' = [cropbox_parameters] /\
      map (fun k => PyDict.get k cropbox_parameters) bound_keys =
      mirror_bounds (in_mirror_info (example_inputs "")).
Proof.
  exact (crop_bounds_self_and_mirror example_host (example_context "")
           (example_inputs "") (example_valid "")).
Defined.

(** C7.  On every valid input, so for either recognised make, the emitted
    node list is the driver, the self-crop filter, the mirror-crop filter,
    the distortion corrector and the outlier filter, in this order and no
    other node; their point-cloud topics are those of the table, and each
    node after the driver consumes a topic the node before it produces. *)
Theorem pipeline_topology (host : Host) (context : LaunchContext) (i : Inputs) :
  Valid host context i ->
  exists (nodes : list ComposableNode) (s' : state),
    emits host context nodes s' /\
    length nodes = 5 /\
    map node_plugin nodes =
      [in_make i ++ "DriverRosWrapper";
       "pointcloud_preprocessor::CropBoxFilterComponent";
       "pointcloud_preprocessor::CropBoxFilterComponent";
       "pointcloud_preprocessor::DistortionCorrectorComponent";
       "pointcloud_preprocessor::RingOutlierFilterComponent"] /\
    map (fun n => (node_name n, input_topic n, output_topics n)) nodes =
      [(PyStr.lower (in_make i) ++ "_driver_ros_wrapper_node",
        None, ["pointcloud_raw"; "pointcloud_raw_ex"]);
       ("crop_box_filter_self",
        Some "pointcloud_raw_ex", ["self_cropped/pointcloud_ex"]);
       ("crop_box_filter_mirror",
        Some "self_cropped/pointcloud_ex", ["mirror_cropped/pointcloud_ex"]);
       ("distortion_corrector_node",
        Some "mirror_cropped/pointcloud_ex", ["rectified/pointcloud_ex"]);
       ("ring_outlier_filter",
        Some "rectified/pointcloud_ex", ["outlier_filtered/pointcloud"])] /\
    chained nodes /\
    (in_make i = "Hesai" \/ in_make i = "Velodyne").
Proof.
  intros V.
  destruct (launch_setup_runs host context i V initial_state) as (before & R & _).
  exists (pipeline host i). eexists. split.
  { exists (node_container host i), (component_loader host i),
      (driver_component_loader host i).
    split; [exact R | split; reflexivity]. }
  repeat split; try reflexivity.
  - exists "pointcloud_raw_ex". split; [reflexivity | cbn; auto].
  - exists "self_cropped/pointcloud_ex". split; [reflexivity | cbn; auto].
  - exists "mirror_cropped/pointcloud_ex". split; [reflexivity | cbn; auto].
  - exists "rectified/pointcloud_ex". split; [reflexivity | cbn; auto].
  - pose proof (valid_make _ _ _ V) as Hm.
    destruct (get_lidar_make_cases (in_model i)) as [[_ [E|E]] | [_ E]];
      rewrite E in Hm; inversion Hm; auto.
Qed.

(** The pipeline of the example, a Hesai sensor. *)
Lemma pipeline_topology_witness :
  exists (nodes : list ComposableNode) (s' : state),
    emits example_host (example_context "") nodes s' /\
    length nodes = 5 /\
    map node_plugin nodes =
      ["HesaiDriverRosWrapper";
       "pointcloud_preprocessor::CropBoxFilterComponent";
       "pointcloud_preprocessor::CropBoxFilterComponent";
       "pointcloud_preprocessor::DistortionCorrectorComponent";
       "pointcloud_preprocessor::RingOutlierFilterComponent"] /\
    map (fun n => (node_name n, input_topic n, output_topics n)) nodes =
      [("hesai_driver_ros_wrapper_node",
        None, ["pointcloud_raw"; "pointcloud_raw_ex"]);
       ("crop_box_filter_self",
        Some "pointcloud_raw_ex", ["self_cropped/pointcloud_ex"]);
       ("crop_box_filter_mirror",
        Some "self_cropped/pointcloud_ex", ["mirror_cropped/pointcloud_ex"]);
       ("distortion_corrector_node",
        Some "mirror_cropped/pointcloud_ex", ["rectified/pointcloud_ex"]);
       ("ring_outlier_filter",
        Some "rectified/pointcloud_ex", ["outlier_filtered/pointcloud"])] /\
    chained nodes /\
    ("Hesai" = "Hesai" \/ "Hesai" = "Velodyne").
Proof.
  exact (pipeline_topology example_host (example_context "")
           (example_inputs "") (example_valid "")).
Defined.

(** C8.  On every valid input both crop-box nodes get [negative = True], and
    the run never assigns anything else to the key "negative" of a
    dictionary. *)
Theorem crop_boxes_are_exclusion_regions (host : Host) (context : LaunchContext)
    (i : Inputs) :
  Valid host context i ->
  exists (driver self mirror corrector outlier : ComposableNode) (s' : state),
    emits host context [driver; self; mirror; corrector; outlier] s' /\
    node_name self = "crop_box_filter_self" /\
    node_name mirror = "crop_box_filter_mirror" /\
    node_parameter self "negative" = Some (VBool true) /\
    node_parameter mirror "negative" = Some (VBool true) /\
    forall (r : ref) (v : value),
      In (EvSetItem r "negative" v) (trace s') -> v = VBool true.
Proof.
  intros V.
  destruct (launch_setup_runs host context i V initial_state) as (before & R & Q).
  exists (driver_node host i), (self_crop_node i), (mirror_crop_node i),
    distortion_corrector_node, outlier_filter_node.
  eexists. split.
  { exists (node_container host i), (component_loader host i),
      (driver_component_loader host i).
    split; [exact R | split; reflexivity]. }
  repeat split; try reflexivity.
  intros r v H. cbn [trace initial_state app] in H.
  apply in_app_or in H. destruct H as [H|H].
  - rewrite forallb_forall in Q. apply Q in H. discriminate H.
  - unfold nodes_trace in H. cbn [In] in H.
    repeat destruct H as [H|H]; try contradiction; inversion H; reflexivity.
Qed.

Lemma crop_boxes_are_exclusion_regions_witness :
  exists (driver self mirror corrector outlier : ComposableNode) (s' : state),
    emits example_host (example_context "")
      [driver; self; mirror; corrector; outlier] s' /\
    node_name self = "crop_box_filter_self" /\
    node_name mirror = "crop_box_filter_mirror" /\
    node_parameter self "negative" = Some (VBool true) /\
    node_parameter mirror "negative" = Some (VBool true) /\
    forall (r : ref) (v : value),
      In (EvSetItem r "negative" v) (trace s') -> v = VBool true.
Proof.
  exact (crop_boxes_are_exclusion_regions example_host (example_context "")
           (example_inputs "") (example_valid "")).
Defined.

(** ** The hardware-interface node *)

Lemma launched_if (context : LaunchContext) (name text : string) :
  perform context name = Ok text ->
  (evaluate context (IfCondition name) = Ok true <->
   In (PyStr.lower (PyStr.strip text)) ["true"; "1"]).
Proof.
  intros Hp. unfold evaluate, obind. rewrite Hp.
  unfold evaluate_condition_expression.
  rewrite <- mem_In.
  destruct (PyStr.mem _ ["true"; "1"]).
  - tauto.
  - destruct (PyStr.mem _ ["false"; "0"]); split; intros H; discriminate H.
Qed.

Lemma perform_set_other (name text n : string) (c : LaunchContext) :
  name <> n -> perform (set_configuration name text c) n = perform c n.
Proof.
  intros N. unfold perform, set_configuration. cbn [launch_configurations].
  rewrite get_set_other; [reflexivity | exact N].
Qed.

(** The value of "launch_driver" is no part of a valid input. *)
Lemma valid_set_launch_driver (host : Host) (context : LaunchContext) (i : Inputs)
    (text : string) :
  Valid host context i ->
  Valid host (set_configuration "launch_driver" text context) i.
Proof.
  intros V. destruct V. constructor; try assumption;
    try (rewrite perform_set_other by discriminate; assumption).
  unfold evaluate. rewrite perform_set_other by discriminate. assumption.
Qed.

Lemma driverless_valid :
  Valid example_host driverless_context (example_inputs "").
Proof. constructor; reflexivity. Qed.

(** C9, as amended.  On every valid input the loader of the
    hardware-interface node is the third of the emitted actions, whatever
    "launch_driver" is: the run returns the same three actions for every
    value of that argument.  The loader carries the condition
    [IfCondition(launch_driver)], so it is executed, and the node loaded,
    exactly when the argument evaluates to true.  It targets the container
    action of this launch file when "use_pointcloud_container" evaluates to
    false, and the container named by "container_name" when it evaluates to
    true.  The node is carried by no other action, is not among the five
    pipeline nodes and has no remapping, so it consumes and produces no
    pipeline topic. *)
Theorem hardware_interface_loader (host : Host) (context : LaunchContext) (i : Inputs) :
  Valid host context i ->
  exists (c : ComposableNodeContainer) (l hw_loader : LoadComposableNodes)
         (hw : ComposableNode) (s' : state),
    runs (launch_setup host context) initial_state
      [Container c; Load l; Load hw_loader] s' /\
    load_nodes hw_loader = [hw] /\
    node_plugin hw = in_make i ++ "HwInterfaceRosWrapper" /\
    includes_hardware_interface [Container c; Load l; Load hw_loader] /\
    (forall text : string,
        exists s'' : state,
          runs (launch_setup host (set_configuration "launch_driver" text context))
            initial_state [Container c; Load l; Load hw_loader] s'') /\
    load_condition hw_loader = IfCondition "launch_driver" /\
    ~ In hw (container_nodes c) /\
    ~ In hw (load_nodes l) /\
    (launched context (Load hw_loader) <-> flag context "launch_driver" = Ok true) /\
    (forall text : string,
        perform context "launch_driver" = Ok text ->
        (launched context (Load hw_loader) <->
         In (PyStr.lower (PyStr.strip text)) ["true"; "1"])) /\
    (exists shared : bool, flag context "use_pointcloud_container" = Ok shared) /\
    (flag context "use_pointcloud_container" = Ok false ->
     load_target hw_loader = TargetContainer c) /\
    (flag context "use_pointcloud_container" = Ok true ->
     load_target hw_loader = TargetName (VSubst "container_name")) /\
    node_remappings hw = None /\
    input_topic hw = None /\
    output_topics hw = [].
Proof.
  intros V.
  destruct (launch_setup_runs host context i V initial_state) as (before & R & _).
  pose proof (unless_is_not_if _ _ _ (valid_dedicated _ _ _ V)) as F.
  exists (node_container host i), (component_loader host i),
    (driver_component_loader host i), (hw_interface_node i).
  eexists. split; [exact R|].
  assert (Hout : ~ In (hw_interface_node i) (pipeline host i)).
  { unfold pipeline. cbn [In]. intros H.
    repeat destruct H as [H|H]; try contradiction;
      apply (f_equal node_remappings) in H; discriminate H. }
  split; [reflexivity|]. split; [reflexivity|].
  split.
  { exists (Load (driver_component_loader host i)), (hw_interface_node i).
    split; [right; right; left; reflexivity|].
    split; [left; reflexivity|].
    exists (in_make i). reflexivity. }
  split.
  { intros text.
    destruct (launch_setup_runs host _ i (valid_set_launch_driver host context i text V)
                initial_state) as (before' & R' & _).
    eexists. exact R'. }
  split; [reflexivity|].
  split; [exact Hout|]. split; [exact Hout|].
  split; [reflexivity|].
  split; [intros text Hp; exact (launched_if context "launch_driver" text Hp)|].
  split; [exists (negb (in_dedicated i)); exact F|].
  split; [|split].
  - intros H. unfold flag in H. rewrite F in H.
    cbn [load_target driver_component_loader].
    destruct (in_dedicated i); [reflexivity | discriminate H].
  - intros H. unfold flag in H. rewrite F in H.
    cbn [load_target driver_component_loader].
    destruct (in_dedicated i); [discriminate H | reflexivity].
  - repeat split.
Qed.

(** The example sets "launch_driver" to "True" and
    "use_pointcloud_container" to "false". *)
Lemma hardware_interface_loader_witness :
  exists (c : ComposableNodeContainer) (l hw_loader : LoadComposableNodes)
         (hw : ComposableNode) (s' : state),
    runs (launch_setup example_host (example_context "")) initial_state
      [Container c; Load l; Load hw_loader] s' /\
    load_nodes hw_loader = [hw] /\
    node_plugin hw = "HesaiHwInterfaceRosWrapper" /\
    includes_hardware_interface [Container c; Load l; Load hw_loader] /\
    (forall text : string,
        exists s'' : state,
          runs (launch_setup example_host
                  (set_configuration "launch_driver" text (example_context "")))
            initial_state [Container c; Load l; Load hw_loader] s'') /\
    load_condition hw_loader = IfCondition "launch_driver" /\
    ~ In hw (container_nodes c) /\
    ~ In hw (load_nodes l) /\
    (launched (example_context "") (Load hw_loader) <->
     flag (example_context "") "launch_driver" = Ok true) /\
    (forall text : string,
        perform (example_context "") "launch_driver" = Ok text ->
        (launched (example_context "") (Load hw_loader) <->
         In (PyStr.lower (PyStr.strip text)) ["true"; "1"])) /\
    (exists shared : bool,
        flag (example_context "") "use_pointcloud_container" = Ok shared) /\
    (flag (example_context "") "use_pointcloud_container" = Ok false ->
     load_target hw_loader = TargetContainer c) /\
    (flag (example_context "") "use_pointcloud_container" = Ok true ->
     load_target hw_loader = TargetName (VSubst "container_name")) /\
    node_remappings hw = None /\
    input_topic hw = None /\
    output_topics hw = [].
Proof.
  exact (hardware_interface_loader example_host (example_context "")
           (example_inputs "") (example_valid "")).
Defined.

(** C9, as the specification words it, fails.  With "launch_driver" set to
    "false" the run on the example installation still returns the three
    actions, the third of which holds the hardware-interface node: the node
    is included although the flag is false, so inclusion is not equivalent to
    the flag. *)
Lemma hardware_interface_included_without_driver :
  (exists (acts : list action) (s' : state),
      runs (launch_setup example_host driverless_context) initial_state acts s' /\
      includes_hardware_interface acts /\
      flag driverless_context "launch_driver" = Ok false) /\
  ~ included_iff_launch_driver example_host driverless_context.
Proof.
  destruct (launch_setup_runs example_host driverless_context (example_inputs "")
              driverless_valid initial_state) as (before & R & _).
  assert (Hin : includes_hardware_interface
                  (actions example_host (example_inputs ""))).
  { exists (Load (driver_component_loader example_host (example_inputs ""))),
      (hw_interface_node (example_inputs "")).
    split; [right; right; left; reflexivity|].
    split; [left; reflexivity|].
    exists "Hesai". reflexivity. }
  split.
  - eexists. eexists. split; [exact R|]. split; [exact Hin | reflexivity].
  - intros H. destruct (H _ _ R) as [H1 _]. specialize (H1 Hin).
    vm_compute in H1. discriminate H1.
Qed.

(** ** The correction file *)

Lemma skipn_past {A : Type} (l1 l2 : list A) : skipn (length l1) (l1 ++ l2) = l2.
Proof. induction l1 as [|x l1 IH]; [reflexivity | exact IH]. Qed.

(** C10.  When the user names a correction file that does not exist, every
    input that is otherwise valid is still run to the end.  The path is
    replaced by the empty string by the same existence check that applies to
    the default path; the "# Config" part yields the empty correction path
    and says nothing about it, its only possible warning being the one for an
    empty config file; and the driver node gets [correction_file = ""]. *)
Theorem missing_user_correction_file_is_dropped (host : Host) (context : LaunchContext)
    (i : Inputs) :
  Valid host context i ->
  in_correction_file i <> "" ->
  path_exists host (in_correction_file i) = false ->
  (forall s : state,
      exists s1 : state,
        runs (launch_setup_config host (in_model i) (in_make i) (in_extension i)
                (in_decoders_share i) (in_ros_share i)
                (in_config_file i) (in_correction_file i)) s
          (params_path host i, calib_path i, "") s1 /\
        forall msg : string,
          In (EvWarn msg) (skipn (length (trace s)) (trace s1)) ->
          msg = "No config file provided, using sensor model default") /\
  exists (driver : ComposableNode) (rest : list ComposableNode) (s' : state),
    emits host context (driver :: rest) s' /\
    node_plugin driver = in_make i ++ "DriverRosWrapper" /\
    node_parameter driver "correction_file" = Some (VStr "").
Proof.
  intros V Hne Hmissing.
  assert (Hc : correction_path host i = "").
  { unfold correction_path, final_correction_path, substituted_correction_path.
    destruct (String.eqb_spec (in_correction_file i) "") as [E|_];
      [contradiction|].
    cbv zeta. rewrite Hmissing. reflexivity. }
  split.
  - intros s.
    destruct (launch_setup_config_runs host (in_model i) (in_make i) (in_extension i)
                (in_decoders_share i) (in_ros_share i) (in_config_file i)
                (in_correction_file i) s
                (valid_params_exists _ _ _ V) (valid_calib_exists _ _ _ V))
      as (s1 & R & _ & Ht).
    exists s1. fold (correction_path host i) in R. rewrite Hc in R.
    split; [exact R|].
    intros msg Hin. rewrite Ht, skipn_past in Hin.
    unfold config_events in Hin.
    destruct (String.eqb_spec (in_correction_file i) "") as [E|_];
      [contradiction|].
    destruct (String.eqb (in_config_file i) ""),
      (path_exists host (final_params_path _ _ _ _ _));
      cbn [app In] in Hin;
      repeat destruct Hin as [Hin|Hin]; try contradiction; try discriminate Hin;
      inversion Hin; reflexivity.
  - destruct (launch_setup_runs host context i V initial_state) as (before & R & _).
    exists (driver_node host i),
      [self_crop_node i; mirror_crop_node i;
       distortion_corrector_node; outlier_filter_node].
    eexists. split.
    { exists (node_container host i), (component_loader host i),
        (driver_component_loader host i).
      split; [exact R | split; reflexivity]. }
    split; [reflexivity|].
    unfold node_parameter, driver_node. cbn [node_parameters fold_left].
    rewrite Hc. reflexivity.
Qed.

(** The example launched with a correction file that is not there. *)
Lemma missing_user_correction_file_is_dropped_witness :
  (forall s : state,
      exists s1 : state,
        runs (launch_setup_config example_host "Pandar40P" "Hesai" ".csv"
                "/opt/share/nebula_decoders" "/opt/share/nebula_ros"
                "" "/data/missing.dat") s
          ("/opt/share/nebula_ros/config/BaseParams.yaml",
           "/opt/share/nebula_decoders/calibration/hesai/Pandar40P.csv", "") s1 /\
        forall msg : string,
          In (EvWarn msg) (skipn (length (trace s)) (trace s1)) ->
          msg = "No config file provided, using sensor model default") /\
  exists (driver : ComposableNode) (rest : list ComposableNode) (s' : state),
    emits example_host (example_context "/data/missing.dat") (driver :: rest) s' /\
    node_plugin driver = "HesaiDriverRosWrapper" /\
    node_parameter driver "correction_file" = Some (VStr "").
Proof.
  apply (missing_user_correction_file_is_dropped example_host
           (example_context "/data/missing.dat")
           (example_inputs "/data/missing.dat")
           (example_valid "/data/missing.dat")).
  - discriminate.
  - reflexivity.
Defined.

(** ** The mandatory files *)

Lemma launch_setup_config_fails_inv (host : Host)
    (model make extension decoders_share ros_share user_params user_correction : string)
    (s s' : state) (e : exn) :
  fails (launch_setup_config host model make extension decoders_share ros_share
           user_params user_correction) s e s' ->
  (path_exists host (final_params_path host ros_share make model user_params) = false \/
   path_exists host (calibration_path decoders_share make model extension) = false) /\
  exists msg : string, e = AssertionError msg.
Proof.
  intros H.
  pose proof (launch_setup_config_outcome host model make extension decoders_share
                ros_share user_params user_correction s) as O.
  unfold fails in H. rewrite H in O. cbn [fst] in O. cbv zeta in O.
  destruct (path_exists host (final_params_path _ _ _ _ _)).
  - destruct (path_exists host (calibration_path _ _ _ _)); [discriminate O|].
    inversion O. split; [right; reflexivity | eexists; reflexivity].
  - inversion O. split; [left; reflexivity | eexists; reflexivity].
Qed.

Lemma launch_setup_config_fails (host : Host)
    (model make extension decoders_share ros_share user_params user_correction : string)
    (s : state) :
  path_exists host (final_params_path host ros_share make model user_params) = false \/
  path_exists host (calibration_path decoders_share make model extension) = false ->
  exists (e : exn) (s' : state),
    fails (launch_setup_config host model make extension decoders_share ros_share
             user_params user_correction) s e s'.
Proof.
  intros H.
  pose proof (launch_setup_config_outcome host model make extension decoders_share
                ros_share user_params user_correction s) as O.
  cbv zeta in O. unfold fails.
  destruct (launch_setup_config _ _ _ _ _ _ _ _ s) as [r s'].
  cbn [fst] in O. subst r.
  destruct (path_exists host (final_params_path _ _ _ _ _)).
  - destruct (path_exists host (calibration_path _ _ _ _)).
    + destruct H as [H|H]; discriminate H.
    + eexists. eexists. reflexivity.
  - eexists. eexists. reflexivity.
Qed.

(** C5.  For a recognised model the "# Config" part resolves the params path
    in two steps, the model-specific default in place of an empty user path,
    then the base params file in place of a path that does not exist; the
    calibration path is fixed by the model.  It raises, and then an
    [AssertionError], exactly when the final params path or the calibration
    path does not exist; otherwise it yields these two paths.  Under a share
    directory in plain form the default is
    <share>/config/<make, lowercased>/<model>.yaml and the base file is
    <share>/config/BaseParams.yaml. *)
Theorem params_fallback_and_mandatory_files (host : Host)
    (model make extension decoders_share ros_share user_params user_correction : string)
    (s : state) :
  get_lidar_make model = MakePair make extension ->
  let substituted :=
    if String.eqb user_params "" then default_params_path ros_share make model
    else user_params in
  let final :=
    if path_exists host substituted then substituted
    else base_params_path ros_share in
  let calib := calibration_path decoders_share make model extension in
  let config :=
    launch_setup_config host model make extension decoders_share ros_share
      user_params user_correction in
  (forall (p c k : string) (s' : state), runs config s (p, c, k) s' -> p = final /\ c = calib) /\
  ((exists (e : exn) (s' : state), fails config s e s') <->
   path_exists host final = false \/ path_exists host calib = false) /\
  ((exists (paths : string * string * string) (s' : state), runs config s paths s') <->
   path_exists host final = true /\ path_exists host calib = true) /\
  (forall (e : exn) (s' : state),
      fails config s e s' -> exists msg : string, e = AssertionError msg) /\
  (ros_share <> "" ->
   PyStr.ends_with_char "/" ros_share = false ->
   default_params_path ros_share make model =
   ros_share ++ "/config/" ++ PyStr.lower make ++ "/" ++ model ++ ".yaml" /\
   base_params_path ros_share = ros_share ++ "/config/BaseParams.yaml").
Proof.
  intros Hmake substituted final calib config.
  change final with (final_params_path host ros_share make model user_params).
  split; [|split; [|split; [|split]]].
  - intros p c k s' R. apply runs_config_inv in R.
    destruct R as (E & _ & _). inversion E. auto.
  - split.
    + intros (e & s' & F). apply launch_setup_config_fails_inv in F. tauto.
    + apply launch_setup_config_fails.
  - split.
    + intros (paths & s' & R). apply runs_config_inv in R. tauto.
    + intros [Hp Hc].
      destruct (launch_setup_config_runs host model make extension decoders_share
                  ros_share user_params user_correction s Hp Hc)
        as (s' & R & _).
      eexists. exists s'. exact R.
  - intros e s' F. apply launch_setup_config_fails_inv in F. tauto.
  - apply (default_params_path_plain ros_share make model extension Hmake).
Qed.

(** The example installation has no params file for the Pandar40P: the
    empty user path becomes the model default, and that becomes the base
    params file. *)
Lemma params_fallback_and_mandatory_files_witness :
  let config :=
    launch_setup_config example_host "Pandar40P" "Hesai" ".csv"
      "/opt/share/nebula_decoders" "/opt/share/nebula_ros" "" "" in
  (forall (p c k : string) (s' : state),
      runs config initial_state (p, c, k) s' ->
      p = "/opt/share/nebula_ros/config/BaseParams.yaml" /\
      c = "/opt/share/nebula_decoders/calibration/hesai/Pandar40P.csv") /\
  ((exists (e : exn) (s' : state), fails config initial_state e s') <->
   path_exists example_host "/opt/share/nebula_ros/config/BaseParams.yaml" = false \/
   path_exists example_host
     "/opt/share/nebula_decoders/calibration/hesai/Pandar40P.csv" = false) /\
  ((exists (paths : string * string * string) (s' : state),
       runs config initial_state paths s') <->
   path_exists example_host "/opt/share/nebula_ros/config/BaseParams.yaml" = true /\
   path_exists example_host
     "/opt/share/nebula_decoders/calibration/hesai/Pandar40P.csv" = true) /\
  (forall (e : exn) (s' : state),
      fails config initial_state e s' -> exists msg : string, e = AssertionError msg) /\
  ("/opt/share/nebula_ros" <> "" ->
   PyStr.ends_with_char "/" "/opt/share/nebula_ros" = false ->
   default_params_path "/opt/share/nebula_ros" "Hesai" "Pandar40P" =
   "/opt/share/nebula_ros/config/hesai/Pandar40P.yaml" /\
   base_params_path "/opt/share/nebula_ros" =
   "/opt/share/nebula_ros/config/BaseParams.yaml").
Proof.
  exact (params_fallback_and_mandatory_files example_host "Pandar40P" "Hesai" ".csv"
           "/opt/share/nebula_decoders" "/opt/share/nebula_ros" "" "" initial_state
           eq_refl).
Defined.

(** C6.  For a recognised model and an empty user correction path, when the
    default correction file does not exist the "# Config" part resolves the
    correction path to the empty string, and the missing file is never the
    reason of a failure: the part finishes whenever the two mandatory files
    exist, and when it raises one of them is missing.  Under a share
    directory in plain form the default correction file is
    <share>/calibration/<make, lowercased>/<model>.dat. *)
Theorem missing_default_correction_file_is_optional (host : Host)
    (model make extension decoders_share ros_share user_params : string)
    (s : state) :
  get_lidar_make model = MakePair make extension ->
  path_exists host (default_correction_path decoders_share make model) = false ->
  let final := final_params_path host ros_share make model user_params in
  let calib := calibration_path decoders_share make model extension in
  let config :=
    launch_setup_config host model make extension decoders_share ros_share
      user_params "" in
  (forall (p c k : string) (s' : state), runs config s (p, c, k) s' -> k = "") /\
  (path_exists host final = true ->
   path_exists host calib = true ->
   exists s' : state, runs config s (final, calib, "") s') /\
  (forall (e : exn) (s' : state),
      fails config s e s' ->
      path_exists host final = false \/ path_exists host calib = false) /\
  (decoders_share <> "" ->
   PyStr.ends_with_char "/" decoders_share = false ->
   default_correction_path decoders_share make model =
   decoders_share ++ "/calibration/" ++ PyStr.lower make ++ "/" ++ model ++ ".dat").
Proof.
  intros Hmake Hmissing final calib config.
  assert (Hk : final_correction_path host decoders_share make model "" = "").
  { unfold final_correction_path, substituted_correction_path.
    cbn [String.eqb]. cbv zeta. rewrite Hmissing. reflexivity. }
  split; [|split; [|split]].
  - intros p c k s' R. apply runs_config_inv in R.
    destruct R as (E & _ & _). inversion E. exact Hk.
  - intros Hp Hc.
    destruct (launch_setup_config_runs host model make extension decoders_share
                ros_share user_params "" s Hp Hc) as (s' & R & _).
    exists s'. rewrite Hk in R. exact R.
  - intros e s' F. apply launch_setup_config_fails_inv in F. tauto.
  - intros Hne Hend.
    apply (calibration_path_plain decoders_share make model extension Hmake Hne Hend).
Qed.

(** The example installation has no correction file for the Pandar40P. *)
Lemma missing_default_correction_file_is_optional_witness :
  let config :=
    launch_setup_config example_host "Pandar40P" "Hesai" ".csv"
      "/opt/share/nebula_decoders" "/opt/share/nebula_ros" "" "" in
  (forall (p c k : string) (s' : state),
      runs config initial_state (p, c, k) s' -> k = "") /\
  (path_exists example_host "/opt/share/nebula_ros/config/BaseParams.yaml" = true ->
   path_exists example_host
     "/opt/share/nebula_decoders/calibration/hesai/Pandar40P.csv" = true ->
   exists s' : state,
     runs config initial_state
       ("/opt/share/nebula_ros/config/BaseParams.yaml",
        "/opt/share/nebula_decoders/calibration/hesai/Pandar40P.csv", "") s') /\
  (forall (e : exn) (s' : state),
      fails config initial_state e s' ->
      path_exists example_host "/opt/share/nebula_ros/config/BaseParams.yaml" = false \/
      path_exists example_host
        "/opt/share/nebula_decoders/calibration/hesai/Pandar40P.csv" = false) /\
  ("/opt/share/nebula_decoders" <> "" ->
   PyStr.ends_with_char "/" "/opt/share/nebula_decoders" = false ->
   default_correction_path "/opt/share/nebula_decoders" "Hesai" "Pandar40P" =
   "/opt/share/nebula_decoders/calibration/hesai/Pandar40P.dat").
Proof.
  exact (missing_default_correction_file_is_optional example_host "Pandar40P" "Hesai"
           ".csv" "/opt/share/nebula_decoders" "/opt/share/nebula_ros" ""
           initial_state eq_refl eq_refl).
Defined.

(** ** An unrecognised model *)

(** C3.  For a model that passes neither prefix test [launch_setup] raises a
    [ValueError] where it unpacks the result of [get_lidar_make], whatever
    the host: it returns no actions, and the state is the one it started
    from, so the run has asked the ament index for no directory, joined no
    path and checked no file. *)
Theorem unrecognized_model_aborts_at_classification (host : Host)
    (context : LaunchContext) (model : string) (s : state) :
  perform context "sensor_model" = Ok model ->
  PyStr.lower (PyStr.take 6 model) <> "pandar" ->
  ~ In (PyStr.lower (PyStr.take 3 model)) ["hdl"; "vlp"; "vls"] ->
  fails (launch_setup host context) s
    (ValueError "too many values to unpack (expected 2)") s /\
  (forall (acts : list action) (s' : state),
      ~ runs (launch_setup host context) s acts s') /\
  (forall (e : exn) (s' : state),
      fails (launch_setup host context) s e s' ->
      existsb touches_host (skipn (length (trace s)) (trace s')) = false).
Proof.
  intros Hm H6 H3.
  assert (F : fails (launch_setup host context) s
                (ValueError "too many values to unpack (expected 2)") s).
  { unfold launch_setup.
    eapply fails_bind_later; [apply runs_lift; exact Hm |].
    apply fails_bind_now. apply fails_lift.
    rewrite (get_lidar_make_other model H6 H3).
    reflexivity. }
  split; [exact F | split].
  - intros acts s' R. exact (runs_not_fails _ _ _ _ _ _ R F).
  - intros e s' F'. unfold fails in F, F'. rewrite F in F'. inversion F'. subst s'.
    rewrite skipn_all. reflexivity.
Qed.

(** The example installation asked for an Ouster sensor. *)
Lemma unrecognized_model_aborts_at_classification_witness :
  let context :=
    {| launch_configurations := [("sensor_model", "OS1-64")];
       ros_params := None;
       global_params := None |} in
  fails (launch_setup example_host context) initial_state
    (ValueError "too many values to unpack (expected 2)") initial_state /\
  (forall (acts : list action) (s' : state),
      ~ runs (launch_setup example_host context) initial_state acts s') /\
  (forall (e : exn) (s' : state),
      fails (launch_setup example_host context) initial_state e s' ->
      existsb touches_host (skipn (length (trace initial_state)) (trace s')) = false).
Proof.
  apply (unrecognized_model_aborts_at_classification example_host
           {| launch_configurations := [("sensor_model", "OS1-64")];
              ros_params := None;
              global_params := None |} "OS1-64" initial_state).
  - reflexivity.
  - discriminate.
  - simpl. intros [H|[H|[H|[]]]]; discriminate H.
Defined.

(** * Further properties of the launch file *)

(** ** Classification looks at a lowercased prefix only *)

Lemma lower_char_idempotent (c : ascii) :
  PyStr.lower_char (PyStr.lower_char c) = PyStr.lower_char c.
Proof.
  destruct c as [b0 b1 b2 b3 b4 b5 b6 b7].
  destruct b0, b1, b2, b3, b4, b5, b6, b7; reflexivity.
Qed.

Lemma lower_idempotent (s : string) : PyStr.lower (PyStr.lower s) = PyStr.lower s.
Proof.
  induction s as [|c s IH]; [reflexivity|].
  cbn [PyStr.lower]. now rewrite lower_char_idempotent, IH.
Qed.

Lemma take_app (n : nat) (s t : string) :
  n <= String.length s -> PyStr.take n (s ++ t) = PyStr.take n s.
Proof.
  revert s. induction n as [|n IH]; intros s Hle; [reflexivity|].
  destruct s as [|c s]; [cbn in Hle; lia|].
  cbn [append PyStr.take]. rewrite IH; [reflexivity | cbn in Hle; lia].
Qed.

Lemma lower_take3_of_take6 (m : string) :
  PyStr.lower (PyStr.take 3 m) = PyStr.take 3 (PyStr.lower (PyStr.take 6 m)).
Proof. rewrite take_lower, take_take by lia. reflexivity. Qed.

Lemma get_lidar_make_same_prefix (a b : string) :
  PyStr.lower (PyStr.take 6 a) = PyStr.lower (PyStr.take 6 b) ->
  get_lidar_make a = get_lidar_make b.
Proof.
  intros H. unfold get_lidar_make.
  rewrite (lower_take3_of_take6 a), (lower_take3_of_take6 b), H. reflexivity.
Qed.

(** X1.  [get_lidar_make] sees only the first six characters of the model
    name, and those without regard to case: two names whose first six
    characters agree once lowercased are classified alike; lowercasing a name
    does not change its classification; and neither does anything appended
    to a name of six characters or more. *)
Theorem classification_by_lowercased_prefix :
  (forall a b : string,
      PyStr.lower (PyStr.take 6 a) = PyStr.lower (PyStr.take 6 b) ->
      get_lidar_make a = get_lidar_make b) /\
  (forall m : string, get_lidar_make (PyStr.lower m) = get_lidar_make m) /\
  (forall m suffix : string,
      6 <= String.length m -> get_lidar_make (m ++ suffix) = get_lidar_make m).
Proof.
  split; [exact get_lidar_make_same_prefix | split].
  - intros m. apply get_lidar_make_same_prefix.
    rewrite <- take_lower, lower_idempotent, take_lower. reflexivity.
  - intros m suffix Hlen. apply get_lidar_make_same_prefix.
    rewrite take_app by exact Hlen. reflexivity.
Qed.

(** "PANDAR64" and "pandar64-rev2" share the lowercased prefix "pandar". *)
Lemma classification_by_lowercased_prefix_witness :
  get_lidar_make "PANDAR64" = get_lidar_make "pandar64-rev2" /\
  get_lidar_make ("Pandar40P" ++ "_left") = get_lidar_make "Pandar40P".
Proof.
  split.
  - apply (proj1 classification_by_lowercased_prefix). reflexivity.
  - apply (proj2 (proj2 classification_by_lowercased_prefix)). cbn. lia.
Defined.

Lemma eqb_length (s t : string) :
  String.eqb s t = true -> String.length s = String.length t.
Proof. intros H. apply String.eqb_eq in H. now subst. Qed.

Lemma lower_length (s : string) : String.length (PyStr.lower s) = String.length s.
Proof. induction s as [|c s IH]; cbn; auto. Qed.

Lemma take_length_le (n : nat) (s : string) :
  String.length (PyStr.take n s) <= String.length s.
Proof.
  revert s. induction n as [|n IH]; intros [|c s]; cbn; try lia.
  specialize (IH s). lia.
Qed.

(** X2.  A model name of fewer than three characters, the empty name among
    them, is never recognised. *)
Theorem short_model_is_unrecognized (m : string) :
  String.length m < 3 ->
  get_lidar_make m = MakeStr "unrecognized_sensor_model".
Proof.
  intros Hlen.
  assert (L6 : String.length (PyStr.lower (PyStr.take 6 m)) < 3).
  { rewrite lower_length. pose proof (take_length_le 6 m). lia. }
  assert (L3 : String.length (PyStr.lower (PyStr.take 3 m)) < 3).
  { rewrite lower_length. pose proof (take_length_le 3 m). lia. }
  apply get_lidar_make_other.
  - intros E. rewrite E in L6. cbn in L6. lia.
  - intros [E|[E|[E|[]]]]; rewrite <- E in L3; cbn in L3; lia.
Qed.

Lemma short_model_is_unrecognized_witness :
  get_lidar_make "" = MakeStr "unrecognized_sensor_model" /\
  get_lidar_make "vl" = MakeStr "unrecognized_sensor_model".
Proof.
  split; apply short_model_is_unrecognized; cbn; lia.
Defined.

(** ** Vehicle dimensions: what is read, and what happens when one is missing *)

(** X3.  [get_vehicle_info] returns exactly when the dictionary it selects
    has all seven dimensions, and then with the eight keys of the geometry in
    a fixed order; otherwise it raises [KeyError] for the first dimension
    that is missing, in the order front overhang, wheel base, rear overhang,
    wheel tread, left overhang, right overhang, vehicle height.  Other
    entries of the dictionary are ignored. *)
Theorem get_vehicle_info_missing_dimension (context : LaunchContext) (gp : dict float) :
  selects_dimensions context gp ->
  (forall k : string,
      first_missing dimension_keys gp = Some k ->
      get_vehicle_info context = Raise (KeyError k)) /\
  (first_missing dimension_keys gp = None ->
   exists p : dict float,
     get_vehicle_info context = Ok p /\
     map fst p =
       ["vehicle_length"; "vehicle_width";
        "min_longitudinal_offset"; "max_longitudinal_offset";
        "min_lateral_offset"; "max_lateral_offset";
        "min_height_offset"; "max_height_offset"]) /\
  (forall p : dict float,
      get_vehicle_info context = Ok p -> first_missing dimension_keys gp = None).
Proof.
  intros Hsel. pose proof (get_vehicle_info_cases context gp Hsel) as H.
  destruct (first_missing dimension_keys gp) as [k|].
  - split; [|split].
    + intros k' E. inversion E. subst k'. exact H.
    + discriminate.
    + intros p E. rewrite H in E. discriminate E.
  - split; [|split].
    + discriminate.
    + intros _. destruct H as (fo & wb & ro & wt & lo & rro & vh & H).
      decompose [and] H. eexists. split; [eassumption | reflexivity].
    + reflexivity.
Qed.

(** Dimensions without a wheel base: the error names "wheel_base", although
    "vehicle_height" is missing too. *)
Lemma get_vehicle_info_missing_dimension_witness :
  get_vehicle_info
    {| launch_configurations := [];
       ros_params := Some incomplete_dimensions;
       global_params := None |} = Raise (KeyError "wheel_base").
Proof.
  assert (Hsel : selects_dimensions
                   {| launch_configurations := [];
                      ros_params := Some incomplete_dimensions;
                      global_params := None |} incomplete_dimensions).
  { left. split; [reflexivity | discriminate]. }
  apply (proj1 (get_vehicle_info_missing_dimension _ _ Hsel)).
  reflexivity.
Defined.

(** X4.  A "ros_params" dictionary that is not empty hides "global_params"
    altogether: the two are never merged, so a dimension that only
    "global_params" has is still reported missing.  Without either
    dictionary, or with both empty, the first read fails. *)
Theorem ros_params_hide_global_params :
  (forall (context : LaunchContext) (gp : dict float) (other : option (dict float)),
      ros_params context = Some gp ->
      gp <> [] ->
      get_vehicle_info context =
      get_vehicle_info {| launch_configurations := launch_configurations context;
                          ros_params := Some gp;
                          global_params := other |}) /\
  (forall context : LaunchContext,
      ros_params context = None \/ ros_params context = Some [] ->
      global_params context = None \/ global_params context = Some [] ->
      get_vehicle_info context = Raise (KeyError "front_overhang")).
Proof.
  split.
  - intros context gp other Hr Hne. unfold get_vehicle_info.
    cbn [ros_params global_params]. rewrite Hr.
    destruct gp; [contradiction | reflexivity].
  - intros context [Hr|Hr] [Hg|Hg]; unfold get_vehicle_info;
      rewrite Hr, Hg; reflexivity.
Qed.

(** "ros_params" has only the wheel base; the complete "global_params" does
    not help. *)
Lemma ros_params_hide_global_params_witness :
  get_vehicle_info {| launch_configurations := [];
                      ros_params := Some [("wheel_base", 2.5%float)];
                      global_params := Some example_dimensions |} =
  Raise (KeyError "front_overhang").
Proof.
  rewrite (proj1 ros_params_hide_global_params
             {| launch_configurations := [];
                ros_params := Some [("wheel_base", 2.5%float)];
                global_params := Some example_dimensions |}
             [("wheel_base", 2.5%float)] None eq_refl ltac:(discriminate)).
  reflexivity.
Defined.

(** X5.  For a vehicle whose left and right overhang are equal, the two
    lateral offsets are exact opposites, and the minimum height is zero
    whatever the dimensions. *)
Theorem lateral_offsets_symmetric (context : LaunchContext) (gp p : dict float)
    (overhang : float) :
  selects_dimensions context gp ->
  PyDict.get "left_overhang" gp = Some overhang ->
  PyDict.get "right_overhang" gp = Some overhang ->
  get_vehicle_info context = Ok p ->
  exists y : float,
    PyDict.get "max_lateral_offset" p = Some y /\
    PyDict.get "min_lateral_offset" p = Some (- y)%float /\
    PyDict.get "min_height_offset" p = Some 0%float.
Proof.
  intros Hsel Hl Hr Hok.
  pose proof (get_vehicle_info_cases context gp Hsel) as H.
  destruct (first_missing dimension_keys gp) as [k|].
  - rewrite H in Hok. discriminate Hok.
  - destruct H as (fo & wb & ro & wt & lo & rro & vh & H).
    decompose [and] H.
    assert (lo = overhang) by congruence. assert (rro = overhang) by congruence.
    subst lo rro.
    match goal with E : get_vehicle_info context = Ok _ |- _ =>
      rewrite E in Hok; inversion Hok end.
    eexists. repeat split.
Qed.

Lemma lateral_offsets_symmetric_witness :
  exists y : float,
    PyDict.get "max_lateral_offset" (in_vehicle_info (example_inputs "")) = Some y /\
    PyDict.get "min_lateral_offset" (in_vehicle_info (example_inputs "")) =
      Some (- y)%float /\
    PyDict.get "min_height_offset" (in_vehicle_info (example_inputs "")) = Some 0%float.
Proof.
  apply (lateral_offsets_symmetric example_vehicle_context example_dimensions
           (in_vehicle_info (example_inputs "")) 0.2%float).
  - right. split; [left|]; reflexivity.
  - reflexivity.
  - reflexivity.
  - reflexivity.
Defined.

(** ** create_parameter_dict *)

Lemma create_parameter_dict_from (args : list string) (acc : dict value) (x : string) :
  PyDict.get x (fold_left (fun result y => PyDict.set y (VSubst y) result) args acc) =
  if PyStr.mem x args then Some (VSubst x) else PyDict.get x acc.
Proof.
  revert acc. induction args as [|a args IH]; intros acc; [reflexivity|].
  cbn [fold_left PyStr.mem]. rewrite IH.
  destruct (String.eqb_spec x a) as [->|N]; cbn [orb].
  - rewrite get_set_same. destruct (PyStr.mem a args); reflexivity.
  - rewrite get_set_other by congruence. reflexivity.
Qed.

Lemma set_keys_nodup {V : Type} (k : string) (v : V) (d : dict V) :
  NoDup (map fst d) -> NoDup (map fst (PyDict.set k v d)).
Proof.
  intros H. induction d as [|[k' v'] d IH]; cbn [PyDict.set].
  - constructor; [intros [] | constructor].
  - destruct (String.eqb k' k) eqn:E; [exact H|].
    cbn [map fst] in *. inversion H as [|? ? Hnin Hd]. subst.
    constructor; [|exact (IH Hd)].
    clear IH H Hd. induction d as [|[k0 v0] d IHd]; cbn [PyDict.set map fst In] in *.
    + intros [->|[]]. rewrite String.eqb_refl in E. discriminate E.
    + destruct (String.eqb k0 k); cbn [map fst In]; intros [->|Hin]; tauto.
Qed.

(** X6.  [create_parameter_dict] maps each name it is given to the launch
    configuration of that same name and holds nothing else; a name given
    twice gives one entry. *)
Theorem create_parameter_dict_lookup (args : list string) :
  (forall x : string,
      PyDict.get x (create_parameter_dict args) =
      if PyStr.mem x args then Some (VSubst x) else None) /\
  NoDup (map fst (create_parameter_dict args)).
Proof.
  split.
  - intros x. unfold create_parameter_dict. apply create_parameter_dict_from.
  - unfold create_parameter_dict.
    assert (G : forall acc : dict value,
               NoDup (map fst acc) ->
               NoDup (map fst (fold_left (fun result y => PyDict.set y (VSubst y) result)
                                 args acc))).
    { induction args as [|a args IH]; intros acc Hacc; [exact Hacc|].
      cbn [fold_left]. apply IH. apply set_keys_nodup. exact Hacc. }
    apply G. constructor.
Qed.

(** ** File resolution: effects and messages *)

(** X7.  The file resolution changes no dictionary and touches the outside
    world only through warnings and existence checks: one warning per empty
    user path, then the checks of the correction path, of the params path
    and of the final params path; the calibration path is checked only once
    the final params path was found.  It opens no file and asks the ament
    index nothing. *)
Theorem file_resolution_effects (host : Host)
    (model make extension decoders_share ros_share user_params user_correction : string)
    (s : state) :
  let s' :=
    snd (launch_setup_config host model make extension decoders_share ros_share
           user_params user_correction s) in
  let evs :=
    config_events host model make extension decoders_share ros_share
      user_params user_correction in
  heap s' = heap s /\
  trace s' = (trace s ++ evs)%list /\
  (forall e : event,
      In e evs -> (exists msg, e = EvWarn msg) \/ (exists path, e = EvExists path)) /\
  length (filter (fun e => match e with EvWarn _ => true | _ => false end) evs) =
    (if String.eqb user_params "" then 1 else 0) +
    (if String.eqb user_correction "" then 1 else 0) /\
  length (filter (fun e => match e with EvExists _ => true | _ => false end) evs) =
    (if path_exists host (final_params_path host ros_share make model user_params)
     then 4 else 3).
Proof.
  cbv zeta.
  split; [apply launch_setup_config_heap | split; [apply launch_setup_config_trace |]].
  unfold config_events.
  destruct (String.eqb user_params ""), (String.eqb user_correction ""),
    (path_exists host (final_params_path host ros_share make model user_params));
    cbn [app filter length Nat.add In];
    (split; [|split; reflexivity]);
    intros e H; repeat destruct H as [H|H]; try contradiction; subst e; eauto.
Qed.

Lemma launch_setup_config_raises (host : Host)
    (model make extension decoders_share ros_share user_params user_correction : string)
    (s : state) (e : exn) :
  fst (launch_setup_config host model make extension decoders_share ros_share
         user_params user_correction s) = Raise e ->
  fails (launch_setup_config host model make extension decoders_share ros_share
           user_params user_correction) s e
    (snd (launch_setup_config host model make extension decoders_share ros_share
            user_params user_correction s)).
Proof.
  unfold fails. destruct (launch_setup_config _ _ _ _ _ _ _ _ s) as [r s'].
  cbn [fst snd]. intros ->. reflexivity.
Qed.

(** X8.  Of the two assertions the one on the params file comes first: when
    the final params path does not exist the error message names that path,
    whether or not the calibration file exists; the message names the
    calibration path only when the params file was found. *)
Theorem params_assertion_comes_first (host : Host)
    (model make extension decoders_share ros_share user_params user_correction : string)
    (s : state) :
  let final := final_params_path host ros_share make model user_params in
  let calib := calibration_path decoders_share make model extension in
  let config :=
    launch_setup_config host model make extension decoders_share ros_share
      user_params user_correction in
  (path_exists host final = false ->
   exists s' : state,
     fails config s
       (AssertionError ("Sensor params yaml file under config/ was not found: " ++ final))
       s') /\
  (path_exists host final = true ->
   path_exists host calib = false ->
   exists s' : state,
     fails config s
       (AssertionError ("Sensor calib file under calibration/ was not found: " ++ calib))
       s').
Proof.
  cbv zeta.
  pose proof (launch_setup_config_outcome host model make extension decoders_share
                ros_share user_params user_correction s) as O.
  cbv zeta in O. split.
  - intros Hp. rewrite Hp in O. eexists. apply launch_setup_config_raises. exact O.
  - intros Hp Hc. rewrite Hp, Hc in O. eexists.
    apply launch_setup_config_raises. exact O.
Qed.

(** An installation with neither the base params file nor any calibration
    table: the message is about the params file. *)
Lemma params_assertion_comes_first_witness :
  exists s' : state,
    fails (launch_setup_config (host_of [] []) "Pandar40P" "Hesai" ".csv"
             "/opt/share/nebula_decoders" "/opt/share/nebula_ros" "" "")
      initial_state
      (AssertionError
         ("Sensor params yaml file under config/ was not found: "
          ++ "/opt/share/nebula_ros/config/BaseParams.yaml"))
      s'.
Proof.
  apply (proj1 (params_assertion_comes_first (host_of [] []) "Pandar40P" "Hesai" ".csv"
                  "/opt/share/nebula_decoders" "/opt/share/nebula_ros" "" ""
                  initial_state)).
  reflexivity.
Defined.

(** X9.  A config file the user names but that does not exist is replaced by
    the base params file without a word: the final params path is the base
    file, no warning mentions the config file, and with the base file and the
    calibration file in place the file resolution finishes. *)
Theorem missing_user_config_file_falls_back (host : Host)
    (model make extension decoders_share ros_share user_params user_correction : string)
    (s : state) :
  user_params <> "" ->
  path_exists host user_params = false ->
  let base := base_params_path ros_share in
  let calib := calibration_path decoders_share make model extension in
  let config :=
    launch_setup_config host model make extension decoders_share ros_share
      user_params user_correction in
  final_params_path host ros_share make model user_params = base /\
  (forall msg : string,
      In (EvWarn msg) (skipn (length (trace s)) (trace (snd (config s)))) ->
      msg = "No correction file provided, using sensor model default") /\
  (path_exists host base = true ->
   path_exists host calib = true ->
   exists (correction : string) (s' : state),
     runs config s (base, calib, correction) s').
Proof.
  intros Hne Hmissing. cbv zeta.
  assert (Hf : final_params_path host ros_share make model user_params =
               base_params_path ros_share).
  { unfold final_params_path, substituted_params_path.
    destruct (String.eqb_spec user_params "") as [E|_]; [contradiction|].
    cbv zeta. rewrite Hmissing. reflexivity. }
  split; [exact Hf | split].
  - intros msg Hin.
    rewrite launch_setup_config_trace, skipn_past in Hin.
    unfold config_events in Hin.
    destruct (String.eqb_spec user_params "") as [E|_]; [contradiction|].
    destruct (String.eqb user_correction ""),
      (path_exists host (final_params_path _ _ _ _ _));
      cbn [app In] in Hin;
      repeat destruct Hin as [Hin|Hin]; try contradiction; try discriminate Hin;
      inversion Hin; reflexivity.
  - intros Hb Hc.
    destruct (launch_setup_config_runs host model make extension decoders_share
                ros_share user_params user_correction s) as (s' & R & _).
    + rewrite Hf. exact Hb.
    + exact Hc.
    + rewrite Hf in R. eexists. exists s'. exact R.
Qed.

(** The example installation asked for a config file that is not there. *)
Lemma missing_user_config_file_falls_back_witness :
  let config :=
    launch_setup_config example_host "Pandar40P" "Hesai" ".csv"
      "/opt/share/nebula_decoders" "/opt/share/nebula_ros" "/data/my.yaml" "" in
  final_params_path example_host "/opt/share/nebula_ros" "Hesai" "Pandar40P"
    "/data/my.yaml" = "/opt/share/nebula_ros/config/BaseParams.yaml" /\
  (forall msg : string,
      In (EvWarn msg)
        (skipn (length (trace initial_state)) (trace (snd (config initial_state)))) ->
      msg = "No correction file provided, using sensor model default") /\
  (path_exists example_host "/opt/share/nebula_ros/config/BaseParams.yaml" = true ->
   path_exists example_host
     "/opt/share/nebula_decoders/calibration/hesai/Pandar40P.csv" = true ->
   exists (correction : string) (s' : state),
     runs config initial_state
       ("/opt/share/nebula_ros/config/BaseParams.yaml",
        "/opt/share/nebula_decoders/calibration/hesai/Pandar40P.csv", correction) s').
Proof.
  apply (missing_user_config_file_falls_back example_host "Pandar40P" "Hesai" ".csv"
           "/opt/share/nebula_decoders" "/opt/share/nebula_ros" "/data/my.yaml" ""
           initial_state).
  - discriminate.
  - reflexivity.
Defined.

(** ** Where a run stops *)

Lemma fails_share (host : Host) (pkg : string) (s : state) :
  package_share_directory host pkg = None ->
  fails (get_package_share_directory host pkg) s (PackageNotFoundError pkg)
    (log (EvShareDirectory pkg) s).
Proof. unfold fails, get_package_share_directory. intros ->. reflexivity. Qed.

(** X10.  For a recognised model the two share directories are looked up
    before anything else is read: when "nebula_decoders" is not installed the
    run raises [PackageNotFoundError] for it without asking for "nebula_ros",
    and when only "nebula_ros" is missing it raises for that one; in both
    cases no path has been checked and no file opened. *)
Theorem package_not_found_is_fatal (host : Host) (context : LaunchContext)
    (model make extension : string) (s : state) :
  perform context "sensor_model" = Ok model ->
  get_lidar_make model = MakePair make extension ->
  (package_share_directory host "nebula_decoders" = None ->
   fails (launch_setup host context) s (PackageNotFoundError "nebula_decoders")
     {| heap := heap s;
        trace := (trace s ++ [EvShareDirectory "nebula_decoders"])%list |}) /\
  (forall dir : string,
      package_share_directory host "nebula_decoders" = Some dir ->
      package_share_directory host "nebula_ros" = None ->
      fails (launch_setup host context) s (PackageNotFoundError "nebula_ros")
        {| heap := heap s;
           trace := (trace s ++ [EvShareDirectory "nebula_decoders";
                                 EvShareDirectory "nebula_ros"])%list |}).
Proof.
  intros Hm Hk. split.
  - intros Hd. unfold launch_setup.
    eapply fails_bind_later; [apply runs_lift; exact Hm |].
    eapply fails_bind_later; [apply runs_lift; rewrite Hk; reflexivity |].
    cbv beta iota. apply fails_bind_now. apply fails_share. exact Hd.
  - intros dir Hd Hr. unfold launch_setup.
    eapply fails_bind_later; [apply runs_lift; exact Hm |].
    eapply fails_bind_later; [apply runs_lift; rewrite Hk; reflexivity |].
    cbv beta iota.
    eapply fails_bind_later; [apply runs_share; exact Hd |].
    apply fails_bind_now.
    replace {| heap := heap s;
               trace := (trace s ++ [EvShareDirectory "nebula_decoders";
                                     EvShareDirectory "nebula_ros"])%list |}
      with (log (EvShareDirectory "nebula_ros")
              (log (EvShareDirectory "nebula_decoders") s))
      by (unfold log; cbn [heap trace]; rewrite <- app_assoc; reflexivity).
    apply fails_share. exact Hr.
Qed.

(** A machine with no ROS package at all. *)
Lemma package_not_found_is_fatal_witness :
  fails (launch_setup (host_of [] []) (example_context "")) initial_state
    (PackageNotFoundError "nebula_decoders")
    {| heap := []; trace := [EvShareDirectory "nebula_decoders"] |}.
Proof.
  apply (proj1 (package_not_found_is_fatal (host_of [] []) (example_context "")
                  "Pandar40P" "Hesai" ".csv" initial_state eq_refl eq_refl)).
  reflexivity.
Defined.

(** ** The returned actions *)

Lemma if_is_not_unless (context : LaunchContext) (name : string) (b : bool) :
  evaluate context (IfCondition name) = Ok b ->
  evaluate context (UnlessCondition name) = Ok (negb b).
Proof.
  unfold evaluate, obind.
  destruct (perform context name) as [text|e]; [|discriminate].
  destruct (evaluate_condition_expression text) as [v|e]; [|discriminate].
  intros H. inversion H. reflexivity.
Qed.

(** X11.  Of the container and the loader of the pipeline exactly one is
    executed, the container when "use_pointcloud_container" is false and the
    loader when it is true; both hold the same node list, and the loader of
    the hardware-interface node always targets the one that is executed. *)
Theorem one_home_for_the_pipeline (host : Host) (context : LaunchContext) (i : Inputs) :
  Valid host context i ->
  exists (c : ComposableNodeContainer) (l hw_loader : LoadComposableNodes) (s' : state),
    runs (launch_setup host context) initial_state
      [Container c; Load l; Load hw_loader] s' /\
    container_nodes c = load_nodes l /\
    forall shared : bool,
      flag context "use_pointcloud_container" = Ok shared ->
      (launched context (Container c) <-> shared = false) /\
      (launched context (Load l) <-> shared = true) /\
      (launched context (Container c) -> load_target hw_loader = TargetContainer c) /\
      (launched context (Load l) -> load_target hw_loader = load_target l).
Proof.
  intros V.
  destruct (launch_setup_runs host context i V initial_state) as (before & R & _).
  pose proof (unless_is_not_if _ _ _ (valid_dedicated _ _ _ V)) as F.
  exists (node_container host i), (component_loader host i),
    (driver_component_loader host i).
  eexists. split; [exact R | split; [reflexivity|]].
  intros shared Hs. unfold flag in Hs. rewrite F in Hs. inversion Hs as [E].
  unfold launched.
  cbn [action_condition node_container component_loader container_condition
         load_condition load_target driver_component_loader].
  rewrite (valid_dedicated _ _ _ V), F.
  destruct (in_dedicated i); cbn [negb]; repeat split;
    intros H; try reflexivity; try discriminate H; inversion H.
Qed.

Lemma one_home_for_the_pipeline_witness :
  exists (c : ComposableNodeContainer) (l hw_loader : LoadComposableNodes) (s' : state),
    runs (launch_setup example_host (example_context "")) initial_state
      [Container c; Load l; Load hw_loader] s' /\
    container_nodes c = load_nodes l /\
    forall shared : bool,
      flag (example_context "") "use_pointcloud_container" = Ok shared ->
      (launched (example_context "") (Container c) <-> shared = false) /\
      (launched (example_context "") (Load l) <-> shared = true) /\
      (launched (example_context "") (Container c) ->
       load_target hw_loader = TargetContainer c) /\
      (launched (example_context "") (Load l) ->
       load_target hw_loader = load_target l).
Proof.
  exact (one_home_for_the_pipeline example_host (example_context "")
           (example_inputs "") (example_valid "")).
Defined.

(** ** Parameters of the driver nodes *)

Lemma get_absent {V : Type} (k : string) (d : dict V) :
  ~ In k (map fst d) -> PyDict.get k d = None.
Proof.
  induction d as [|[k' v] d IH]; cbn [PyDict.get map fst In]; intros H.
  - reflexivity.
  - destruct (String.eqb_spec k' k) as [E|N].
    + exfalso. apply H. left. exact E.
    + apply IH. intros Hin. apply H. right. exact Hin.
Qed.

Lemma last_source_wins (n : ComposableNode) (first : value) (d : dict value)
    (key : string) (v : value) :
  node_parameters n = Some [first; VDict d] ->
  PyDict.get key d = Some v ->
  node_parameter n key = Some v.
Proof.
  intros Hn Hg. unfold node_parameter. rewrite Hn. cbn [fold_left].
  rewrite Hg. reflexivity.
Qed.

Lemma first_source_otherwise (n : ComposableNode) (d1 d2 : dict value) (key : string) :
  node_parameters n = Some [VDict d1; VDict d2] ->
  PyDict.get key d2 = None ->
  node_parameter n key = PyDict.get key d1.
Proof.
  intros Hn Hg. unfold node_parameter. rewrite Hn. cbn [fold_left].
  rewrite Hg. destruct (PyDict.get key d1); reflexivity.
Qed.

(** X12.  The decoder node and the hardware-interface node are configured
    alike: for the sensor model, the calibration file, the scan phase, the
    return mode, the frame and the two cloud angles both get the same value,
    whatever the sensor's parameter file says about them.  The
    hardware-interface node gets no correction file and none of the range
    parameters. *)
Theorem decoder_and_interface_agree (host : Host) (context : LaunchContext) (i : Inputs) :
  Valid host context i ->
  exists (c : ComposableNodeContainer) (l hw_loader : LoadComposableNodes)
         (decoder hw : ComposableNode) (rest : list ComposableNode) (s' : state),
    runs (launch_setup host context) initial_state
      [Container c; Load l; Load hw_loader] s' /\
    container_nodes c = decoder :: rest /\
    load_nodes hw_loader = [hw] /\
    (forall key : string,
        In key shared_driver_keys ->
        node_parameter decoder key = node_parameter hw key /\
        node_parameter hw key <> None) /\
    (forall key : string,
        In key ["correction_file"; "min_range"; "max_range";
                "dual_return_distance_threshold"] ->
        node_parameter hw key = None /\ node_parameter decoder key <> None).
Proof.
  intros V.
  destruct (launch_setup_runs host context i V initial_state) as (before & R & _).
  exists (node_container host i), (component_loader host i),
    (driver_component_loader host i), (driver_node host i), (hw_interface_node i),
    [self_crop_node i; mirror_crop_node i; distortion_corrector_node;
     outlier_filter_node].
  eexists. split; [exact R|]. split; [reflexivity|]. split; [reflexivity|].
  split.
  - intros key Hin. unfold shared_driver_keys in Hin. cbn [In] in Hin.
    decompose [or] Hin; try contradiction; subst key;
      (split;
       [ erewrite last_source_wins; [reflexivity | reflexivity | reflexivity]
       | discriminate ]).
  - intros key Hin. cbn [In] in Hin.
    decompose [or] Hin; try contradiction; subst key;
      (split;
       [ reflexivity
       | erewrite last_source_wins; [discriminate | reflexivity | reflexivity] ]).
Qed.

Lemma decoder_and_interface_agree_witness :
  exists (c : ComposableNodeContainer) (l hw_loader : LoadComposableNodes)
         (decoder hw : ComposableNode) (rest : list ComposableNode) (s' : state),
    runs (launch_setup example_host (example_context "")) initial_state
      [Container c; Load l; Load hw_loader] s' /\
    container_nodes c = decoder :: rest /\
    load_nodes hw_loader = [hw] /\
    (forall key : string,
        In key shared_driver_keys ->
        node_parameter decoder key = node_parameter hw key /\
        node_parameter hw key <> None) /\
    (forall key : string,
        In key ["correction_file"; "min_range"; "max_range";
                "dual_return_distance_threshold"] ->
        node_parameter hw key = None /\ node_parameter decoder key <> None).
Proof.
  exact (decoder_and_interface_agree example_host (example_context "")
           (example_inputs "") (example_valid "")).
Defined.

(** X13.  The sensor's parameter file configures the decoder except where the
    launch file speaks: a parameter of the file reaches the decoder unchanged
    unless it is one of the eleven the launch file sets, and of those the
    eight taken from launch arguments are the launch argument of the same
    name whatever the file says. *)
Theorem parameter_file_passes_through (host : Host) (context : LaunchContext)
    (i : Inputs) (file_parameters : dict value) :
  Valid host context i ->
  in_sensor_params i = VDict file_parameters ->
  exists (decoder : ComposableNode) (rest : list ComposableNode) (s' : state),
    emits host context (decoder :: rest) s' /\
    (forall key : string,
        ~ In key decoder_keys ->
        node_parameter decoder key = PyDict.get key file_parameters) /\
    (forall key : string,
        In key decoder_argument_keys ->
        node_parameter decoder key = Some (VSubst key)) /\
    node_parameter decoder "sensor_model" = Some (VStr (in_model i)).
Proof.
  intros V Hd.
  destruct (launch_setup_runs host context i V initial_state) as (before & R & _).
  exists (driver_node host i),
    [self_crop_node i; mirror_crop_node i; distortion_corrector_node;
     outlier_filter_node].
  eexists. split.
  - exists (node_container host i), (component_loader host i),
      (driver_component_loader host i).
    split; [exact R | split; reflexivity].
  - split; [|split].
    + intros key Hout. eapply first_source_otherwise.
      * cbn [driver_node node_parameters]. rewrite Hd. reflexivity.
      * apply get_absent. exact Hout.
    + intros key Hin. unfold decoder_argument_keys in Hin. cbn [In] in Hin.
      decompose [or] Hin; try contradiction; subst key;
        (eapply last_source_wins; [reflexivity | reflexivity]).
    + eapply last_source_wins; [reflexivity | reflexivity].
Qed.

Lemma parameter_file_passes_through_witness :
  exists (decoder : ComposableNode) (rest : list ComposableNode) (s' : state),
    emits example_host (example_context "") (decoder :: rest) s' /\
    (forall key : string,
        ~ In key decoder_keys ->
        node_parameter decoder key =
        PyDict.get key [("sensor_ip", VStr "192.168.1.201"); ("rotation_speed", VInt 600)]) /\
    (forall key : string,
        In key decoder_argument_keys ->
        node_parameter decoder key = Some (VSubst key)) /\
    node_parameter decoder "sensor_model" =
    Some (VStr (in_model (example_inputs ""))).
Proof.
  exact (parameter_file_passes_through example_host (example_context "")
           (example_inputs "") _ (example_valid "") eq_refl).
Defined.

(** ** The mirror file *)

Lemma fails_get_vehicle_mirror_info (host : Host) (context : LaunchContext)
    (path : string) (s : state) :
  perform context "vehicle_mirror_param_file" = Ok path ->
  yaml_file host path = None ->
  fails (get_vehicle_mirror_info host context) s (OSError path) (log (EvOpen path) s).
Proof.
  intros Hp Hy. unfold get_vehicle_mirror_info.
  eapply fails_bind_later; [apply runs_lift; exact Hp |].
  apply fails_bind_now. unfold fails, open_yaml. rewrite Hy. reflexivity.
Qed.

Lemma with_yaml_other (host : Host) (path p : string) (content : option value) :
  p <> path -> yaml_file (with_yaml host path content) p = yaml_file host p.
Proof.
  intros N. unfold with_yaml. cbn [yaml_file].
  destruct (String.eqb_spec p path); [contradiction | reflexivity].
Qed.

Lemma with_yaml_same (host : Host) (path : string) (content : option value) :
  yaml_file (with_yaml host path content) path = content.
Proof. unfold with_yaml. cbn [yaml_file]. rewrite String.eqb_refl. reflexivity. Qed.

(** The facts about a host that differs from a valid one in the mirror file
    only: the sensor's parameter file is read as before, and the files are
    resolved as before. *)
Ltac mirror_facts_on host i V Hne content :=
  let Hy := fresh "Hy" in
  let Hm := fresh "Hm" in
  pose proof (with_yaml_other host (in_mirror_file i) (params_path host i) content
                (fun E => Hne (eq_sym E))) as Hy;
  pose proof (with_yaml_same host (in_mirror_file i) content) as Hm;
  rewrite (valid_params_doc _ _ _ V) in Hy;
  let s1 := fresh "s1" in
  let Hc := fresh "Hc" in
  let Hh := fresh "Hh" in
  let Ht := fresh "Ht" in
  destruct (launch_setup_config_runs (with_yaml host (in_mirror_file i) content)
              (in_model i) (in_make i) (in_extension i)
              (in_decoders_share i) (in_ros_share i) (in_config_file i)
              (in_correction_file i)
              (log (EvShareDirectory "nebula_ros")
                 (log (EvShareDirectory "nebula_decoders") initial_state)))
    as (s1 & Hc & Hh & Ht);
  [ exact (valid_params_exists _ _ _ V) | exact (valid_calib_exists _ _ _ V) | ];
  cbn [heap trace log initial_state app] in Hh, Ht;
  pose proof (valid_make _ _ _ V) as Hmake;
  pose proof (valid_mirror_file _ _ _ V) as Hfile;
  destruct V as [? _ ? ? ? ? _ _ _ ? ? ? ? ? ? ? ? ? ? _ _ _ _ _ _ _ _ _ _ _].

Ltac mirror_facts V Hne content :=
  lazymatch type of V with
  | Valid ?host _ ?i => mirror_facts_on host i V Hne content
  end.

(** Runs [launch_setup] on such a host up to the statement that reads the
    mirror file. *)
Ltac run_to_mirror Hc Hy Hmake :=
  unfold launch_setup;
  eapply fails_bind_later; [apply runs_lift; eassumption |];
  eapply fails_bind_later; [apply runs_lift; rewrite Hmake; reflexivity |];
  cbv beta iota;
  eapply fails_bind_later; [apply runs_share; eassumption |];
  eapply fails_bind_later; [apply runs_share; eassumption |];
  eapply fails_bind_later; [apply runs_lift; eassumption |];
  eapply fails_bind_later; [apply runs_lift; eassumption |];
  eapply fails_bind_later; [exact Hc |];
  cbv beta iota;
  eapply fails_bind_later; [apply runs_open_yaml; exact Hy |];
  eapply fails_bind_later; [apply runs_lift; eassumption |];
  eapply fails_bind_later; [apply runs_lift; eassumption |];
  apply fails_bind_now;
  unfold launch_setup_nodes;
  do 17 (cbv beta zeta; eapply fails_bind_later; [run_statement |]);
  cbv beta zeta.

(** X16.  The mirror file is read late and unguarded.  Where a valid
    installation differs only in that the mirror file cannot be opened, the
    run still resolves and checks the sensor's files, builds the decoder node
    and the first crop box, and then stops with the error of the failed
    [open]; the crop-box dictionary is left holding the vehicle's bounds. *)
Theorem unreadable_mirror_file_is_fatal (host : Host) (context : LaunchContext)
    (i : Inputs) :
  Valid host context i ->
  in_mirror_file i <> params_path host i ->
  exists s' : state,
    fails (launch_setup (with_yaml host (in_mirror_file i) None) context)
      initial_state (OSError (in_mirror_file i)) s' /\
    heap s' =
      [crop_parameters
         (VFloat (in_vehicle_min_x i)) (VFloat (in_vehicle_max_x i))
         (VFloat (in_vehicle_min_y i)) (VFloat (in_vehicle_max_y i))
         (VFloat (in_vehicle_min_z i)) (VFloat (in_vehicle_max_z i))] /\
    exists before : list event,
      trace s' = (before ++ [EvOpen (params_path host i)]
                    ++ firstn 7 (nodes_trace i 0)
                    ++ [EvOpen (in_mirror_file i)])%list.
Proof.
  intros V Hne. mirror_facts V Hne (@None value).
  eexists. split.
  - run_to_mirror Hc Hy Hmake.
    apply fails_bind_now.
    apply fails_get_vehicle_mirror_info; [exact Hfile | exact Hm].
  - cbn [heap trace log]. rewrite Hh. split; [reflexivity|].
    exists (trace s1). cbn [length firstn nodes_trace app].
    repeat rewrite <- app_assoc. reflexivity.
Qed.

Lemma unreadable_mirror_file_is_fatal_witness :
  exists s' : state,
    fails (launch_setup
             (with_yaml example_host (in_mirror_file (example_inputs "")) None)
             (example_context ""))
      initial_state (OSError (in_mirror_file (example_inputs ""))) s' /\
    heap s' =
      [crop_parameters
         (VFloat (in_vehicle_min_x (example_inputs "")))
         (VFloat (in_vehicle_max_x (example_inputs "")))
         (VFloat (in_vehicle_min_y (example_inputs "")))
         (VFloat (in_vehicle_max_y (example_inputs "")))
         (VFloat (in_vehicle_min_z (example_inputs "")))
         (VFloat (in_vehicle_max_z (example_inputs "")))] /\
    exists before : list event,
      trace s' = (before ++ [EvOpen (params_path example_host (example_inputs ""))]
                    ++ firstn 7 (nodes_trace (example_inputs "") 0)
                    ++ [EvOpen (in_mirror_file (example_inputs ""))])%list.
Proof.
  apply (unreadable_mirror_file_is_fatal example_host (example_context "")
           (example_inputs "") (example_valid "")).
  vm_compute. discriminate.
Defined.

Lemma value_getitem_present (d : dict value) (k : string) (v : value) :
  PyDict.get k d = Some v -> value_getitem (VDict d) k = Ok v.
Proof. intros H. cbn [value_getitem]. unfold getitem. rewrite H. reflexivity. Qed.

Lemma value_getitem_absent (d : dict value) (k : string) :
  PyDict.get k d = None -> value_getitem (VDict d) k = Raise (KeyError k).
Proof. intros H. cbn [value_getitem]. unfold getitem. rewrite H. reflexivity. Qed.

(** Runs [launch_setup] from the statement that reads the mirror file to the
    first offset the file lacks. *)
Ltac stop_at_missing_offset Hc Hy Hmake :=
  eexists; run_to_mirror Hc Hy Hmake;
  repeat (cbv beta zeta; eapply fails_bind_later; [run_statement |]);
  cbv beta zeta; apply fails_bind_now; apply fails_lift; eassumption.

(** X17.  The mirror file has to give all six offsets.  Where a valid
    installation differs only in that the mirror file's parameters lack some
    of them, the run stops with a [KeyError] for the first one it lacks, in
    the order minimum and maximum of the longitudinal, the lateral and the
    height offset; entries the launch file does not read are ignored. *)
Theorem incomplete_mirror_file_is_fatal (host : Host) (context : LaunchContext)
    (i : Inputs) (mirror_parameters : dict value) (k : string) :
  Valid host context i ->
  in_mirror_file i <> params_path host i ->
  first_missing offset_keys mirror_parameters = Some k ->
  exists s' : state,
    fails (launch_setup
             (with_yaml host (in_mirror_file i)
                (Some (parameter_document mirror_parameters)))
             context)
      initial_state (KeyError k) s'.
Proof.
  intros V Hne Hk.
  mirror_facts V Hne (Some (parameter_document mirror_parameters)).
  assert (Htop : value_getitem (parameter_document mirror_parameters) "/**" =
                 Ok (VDict [("ros__parameters", VDict mirror_parameters)]))
    by reflexivity.
  assert (Hinfo : value_getitem (VDict [("ros__parameters", VDict mirror_parameters)])
                    "ros__parameters" = Ok (VDict mirror_parameters))
    by reflexivity.
  unfold first_missing, offset_keys in Hk. cbn [find] in Hk.
  destruct (PyDict.get "min_longitudinal_offset" mirror_parameters) eqn:E1;
    [ apply value_getitem_present in E1
    | apply value_getitem_absent in E1; inversion Hk; subst k;
      stop_at_missing_offset Hc Hy Hmake ].
  destruct (PyDict.get "max_longitudinal_offset" mirror_parameters) eqn:E2;
    [ apply value_getitem_present in E2
    | apply value_getitem_absent in E2; inversion Hk; subst k;
      stop_at_missing_offset Hc Hy Hmake ].
  destruct (PyDict.get "min_lateral_offset" mirror_parameters) eqn:E3;
    [ apply value_getitem_present in E3
    | apply value_getitem_absent in E3; inversion Hk; subst k;
      stop_at_missing_offset Hc Hy Hmake ].
  destruct (PyDict.get "max_lateral_offset" mirror_parameters) eqn:E4;
    [ apply value_getitem_present in E4
    | apply value_getitem_absent in E4; inversion Hk; subst k;
      stop_at_missing_offset Hc Hy Hmake ].
  destruct (PyDict.get "min_height_offset" mirror_parameters) eqn:E5;
    [ apply value_getitem_present in E5
    | apply value_getitem_absent in E5; inversion Hk; subst k;
      stop_at_missing_offset Hc Hy Hmake ].
  destruct (PyDict.get "max_height_offset" mirror_parameters) eqn:E6;
    [ discriminate Hk
    | apply value_getitem_absent in E6; inversion Hk; subst k;
      stop_at_missing_offset Hc Hy Hmake ].
Qed.

(** A mirror file that gives the longitudinal offsets and the height, but no
    lateral offset. *)
Lemma incomplete_mirror_file_is_fatal_witness :
  exists s' : state,
    fails (launch_setup
             (with_yaml example_host (in_mirror_file (example_inputs ""))
                (Some (parameter_document
                         [("min_longitudinal_offset", VFloat 0.5%float);
                          ("max_longitudinal_offset", VFloat 1%float);
                          ("max_height_offset", VFloat 2%float)])))
             (example_context ""))
      initial_state (KeyError "min_lateral_offset") s'.
Proof.
  apply (incomplete_mirror_file_is_fatal example_host (example_context "")
           (example_inputs "") _ _ (example_valid "")).
  - vm_compute. discriminate.
  - reflexivity.
Defined.

(** * The launch description *)

(** ** Visiting declarations *)

Lemma distinct_NoDup (names : list string) : distinct names = true -> NoDup names.
Proof.
  induction names as [|n rest IH]; cbn [distinct]; intros H.
  - constructor.
  - apply andb_true_iff in H. destruct H as [Hn Hr]. constructor.
    + intros Hin. apply mem_In in Hin. rewrite Hin in Hn. discriminate Hn.
    + apply IH. exact Hr.
Qed.

Lemma visit_arg_done (d : DeclareLaunchArgument) (c c' : LaunchContext)
    (s s' : state) (acts : list action) :
  visit (Arg d) c s = (Done (c', acts), s') ->
  s' = s /\ acts = [] /\
  ros_params c' = ros_params c /\ global_params c' = global_params c /\
  (forall n v, PyDict.get n (launch_configurations c) = Some v ->
               PyDict.get n (launch_configurations c') = Some v) /\
  (forall n, n <> argument_name d ->
             PyDict.get n (launch_configurations c') =
             PyDict.get n (launch_configurations c)) /\
  exists text,
    PyDict.get (argument_name d) (launch_configurations c') = Some text /\
    (PyDict.get (argument_name d) (launch_configurations c) = None ->
     exists default_value,
       argument_default d = Some default_value /\
       perform_substitution c default_value = Ok text).
Proof.
  unfold visit.
  destruct (PyDict.get (argument_name d) (launch_configurations c)) as [v0|] eqn:G.
  - intros H. inversion H. subst. repeat split; auto.
    exists v0. split; [exact G | discriminate].
  - destruct (argument_default d) as [dv|]; [|discriminate].
    destruct (perform_substitution c dv) as [text|e] eqn:P; [|discriminate].
    intros H. inversion H. subst. cbn [set_configuration launch_configurations
                                      ros_params global_params].
    repeat split; auto.
    + intros n v Hn. rewrite get_set_other; [exact Hn|].
      intros E. subst n. rewrite G in Hn. discriminate Hn.
    + intros n Hn. apply get_set_other. intros E. apply Hn. symmetry. exact E.
    + exists text. split; [apply get_set_same|].
      intros _. exists dv. split; [reflexivity | exact P].
Qed.

Lemma visit_declarations_done (ds : list DeclareLaunchArgument) (c c' : LaunchContext)
    (s s' : state) (acts : list action) :
  visit_all (map Arg ds) c s = (Done (c', acts), s') ->
  s' = s /\ acts = [] /\
  ros_params c' = ros_params c /\ global_params c' = global_params c /\
  (forall n v, PyDict.get n (launch_configurations c) = Some v ->
               PyDict.get n (launch_configurations c') = Some v) /\
  (forall n, ~ In n (map argument_name ds) ->
             PyDict.get n (launch_configurations c') =
             PyDict.get n (launch_configurations c)) /\
  (forall n, In n (map argument_name ds) -> configured c' n).
Proof.
  revert c acts. induction ds as [|d ds IH]; intros c acts; cbn [map visit_all].
  - intros H. inversion H. subst. repeat split; auto. intros n [].
  - destruct (visit (Arg d) c s) as [[[c1 a1]| |] s1] eqn:V; try discriminate.
    destruct (visit_all (map Arg ds) c1 s1) as [[[c2 a2]| |] s2] eqn:VA;
      try discriminate.
    intros H. inversion H. subst c2 s2 acts. clear H.
    apply visit_arg_done in V.
    destruct V as (-> & -> & Hr & Hg & Hkeep & Hother & text & Htext & _).
    apply IH in VA.
    destruct VA as (-> & -> & Hr' & Hg' & Hkeep' & Hother' & Hdef').
    repeat split.
    + congruence.
    + congruence.
    + intros n v Hn. apply Hkeep'. apply Hkeep. exact Hn.
    + intros n Hn. cbn [In] in Hn. rewrite Hother'.
      * apply Hother. intros E. apply Hn. left. symmetry. exact E.
      * intros Hin. apply Hn. right. exact Hin.
    + intros n [E|Hin].
      * subst n. unfold configured. rewrite (Hkeep' _ _ Htext). discriminate.
      * apply Hdef'. exact Hin.
Qed.

Lemma visit_declarations_default (ds : list DeclareLaunchArgument)
    (c c' : LaunchContext) (s s' : state) (acts : list action)
    (d : DeclareLaunchArgument) :
  visit_all (map Arg ds) c s = (Done (c', acts), s') ->
  NoDup (map argument_name ds) ->
  In d ds ->
  PyDict.get (argument_name d) (launch_configurations c) = None ->
  exists default_value text,
    argument_default d = Some default_value /\
    PyDict.get (argument_name d) (launch_configurations c') = Some text /\
    match default_value with
    | TextSubstitution t => text = t
    | LaunchConfiguration n => PyDict.get n (launch_configurations c') = Some text
    end.
Proof.
  revert c acts. induction ds as [|d0 ds IH]; intros c acts; cbn [map visit_all].
  - intros _ _ [].
  - destruct (visit (Arg d0) c s) as [[[c1 a1]| |] s1] eqn:V; try discriminate.
    destruct (visit_all (map Arg ds) c1 s1) as [[[c2 a2]| |] s2] eqn:VA;
      try discriminate.
    intros H Hnd Hin Hnone. inversion H. subst c2 s2 acts. clear H.
    inversion Hnd as [|x xs Hfresh Hnd']. subst x xs.
    apply visit_arg_done in V.
    destruct V as (-> & -> & _ & _ & Hkeep & Hother & text & Htext & Hdv).
    destruct Hin as [E|Hin].
    + subst d0. destruct (Hdv Hnone) as (dv & Hd & Hp).
      pose proof (visit_declarations_done _ _ _ _ _ _ VA)
        as (_ & _ & _ & _ & Hkeep' & _ & _).
      exists dv, text. split; [exact Hd|]. split; [apply Hkeep'; exact Htext|].
      destruct dv as [t|n]; cbn [perform_substitution] in Hp.
      * inversion Hp. reflexivity.
      * apply Hkeep'. apply Hkeep. unfold perform in Hp.
        destruct (PyDict.get n (launch_configurations c)); inversion Hp. reflexivity.
    + apply (IH c1 a2 VA Hnd' Hin). rewrite Hother; [exact Hnone|].
      intros E. apply Hfresh. rewrite <- E. apply in_map. exact Hin.
Qed.

Lemma visit_declarations_ready (ds : list DeclareLaunchArgument) (defined : list string)
    (c : LaunchContext) (s : state) :
  ready defined ds = true ->
  (forall n, PyStr.mem n defined = true -> configured c n) ->
  exists c', visit_all (map Arg ds) c s = (Done (c', []), s).
Proof.
  revert defined c. induction ds as [|d ds IH]; intros defined c; cbn [map visit_all ready].
  - intros _ _. exists c. reflexivity.
  - intros Hready Hdef.
    assert (Hnext : forall c1 defined1,
               visit (Arg d) c s = (Done (c1, []), s) ->
               ready defined1 ds = true ->
               (forall n, PyStr.mem n defined1 = true -> configured c1 n) ->
               exists c', match visit (Arg d) c s with
                          | (Done (context1, acts1), s1) =>
                              match visit_all (map Arg ds) context1 s1 with
                              | (Done (context2, acts2), s2) =>
                                  (Done (context2, (acts1 ++ acts2)%list), s2)
                              | stopped => stopped
                              end
                          | stopped => stopped
                          end = (Done (c', []), s)).
    { intros c1 defined1 V R D. rewrite V.
      destruct (IH defined1 c1 R D) as (c' & ->). exists c'. reflexivity. }
    assert (Hgrow : forall c1,
               configured c1 (argument_name d) ->
               (forall n, configured c n -> configured c1 n) ->
               forall n, PyStr.mem n (argument_name d :: defined) = true ->
                         configured c1 n).
    { intros c1 Hd Hk n Hn. cbn [PyStr.mem] in Hn. apply orb_true_iff in Hn.
      destruct Hn as [E|Hn].
      - apply String.eqb_eq in E. subst n. exact Hd.
      - apply Hk. apply Hdef. exact Hn. }
    assert (Hset : forall text n,
               configured c n ->
               configured (set_configuration (argument_name d) text c) n).
    { intros text n Hn. unfold configured, set_configuration.
      cbn [launch_configurations].
      destruct (String.eqb_spec (argument_name d) n) as [E|N].
      - subst n. rewrite get_set_same. discriminate.
      - rewrite get_set_other; [exact Hn | exact N]. }
    destruct (PyStr.mem (argument_name d) defined) eqn:Em.
    + pose proof (Hdef _ Em) as Hc. unfold configured in Hc.
      apply (Hnext c defined); [|exact Hready|exact Hdef].
      unfold visit.
      destruct (PyDict.get (argument_name d) (launch_configurations c));
        [reflexivity | contradiction].
    + destruct (PyDict.get (argument_name d) (launch_configurations c)) as [v0|] eqn:G.
      * assert (V : visit (Arg d) c s = (Done (c, []), s))
          by (unfold visit; rewrite G; reflexivity).
        assert (Hc : configured c (argument_name d))
          by (unfold configured; rewrite G; discriminate).
        destruct (argument_default d) as [[t|n0]|]; [| |discriminate].
        -- apply (Hnext c (argument_name d :: defined) V Hready).
           apply Hgrow; [exact Hc | auto].
        -- apply andb_true_iff in Hready. destruct Hready as [_ Hready].
           apply (Hnext c (argument_name d :: defined) V Hready).
           apply Hgrow; [exact Hc | auto].
      * destruct (argument_default d) as [[t|n0]|] eqn:Dv; [| |discriminate].
        -- apply (Hnext (set_configuration (argument_name d) t c)
                    (argument_name d :: defined)); [|exact Hready|].
           ++ unfold visit. rewrite G, Dv. reflexivity.
           ++ apply Hgrow; [|apply Hset].
              unfold configured, set_configuration. cbn [launch_configurations].
              rewrite get_set_same. discriminate.
        -- apply andb_true_iff in Hready. destruct Hready as [Hn0 Hready].
           pose proof (Hdef _ Hn0) as Hc0. unfold configured in Hc0.
           destruct (PyDict.get n0 (launch_configurations c)) as [t|] eqn:G0;
             [|contradiction].
           apply (Hnext (set_configuration (argument_name d) t c)
                    (argument_name d :: defined)); [|exact Hready|].
           ++ unfold visit. rewrite G, Dv. cbn [perform_substitution].
              unfold perform. rewrite G0. reflexivity.
           ++ apply Hgrow; [|apply Hset].
              unfold configured, set_configuration. cbn [launch_configurations].
              rewrite get_set_same. discriminate.
Qed.

Lemma visit_all_app (l1 l2 : list entity) (c : LaunchContext) (s : state) :
  visit_all (l1 ++ l2) c s =
  match visit_all l1 c s with
  | (Done (c1, acts1), s1) =>
      match visit_all l2 c1 s1 with
      | (Done (c2, acts2), s2) => (Done (c2, (acts1 ++ acts2)%list), s2)
      | stopped => stopped
      end
  | stopped => stopped
  end.
Proof.
  revert c s. induction l1 as [|e l1 IH]; intros c s; cbn [app visit_all].
  - destruct (visit_all l2 c s) as [[[c2 a2]| |] s2]; reflexivity.
  - destruct (visit e c s) as [[[c1 a1]| |] s1]; try reflexivity.
    rewrite IH.
    destruct (visit_all l1 c1 s1) as [[[c2 a2]| |] s2]; try reflexivity.
    destruct (visit_all l2 c2 s2) as [[[c3 a3]| |] s3]; try reflexivity.
    rewrite app_assoc. reflexivity.
Qed.

(** ** The description of this launch file *)

Lemma description_shape (host : Host) :
  generate_launch_description host =
  (map Arg (declared (generate_launch_description host)) ++
   [SetLaunchConfiguration "container_executable" "component_container"
      (UnlessCondition "use_multithread");
    SetLaunchConfiguration "container_executable" "component_container_mt"
      (IfCondition "use_multithread");
    OpaqueFunction (launch_setup host)])%list.
Proof. reflexivity. Qed.

Lemma declared_names_distinct (host : Host) :
  NoDup (declared_names (generate_launch_description host)).
Proof. apply distinct_NoDup. reflexivity. Qed.

Lemma executable_not_declared (host : Host) :
  ~ In "container_executable" (declared_names (generate_launch_description host)).
Proof. intros Hin. apply mem_In in Hin. vm_compute in Hin. discriminate Hin. Qed.

Lemma description_tail (host : Host) (c1 : LaunchContext) (s : state) :
  visit_all
    [SetLaunchConfiguration "container_executable" "component_container"
       (UnlessCondition "use_multithread");
     SetLaunchConfiguration "container_executable" "component_container_mt"
       (IfCondition "use_multithread");
     OpaqueFunction (launch_setup host)] c1 s =
  match evaluate c1 (IfCondition "use_multithread") with
  | Ok b =>
      match launch_setup host
              (set_configuration "container_executable" (executable_for b) c1) s with
      | (Ok acts, s') =>
          (Done (set_configuration "container_executable" (executable_for b) c1, acts),
           s')
      | (Raise e, s') => (Failed e, s')
      end
  | Raise e => (Failed e, s)
  end.
Proof.
  cbn [visit_all visit evaluate]. unfold obind.
  destruct (perform c1 "use_multithread") as [text|e] eqn:P; [|reflexivity].
  destruct (evaluate_condition_expression text) as [[|]|e] eqn:E; cbn [negb].
  - rewrite P. cbn beta iota. rewrite E. cbn [executable_for].
    destruct (launch_setup host
                (set_configuration "container_executable" "component_container_mt" c1) s)
      as [[acts|e] s']; [|reflexivity].
    cbn [app]. rewrite app_nil_r. reflexivity.
  - rewrite perform_set_other by discriminate. rewrite P. cbn beta iota. rewrite E.
    cbn [executable_for].
    destruct (launch_setup host
                (set_configuration "container_executable" "component_container" c1) s)
      as [[acts|e] s']; [|reflexivity].
    cbn [app]. rewrite app_nil_r. reflexivity.
  - reflexivity.
Qed.

Lemma description_done (host : Host) (c c' : LaunchContext) (s s' : state)
    (acts : list action) :
  visit_all (generate_launch_description host) c s = (Done (c', acts), s') ->
  exists (c1 : LaunchContext) (b : bool),
    visit_all (map Arg (declared (generate_launch_description host))) c s =
      (Done (c1, []), s) /\
    evaluate c1 (IfCondition "use_multithread") = Ok b /\
    c' = set_configuration "container_executable" (executable_for b) c1 /\
    runs (launch_setup host c') s acts s'.
Proof.
  rewrite description_shape at 1. rewrite visit_all_app.
  destruct (visit_all (map Arg (declared (generate_launch_description host))) c s)
    as [[[c1 a1]| |] s1] eqn:D; try discriminate.
  pose proof (visit_declarations_done _ _ _ _ _ _ D) as (-> & -> & _).
  rewrite description_tail.
  destruct (evaluate c1 (IfCondition "use_multithread")) as [b|e] eqn:E;
    [|discriminate].
  destruct (launch_setup host
              (set_configuration "container_executable" (executable_for b) c1) s)
    as [[acts'|e] s2] eqn:L; [|discriminate].
  cbn [app]. intros H. inversion H. subst.
  exists c1, b. split; [reflexivity|]. split; [exact E|]. split; [reflexivity|]. exact L.
Qed.

Lemma description_visits (host : Host) (c c1 : LaunchContext) (s : state) (b : bool) :
  visit_all (map Arg (declared (generate_launch_description host))) c s =
    (Done (c1, []), s) ->
  evaluate c1 (IfCondition "use_multithread") = Ok b ->
  visit_all (generate_launch_description host) c s =
  match launch_setup host
          (set_configuration "container_executable" (executable_for b) c1) s with
  | (Ok acts, s') =>
      (Done (set_configuration "container_executable" (executable_for b) c1, acts), s')
  | (Raise e, s') => (Failed e, s')
  end.
Proof.
  intros D E. rewrite description_shape at 1. rewrite visit_all_app, D.
  rewrite description_tail, E.
  destruct (launch_setup host
              (set_configuration "container_executable" (executable_for b) c1) s)
    as [[acts|e] s']; reflexivity.
Qed.

Lemma required_ready (host : Host) (c : LaunchContext) (s : state) :
  configured c "sensor_model" ->
  configured c "vehicle_mirror_param_file" ->
  exists c1,
    visit_all (map Arg (declared (generate_launch_description host))) c s =
    (Done (c1, []), s).
Proof.
  intros Hm Hf.
  apply (visit_declarations_ready _ ["sensor_model"; "vehicle_mirror_param_file"]).
  - reflexivity.
  - intros n Hn. apply mem_In in Hn. cbn [In] in Hn.
    destruct Hn as [<-|[<-|[]]]; assumption.
Qed.

Lemma multithread_default (host : Host) (c c1 : LaunchContext) (s : state) :
  visit_all (map Arg (declared (generate_launch_description host))) c s =
    (Done (c1, []), s) ->
  (forall text, perform c "use_multithread" = Ok text ->
                perform c1 "use_multithread" = Ok text) /\
  (~ configured c "use_multithread" -> perform c1 "use_multithread" = Ok "False").
Proof.
  intros D. split.
  - intros text P. unfold perform in *.
    destruct (PyDict.get "use_multithread" (launch_configurations c)) as [t|] eqn:G;
      [|discriminate].
    pose proof (visit_declarations_done _ _ _ _ _ _ D) as (_ & _ & _ & _ & K & _).
    rewrite (K _ _ G). exact P.
  - intros Hn.
    assert (G : PyDict.get "use_multithread" (launch_configurations c) = None).
    { unfold configured in Hn.
      destruct (PyDict.get "use_multithread" (launch_configurations c));
        [exfalso; apply Hn; discriminate | reflexivity]. }
    destruct (visit_declarations_default _ _ _ _ _ _
                {| argument_name := "use_multithread";
                   argument_default := Some (TextSubstitution "False");
                   argument_description := Some "use multithread" |}
                D (declared_names_distinct host))
      as (dv & text & Hd & Ht & Hv).
    + cbn. do 20 right. left. reflexivity.
    + exact G.
    + cbn [argument_default argument_name] in *. inversion Hd. subst dv. subst text.
      unfold perform. rewrite Ht. reflexivity.
Qed.

(** The minimal launch on the example installation. *)
Lemma minimal_launch :
  exists (c' : LaunchContext) (acts : list action) (s' : state),
    visit_all (generate_launch_description example_host) minimal_context initial_state =
    (Done (c', acts), s').
Proof. eexists. eexists. eexists. vm_compute. reflexivity. Qed.

(** ** What the description does to the launch context *)

Lemma not_configured (c : LaunchContext) (n : string) :
  ~ configured c n -> PyDict.get n (launch_configurations c) = None.
Proof.
  unfold configured. intros H.
  destruct (PyDict.get n (launch_configurations c)); [|reflexivity].
  exfalso. apply H. discriminate.
Qed.

Lemma get_after_executable (n text : string) (c : LaunchContext) :
  n <> "container_executable" ->
  PyDict.get n (launch_configurations
                  (set_configuration "container_executable" text c)) =
  PyDict.get n (launch_configurations c).
Proof.
  intros N. unfold set_configuration. cbn [launch_configurations].
  apply get_set_other. intros E. apply N. symmetry. exact E.
Qed.

(** X18.  The description has exactly two required arguments.  Without
    "sensor_model" visiting it stops at the first declaration with the
    [RuntimeError] of a required argument; with it but without
    "vehicle_mirror_param_file" it stops at that declaration, before
    [launch_setup] is called and with the state untouched; with both, no
    declaration raises that error, whatever else is or is not given. *)
Theorem required_launch_arguments (host : Host) (c : LaunchContext) (s : state) :
  (~ configured c "sensor_model" ->
   visit_all (generate_launch_description host) c s =
   (RuntimeError "sensor_model", s)) /\
  (configured c "sensor_model" ->
   ~ configured c "vehicle_mirror_param_file" ->
   visit_all (generate_launch_description host) c s =
   (RuntimeError "vehicle_mirror_param_file", s)) /\
  (configured c "sensor_model" ->
   configured c "vehicle_mirror_param_file" ->
   forall (n : string) (s' : state),
     visit_all (generate_launch_description host) c s <> (RuntimeError n, s')).
Proof.
  split; [|split].
  - intros Hn. apply not_configured in Hn.
    change (generate_launch_description host)
      with (Arg {| argument_name := "sensor_model";
                   argument_default := None;
                   argument_description := Some "sensor model name" |}
              :: skipn 1 (generate_launch_description host)).
    cbn [visit_all visit argument_name argument_default]. rewrite Hn. reflexivity.
  - intros Hm Hn. apply not_configured in Hn.
    change (generate_launch_description host)
      with (map Arg (firstn 19 (declared (generate_launch_description host)))
              ++ Arg {| argument_name := "vehicle_mirror_param_file";
                        argument_default := None;
                        argument_description :=
                          Some "path to the file of vehicle mirror position yaml" |}
              :: skipn 20 (generate_launch_description host))%list.
    rewrite visit_all_app.
    destruct (visit_declarations_ready
                (firstn 19 (declared (generate_launch_description host)))
                ["sensor_model"] c s) as (c1 & D).
    + reflexivity.
    + intros n Hin. apply mem_In in Hin. cbn [In] in Hin.
      destruct Hin as [<-|[]]. exact Hm.
    + rewrite D.
      pose proof (visit_declarations_done _ _ _ _ _ _ D) as (_ & _ & _ & _ & _ & O & _).
      cbn [visit_all visit argument_name argument_default].
      rewrite O, Hn; [reflexivity|].
      intros Hin. apply mem_In in Hin. vm_compute in Hin. discriminate Hin.
  - intros Hm Hf n s'.
    destruct (required_ready host c s Hm Hf) as (c1 & D).
    rewrite description_shape at 1. rewrite visit_all_app, D, description_tail.
    destruct (evaluate c1 (IfCondition "use_multithread")) as [b|e];
      [|discriminate].
    destruct (launch_setup host
                (set_configuration "container_executable" (executable_for b) c1) s)
      as [[acts|e] s2]; discriminate.
Qed.

(** X19.  Visiting the description never replaces a value the caller gave,
    "container_executable" apart: when the description has been visited every
    configuration the context had still has its value, each of the 24
    declared names has a value, the names that are neither declared nor
    "container_executable" are as they were, and the vehicle parameters are
    untouched. *)
Theorem arguments_keep_their_values (host : Host) (c c' : LaunchContext)
    (s s' : state) (acts : list action) :
  visit_all (generate_launch_description host) c s = (Done (c', acts), s') ->
  (forall (n v : string),
      n <> "container_executable" ->
      PyDict.get n (launch_configurations c) = Some v ->
      PyDict.get n (launch_configurations c') = Some v) /\
  (forall n : string,
      In n (declared_names (generate_launch_description host)) -> configured c' n) /\
  (forall n : string,
      ~ In n ("container_executable"
                :: declared_names (generate_launch_description host)) ->
      PyDict.get n (launch_configurations c') =
      PyDict.get n (launch_configurations c)) /\
  ros_params c' = ros_params c /\
  global_params c' = global_params c /\
  length (declared_names (generate_launch_description host)) = 24.
Proof.
  intros H. destruct (description_done _ _ _ _ _ _ H) as (c1 & b & D & _ & -> & _).
  pose proof (visit_declarations_done _ _ _ _ _ _ D)
    as (_ & _ & Hr & Hg & Hkeep & Hother & Hdef).
  repeat split.
  - intros n v N G. rewrite get_after_executable by exact N. apply Hkeep. exact G.
  - intros n Hin. unfold configured. rewrite get_after_executable.
    + apply Hdef. exact Hin.
    + intros E. subst n. exact (executable_not_declared host Hin).
  - intros n Hn. rewrite get_after_executable.
    + apply Hother. intros Hin. apply Hn. right. exact Hin.
    + intros E. apply Hn. left. symmetry. exact E.
  - exact Hr.
  - exact Hg.
Qed.

Lemma arguments_keep_their_values_witness :
  exists (c' : LaunchContext) (acts : list action) (s' : state),
    visit_all (generate_launch_description example_host) minimal_context initial_state =
      (Done (c', acts), s') /\
    (forall (n v : string),
        n <> "container_executable" ->
        PyDict.get n (launch_configurations minimal_context) = Some v ->
        PyDict.get n (launch_configurations c') = Some v) /\
    (forall n : string,
        In n (declared_names (generate_launch_description example_host)) ->
        configured c' n) /\
    (forall n : string,
        ~ In n ("container_executable"
                  :: declared_names (generate_launch_description example_host)) ->
        PyDict.get n (launch_configurations c') =
        PyDict.get n (launch_configurations minimal_context)) /\
    ros_params c' = ros_params minimal_context /\
    global_params c' = global_params minimal_context /\
    length (declared_names (generate_launch_description example_host)) = 24.
Proof.
  destruct minimal_launch as (c' & acts & s' & H).
  exists c', acts, s'. split; [exact H|].
  exact (arguments_keep_their_values _ _ _ _ _ _ H).
Defined.

Lemma configuration_default_is_base_frame (host : Host) (d : DeclareLaunchArgument)
    (n : string) :
  In d (declared (generate_launch_description host)) ->
  argument_default d = Some (LaunchConfiguration n) ->
  n = "base_frame".
Proof.
  intros Hin. cbn in Hin.
  decompose [or] Hin; try contradiction; subst d; cbn [argument_default];
    intros E; inversion E; reflexivity.
Qed.

(** X20.  An argument the caller did not give gets its default when the
    description is visited: the declared text, or, for a default that is a
    launch configuration, the value that configuration has afterwards.  So
    "input_frame" and "output_frame", when not given, are the value of
    "base_frame", given or default. *)
Theorem defaults_apply (host : Host) (c c' : LaunchContext)
    (s s' : state) (acts : list action) :
  visit_all (generate_launch_description host) c s = (Done (c', acts), s') ->
  (forall d : DeclareLaunchArgument,
      In d (declared (generate_launch_description host)) ->
      ~ configured c (argument_name d) ->
      exists (default_value : substitution) (text : string),
        argument_default d = Some default_value /\
        perform c' (argument_name d) = Ok text /\
        match default_value with
        | TextSubstitution t => text = t
        | LaunchConfiguration n => perform c' n = Ok text
        end) /\
  (~ configured c "input_frame" ->
   perform c' "input_frame" = perform c' "base_frame") /\
  (~ configured c "output_frame" ->
   perform c' "output_frame" = perform c' "base_frame").
Proof.
  intros H. destruct (description_done _ _ _ _ _ _ H) as (c1 & b & D & _ & -> & _).
  assert (General :
    forall d : DeclareLaunchArgument,
      In d (declared (generate_launch_description host)) ->
      ~ configured c (argument_name d) ->
      exists (default_value : substitution) (text : string),
        argument_default d = Some default_value /\
        perform (set_configuration "container_executable" (executable_for b) c1)
          (argument_name d) = Ok text /\
        match default_value with
        | TextSubstitution t => text = t
        | LaunchConfiguration n =>
            perform (set_configuration "container_executable" (executable_for b) c1) n
            = Ok text
        end).
  { intros d Hin Hn. apply not_configured in Hn.
    destruct (visit_declarations_default _ _ _ _ _ _ d D
                (declared_names_distinct host) Hin Hn)
      as (dv & text & Hd & Ht & Hv).
    exists dv, text. split; [exact Hd|]. split.
    - unfold perform. rewrite get_after_executable; [rewrite Ht; reflexivity|].
      intros E. apply (executable_not_declared host). rewrite <- E.
      unfold declared_names. apply in_map. exact Hin.
    - destruct dv as [t|n]; [exact Hv|].
      rewrite (configuration_default_is_base_frame host d n Hin Hd) in *.
      unfold perform. rewrite get_after_executable by discriminate.
      rewrite Hv. reflexivity. }
  split; [exact General|]. split.
  - intros Hn.
    destruct (General {| argument_name := "input_frame";
                         argument_default := Some (LaunchConfiguration "base_frame");
                         argument_description := Some "use for cropbox" |})
      as (dv & text & Hd & Ht & Hv).
    + cbn. do 17 right. left. reflexivity.
    + exact Hn.
    + cbn [argument_default argument_name] in *. inversion Hd. subst dv.
      rewrite Ht, Hv. reflexivity.
  - intros Hn.
    destruct (General {| argument_name := "output_frame";
                         argument_default := Some (LaunchConfiguration "base_frame");
                         argument_description := Some "use for cropbox" |})
      as (dv & text & Hd & Ht & Hv).
    + cbn. do 18 right. left. reflexivity.
    + exact Hn.
    + cbn [argument_default argument_name] in *. inversion Hd. subst dv.
      rewrite Ht, Hv. reflexivity.
Qed.

Lemma defaults_apply_witness :
  exists (c' : LaunchContext) (acts : list action) (s' : state),
    visit_all (generate_launch_description example_host) minimal_context initial_state =
      (Done (c', acts), s') /\
    (forall d : DeclareLaunchArgument,
        In d (declared (generate_launch_description example_host)) ->
        ~ configured minimal_context (argument_name d) ->
        exists (default_value : substitution) (text : string),
          argument_default d = Some default_value /\
          perform c' (argument_name d) = Ok text /\
          match default_value with
          | TextSubstitution t => text = t
          | LaunchConfiguration n => perform c' n = Ok text
          end) /\
    (~ configured minimal_context "input_frame" ->
     perform c' "input_frame" = perform c' "base_frame") /\
    (~ configured minimal_context "output_frame" ->
     perform c' "output_frame" = perform c' "base_frame").
Proof.
  destruct minimal_launch as (c' & acts & s' & H).
  exists c', acts, s'. split; [exact H|].
  exact (defaults_apply _ _ _ _ _ _ H).
Defined.

(** X21.  The container executable is decided by "use_multithread" alone.
    When the description has been visited, "use_multithread" is a truth value
    (false when the caller did not give it) and "container_executable" is
    "component_container_mt" if it is true and "component_container" if not,
    whatever value the caller gave for "container_executable".  With the
    required arguments given, a "use_multithread" that is no truth value
    stops the visit with the error of the condition, before [launch_setup]. *)
Theorem executable_follows_use_multithread (host : Host) (c : LaunchContext)
    (s : state) :
  (forall (c' : LaunchContext) (acts : list action) (s' : state),
      visit_all (generate_launch_description host) c s = (Done (c', acts), s') ->
      exists b : bool,
        evaluate c' (IfCondition "use_multithread") = Ok b /\
        perform c' "container_executable" = Ok (executable_for b) /\
        (~ configured c "use_multithread" -> b = false) /\
        (forall text : string,
            perform c "use_multithread" = Ok text ->
            evaluate_condition_expression text = Ok b)) /\
  (configured c "sensor_model" ->
   configured c "vehicle_mirror_param_file" ->
   forall (text : string) (e : exn),
     perform c "use_multithread" = Ok text ->
     evaluate_condition_expression text = Raise e ->
     visit_all (generate_launch_description host) c s = (Failed e, s)).
Proof.
  split.
  - intros c' acts s' H.
    destruct (description_done _ _ _ _ _ _ H) as (c1 & b & D & E & -> & _).
    destruct (multithread_default host c c1 s D) as [Hgiven Hdefault].
    exists b. split; [|split; [|split]].
    + unfold evaluate in *. rewrite perform_set_other by discriminate. exact E.
    + unfold perform, set_configuration. cbn [launch_configurations].
      rewrite get_set_same. reflexivity.
    + intros Hn. apply Hdefault in Hn. unfold evaluate, obind in E.
      rewrite Hn in E. vm_compute in E. inversion E. reflexivity.
    + intros text P. apply Hgiven in P. unfold evaluate, obind in E.
      rewrite P in E. exact E.
  - intros Hm Hf text e P He.
    destruct (required_ready host c s Hm Hf) as (c1 & D).
    destruct (multithread_default host c c1 s D) as [Hgiven _].
    rewrite description_shape at 1. rewrite visit_all_app, D, description_tail.
    unfold evaluate, obind. rewrite (Hgiven _ P), He. reflexivity.
Qed.

(** X22.  "return_mode" is the one launch configuration the driver nodes
    refer to that the description does not declare.  Visiting the description
    leaves it as the caller gave it, so without a caller's value it does not
    exist afterwards, while the decoder node and the hardware-interface node
    that are returned both take their "return_mode" parameter from it.  The
    other seven parameters the decoder takes from launch configurations all
    have a value. *)
Theorem return_mode_is_not_declared (host : Host) (c c' : LaunchContext)
    (s s' : state) (acts : list action) :
  visit_all (generate_launch_description host) c s = (Done (c', acts), s') ->
  perform c' "return_mode" = perform c "return_mode" /\
  ~ In "return_mode" (declared_names (generate_launch_description host)) /\
  exists (container : ComposableNodeContainer) (l hw_loader : LoadComposableNodes)
         (decoder hw : ComposableNode) (rest : list ComposableNode),
    acts = [Container container; Load l; Load hw_loader] /\
    container_nodes container = decoder :: rest /\
    load_nodes hw_loader = [hw] /\
    node_parameter decoder "return_mode" = Some (VSubst "return_mode") /\
    node_parameter hw "return_mode" = Some (VSubst "return_mode") /\
    forall key : string,
      In key decoder_argument_keys ->
      key <> "return_mode" ->
      node_parameter decoder key = Some (VSubst key) /\ configured c' key.
Proof.
  intros H.
  assert (Hnot : ~ In "return_mode"
                     (declared_names (generate_launch_description host))).
  { intros Hin. apply mem_In in Hin. vm_compute in Hin. discriminate Hin. }
  destruct (description_done _ _ _ _ _ _ H) as (c1 & b & D & _ & E & R).
  pose proof (visit_declarations_done _ _ _ _ _ _ D)
    as (_ & _ & _ & _ & _ & Hother & Hdef).
  destruct (launch_setup_result _ _ _ _ _ R) as (i & V & ->).
  split; [|split; [exact Hnot|]].
  - subst c'. unfold perform. rewrite get_after_executable by discriminate.
    rewrite (Hother _ Hnot). reflexivity.
  - exists (node_container host i), (component_loader host i),
      (driver_component_loader host i), (driver_node host i), (hw_interface_node i),
      [self_crop_node i; mirror_crop_node i; distortion_corrector_node;
       outlier_filter_node].
    split; [reflexivity|]. split; [reflexivity|]. split; [reflexivity|].
    split; [eapply last_source_wins; reflexivity|].
    split; [reflexivity|].
    intros key Hin Hne. unfold decoder_argument_keys in Hin. cbn [In] in Hin.
    decompose [or] Hin; try contradiction; subst key;
      try (exfalso; apply Hne; reflexivity);
      (split;
       [ eapply last_source_wins; reflexivity
       | subst c'; unfold configured;
         rewrite get_after_executable by discriminate;
         apply Hdef; apply mem_In; reflexivity ]).
Qed.

Lemma return_mode_is_not_declared_witness :
  exists (c' : LaunchContext) (acts : list action) (s' : state),
    visit_all (generate_launch_description example_host) minimal_context initial_state =
      (Done (c', acts), s') /\
    perform c' "return_mode" = perform minimal_context "return_mode" /\
    ~ In "return_mode" (declared_names (generate_launch_description example_host)) /\
    exists (container : ComposableNodeContainer) (l hw_loader : LoadComposableNodes)
           (decoder hw : ComposableNode) (rest : list ComposableNode),
      acts = [Container container; Load l; Load hw_loader] /\
      container_nodes container = decoder :: rest /\
      load_nodes hw_loader = [hw] /\
      node_parameter decoder "return_mode" = Some (VSubst "return_mode") /\
      node_parameter hw "return_mode" = Some (VSubst "return_mode") /\
      forall key : string,
        In key decoder_argument_keys ->
        key <> "return_mode" ->
        node_parameter decoder key = Some (VSubst key) /\ configured c' key.
Proof.
  destruct minimal_launch as (c' & acts & s' & H).
  exists c', acts, s'. split; [exact H|].
  exact (return_mode_is_not_declared _ _ _ _ _ _ H).
Defined.

(** X23.  With the two required arguments given, and "use_multithread" a
    truth value if it is given, visiting the description comes down to one
    call of [launch_setup]: in a context that keeps every value the caller
    gave, "container_executable" apart, and has a value for every declared
    name and for "container_executable".  The visit returns what that call
    returns and raises what it raises. *)
Theorem description_calls_launch_setup (host : Host) (c : LaunchContext) (s : state) :
  configured c "sensor_model" ->
  configured c "vehicle_mirror_param_file" ->
  (forall text : string,
      perform c "use_multithread" = Ok text ->
      exists b : bool, evaluate_condition_expression text = Ok b) ->
  exists c' : LaunchContext,
    (forall (n v : string),
        n <> "container_executable" ->
        PyDict.get n (launch_configurations c) = Some v ->
        PyDict.get n (launch_configurations c') = Some v) /\
    (forall n : string,
        In n ("container_executable"
                :: declared_names (generate_launch_description host)) ->
        configured c' n) /\
    visit_all (generate_launch_description host) c s =
    match launch_setup host c' s with
    | (Ok acts, s') => (Done (c', acts), s')
    | (Raise e, s') => (Failed e, s')
    end.
Proof.
  intros Hm Hf Hu.
  destruct (required_ready host c s Hm Hf) as (c1 & D).
  destruct (multithread_default host c c1 s D) as [Hgiven Hdefault].
  pose proof (visit_declarations_done _ _ _ _ _ _ D)
    as (_ & _ & _ & _ & Hkeep & _ & Hdef).
  assert (E : exists b, evaluate c1 (IfCondition "use_multithread") = Ok b).
  { unfold evaluate, obind.
    destruct (PyDict.get "use_multithread" (launch_configurations c)) as [text|] eqn:G.
    - assert (P : perform c "use_multithread" = Ok text)
        by (unfold perform; rewrite G; reflexivity).
      destruct (Hu _ P) as (b & Hb). exists b. rewrite (Hgiven _ P). exact Hb.
    - exists false. rewrite Hdefault; [reflexivity|].
      unfold configured. rewrite G. intros N. apply N. reflexivity. }
  destruct E as (b & E).
  exists (set_configuration "container_executable" (executable_for b) c1).
  split; [|split].
  - intros n v N G. rewrite get_after_executable by exact N. apply Hkeep. exact G.
  - intros n [<-|Hin]; unfold configured.
    + unfold set_configuration. cbn [launch_configurations].
      rewrite get_set_same. discriminate.
    + rewrite get_after_executable.
      * apply Hdef. exact Hin.
      * intros N. subst n. exact (executable_not_declared host Hin).
  - apply description_visits; assumption.
Qed.

Lemma description_calls_launch_setup_witness :
  exists c' : LaunchContext,
    (forall (n v : string),
        n <> "container_executable" ->
        PyDict.get n (launch_configurations minimal_context) = Some v ->
        PyDict.get n (launch_configurations c') = Some v) /\
    (forall n : string,
        In n ("container_executable"
                :: declared_names (generate_launch_description example_host)) ->
        configured c' n) /\
    visit_all (generate_launch_description example_host) minimal_context initial_state =
    match launch_setup example_host c' initial_state with
    | (Ok acts, s') => (Done (c', acts), s')
    | (Raise e, s') => (Failed e, s')
    end.
Proof.
  apply (description_calls_launch_setup example_host minimal_context initial_state).
  - unfold configured. cbn. discriminate.
  - unfold configured. cbn. discriminate.
  - intros text P. cbn in P. discriminate P.
Defined.
